(** * Image scraper: page fetch, image extraction and retrying download

    A shallow embedding of [scraping/core.py] ([scrape_page],
    [extract_images_urls], [download_image]) and of the library functions
    it calls, followed by the properties of the natural-language
    specification that concern them.

    Modelling conventions.
    - A Python [str] is a [string]: a sequence of characters with code
      points below 256.  The [str] methods used by the source are written
      out in [PyStr] with their behaviour on that range.
    - An [Optional[str]] is an [option string], with [None] for [None].
    - Python integers are [Z].
    - A call that may raise returns a [result]; code that performs I/O runs
      in the monad [M], which threads a [world] (the trace of observable
      events and the files on disk) and propagates exceptions.
    - The HTTP transport, the filesystem, the clock and the HTML parser are
      capabilities gathered in an [env]: the functions are verified for
      every behaviour of these capabilities.
    - [os.path] is [posixpath]. *)

From Stdlib Require Import ZArith List String Ascii Lia DecimalString Sorted.
From stdpp Require Import base option list gmap strings.

Local Open Scope string_scope.
Local Open Scope Z_scope.

(** ** Exceptions and results *)

(** The exception classes that the source names or that its callees raise.
    [ConnectTimeout] inherits from both [ConnectionError] and [Timeout] in
    [requests.exceptions]; every class of the first block inherits from
    [RequestException]. *)
Inductive exn : Type :=
  | ReadTimeout
  | ConnectTimeout
  | HTTPError (status_code : Z)
  | ConnectionError
  | SSLError
  | ChunkedEncodingError
  | TooManyRedirects
  | OtherRequestException (msg : string)
  | ValueError (msg : string)
  | OSError (msg : string)
  | OtherException (msg : string).

Definition is_Timeout (e : exn) : bool :=
  match e with ReadTimeout | ConnectTimeout => true | _ => false end.

Definition is_HTTPError (e : exn) : bool :=
  match e with HTTPError _ => true | _ => false end.

Definition is_ConnectionError (e : exn) : bool :=
  match e with ConnectionError | ConnectTimeout | SSLError => true | _ => false end.

Definition is_RequestException (e : exn) : bool :=
  match e with
  | ReadTimeout | ConnectTimeout | HTTPError _ | ConnectionError | SSLError
  | ChunkedEncodingError | TooManyRedirects | OtherRequestException _ => true
  | ValueError _ | OSError _ | OtherException _ => false
  end.

Inductive result (A : Type) : Type :=
  | Ok (a : A)
  | Raise (e : exn).
Arguments Ok {A} a.
Arguments Raise {A} e.

Global Instance result_ret : MRet result := fun A a => Ok a.
Global Instance result_bind : MBind result := fun A B f r =>
  match r with Ok a => f a | Raise e => Raise e end.

(** ** Python [str] methods *)

Module PyStr.

Definition truthy (s : string) : bool :=
  match s with "" => false | _ => true end.

(** [s.startswith(p)] *)
Definition startswith (s p : string) : bool := String.prefix p s.

(** [c in s] for a one-character [c] *)
Fixpoint contains (c : ascii) (s : string) : bool :=
  match s with
  | "" => false
  | String a s' => if Ascii.eqb a c then true else contains c s'
  end.

(** [s.find(c)]: [None] stands for -1 *)
Fixpoint find (c : ascii) (s : string) : option nat :=
  match s with
  | "" => None
  | String a s' => if Ascii.eqb a c then Some 0%nat else S <$> find c s'
  end.

(** [s.rfind(c)] *)
Fixpoint rfind (c : ascii) (s : string) : option nat :=
  match s with
  | "" => None
  | String a s' =>
      match rfind c s' with
      | Some i => Some (S i)
      | None => if Ascii.eqb a c then Some 0%nat else None
      end
  end.

(** [s[:n]] and [s[n:]] for [0 <= n] *)
Fixpoint take (n : nat) (s : string) : string :=
  match n, s with
  | S n', String a s' => String a (take n' s')
  | _, _ => ""
  end.

Fixpoint drop (n : nat) (s : string) : string :=
  match n, s with
  | S n', String _ s' => drop n' s'
  | _, _ => s
  end.

(** [s.split(c)]: never empty *)
Fixpoint split (c : ascii) (s : string) : list string :=
  match s with
  | "" => [""]
  | String a s' =>
      let r := split c s' in
      if Ascii.eqb a c then "" :: r
      else match r with
           | h :: t => String a h :: t
           | [] => [String a ""]
           end
  end.

(** [s.split(c, 1)] as a pair, for [c in s]; [(s, "")] otherwise *)
Definition split1 (c : ascii) (s : string) : string * string :=
  match find c s with
  | Some i => (take i s, drop (S i) s)
  | None => (s, "")
  end.

(** [c.join(l)] *)
Fixpoint join (c : string) (l : list string) : string :=
  match l with
  | [] => ""
  | [x] => x
  | x :: l' => x ++ c ++ join c l'
  end.

Fixpoint lstrip (p : ascii -> bool) (s : string) : string :=
  match s with
  | "" => ""
  | String a s' => if p a then lstrip p s' else s
  end.

Definition rstrip (p : ascii -> bool) (s : string) : string :=
  String.rev (lstrip p (String.rev s)).

Definition strip_chars (p : ascii -> bool) (s : string) : string :=
  rstrip p (lstrip p s).

(** [str.isspace] on code points below 256 *)
Definition isspace (c : ascii) : bool :=
  let n := nat_of_ascii c in
  ((9 <=? n) && (n <=? 13) || (28 <=? n) && (n <=? 32)
   || (n =? 133) || (n =? 160))%nat.

(** [s.strip()] *)
Definition strip (s : string) : string := strip_chars isspace s.

Fixpoint map_chars (f : ascii -> ascii) (s : string) : string :=
  match s with
  | "" => ""
  | String a s' => String (f a) (map_chars f s')
  end.

Fixpoint remove_chars (p : ascii -> bool) (s : string) : string :=
  match s with
  | "" => ""
  | String a s' => if p a then remove_chars p s' else String a (remove_chars p s')
  end.

Fixpoint all_chars (p : ascii -> bool) (s : string) : bool :=
  match s with
  | "" => true
  | String a s' => p a && all_chars p s'
  end.

(** [str.lower] on code points below 256: A-Z, and the Latin-1 capitals
    0xC0-0xDE except the multiplication sign 0xD7. *)
Definition lower_char (c : ascii) : ascii :=
  let n := nat_of_ascii c in
  if ((65 <=? n) && (n <=? 90)
      || (192 <=? n) && (n <=? 222) && negb (n =? 215))%nat
  then ascii_of_nat (n + 32) else c.

Definition lower (s : string) : string := map_chars lower_char s.

Definition is_ascii_alpha (c : ascii) : bool :=
  let n := nat_of_ascii c in
  ((65 <=? n) && (n <=? 90) || (97 <=? n) && (n <=? 122))%nat.

Definition is_digit (c : ascii) : bool :=
  let n := nat_of_ascii c in ((48 <=? n) && (n <=? 57))%nat.

(** [str(n)] for an integer *)
Definition of_Z (n : Z) : string := NilZero.string_of_int (Z.to_int n).

End PyStr.

(** ** [posixpath] *)

Module PosixPath.

(** [basename]: [i = p.rfind('/') + 1; return p[i:]] *)
Definition basename (p : string) : string :=
  match PyStr.rfind "/" p with
  | Some i => PyStr.drop (S i) p
  | None => p
  end.

(** The loop of [genericpath._splitext] that looks for a character other
    than the dot between [filenameIndex] and [dotIndex]. *)
Fixpoint has_non_dot (s : string) : bool :=
  match s with
  | "" => false
  | String a s' => if Ascii.eqb a "." then has_non_dot s' else true
  end.

(** [splitext]: the extension starts at the last dot after the last
    separator, unless only dots precede it in the final component. *)
Definition splitext (p : string) : string * string :=
  let filenameIndex :=
    match PyStr.rfind "/" p with Some i => S i | None => 0%nat end in
  match PyStr.rfind "." p with
  | Some dotIndex =>
      if (filenameIndex <=? dotIndex)%nat
         && has_non_dot (PyStr.take (dotIndex - filenameIndex)
                                    (PyStr.drop filenameIndex p))
      then (PyStr.take dotIndex p, PyStr.drop dotIndex p)
      else (p, "")
  | None => (p, "")
  end.

Definition endswith_sep (p : string) : bool :=
  PyStr.startswith (String.rev p) "/".

(** [join(a, b)] *)
Definition join (a b : string) : string :=
  if PyStr.startswith b "/" then b
  else if negb (PyStr.truthy a) || endswith_sep a then a ++ b
  else a ++ "/" ++ b.

End PosixPath.

(** ** [urllib.parse] *)

(** [urlsplit], [urlparse], [urlunparse] and [urljoin] are written after
    [Lib/urllib/parse.py] of CPython 3.11, for [str] arguments.

    Two library functions are taken as parameters of the development.
    - [unquote] is [urllib.parse.unquote]: it decodes [%xx] escapes as
      UTF-8, which can produce code points above 255.
    - [check_bracketed_host] is the validation of a bracketed host literal
      by [urllib.parse._check_bracketed_host] ([true] when it returns,
      [false] when it raises [ValueError]); interpreter versions that
      have no such validation correspond to the constant [true]. *)
Record pylib : Type := {
  unquote : string -> string;
  check_bracketed_host : string -> bool
}.

Module Urllib.

Definition uses_relative : list string :=
  [""; "ftp"; "http"; "gopher"; "nntp"; "imap"; "wais"; "file"; "https";
   "shttp"; "mms"; "prospero"; "rtsp"; "rtspu"; "sftp"; "svn"; "svn+ssh";
   "ws"; "wss"].

Definition uses_netloc : list string :=
  [""; "ftp"; "http"; "gopher"; "nntp"; "telnet"; "imap"; "wais"; "file";
   "mms"; "https"; "shttp"; "snews"; "prospero"; "rtsp"; "rtspu"; "rsync";
   "svn"; "svn+ssh"; "sftp"; "nfs"; "git"; "git+ssh"; "ws"; "wss"].

Definition uses_params : list string :=
  [""; "ftp"; "hdl"; "prospero"; "http"; "imap"; "https"; "shttp"; "rtsp";
   "rtspu"; "sip"; "sips"; "mms"; "sftp"; "tel"].

Definition mem (s : string) (l : list string) : bool :=
  existsb (String.eqb s) l.

(** [c in scheme_chars] *)
Definition scheme_char (c : ascii) : bool :=
  PyStr.is_ascii_alpha c || PyStr.is_digit c
  || Ascii.eqb c "+" || Ascii.eqb c "-" || Ascii.eqb c ".".

(** [c in _WHATWG_C0_CONTROL_OR_SPACE] *)
Definition c0_control_or_space (c : ascii) : bool :=
  (nat_of_ascii c <=? 32)%nat.

(** [c in _UNSAFE_URL_BYTES_TO_REMOVE] *)
Definition unsafe_url_byte (c : ascii) : bool :=
  Ascii.eqb c "009" || Ascii.eqb c "013" || Ascii.eqb c "010".

(** The prefix of [s] before its first character satisfying [p], and
    the rest from that character on. *)
Fixpoint break_at (p : ascii -> bool) (s : string) : string * string :=
  match s with
  | "" => ("", "")
  | String a s' =>
      if p a then ("", s)
      else let '(h, t) := break_at p s' in (String a h, t)
  end.

(** [_splitnetloc(url, 2)] for a [url] that starts with two slashes *)
Definition splitnetloc (url : string) : string * string :=
  break_at (fun c => Ascii.eqb c "/" || Ascii.eqb c "?" || Ascii.eqb c "#")
           (PyStr.drop 2 url).

(** [s.rpartition(c)[2]] *)
Definition after_last (c : ascii) (s : string) : string :=
  match PyStr.rfind c s with
  | Some i => PyStr.drop (S i) s
  | None => s
  end.

(** [s.partition(c)] as [(before, found, after)] *)
Definition partition (c : ascii) (s : string) : string * bool * string :=
  match PyStr.find c s with
  | Some i => (PyStr.take i s, true, PyStr.drop (S i) s)
  | None => (s, false, "")
  end.

(** [s.find(c, start)] *)
Definition find_from (c : ascii) (s : string) (start : nat) : option nat :=
  (fun i => (start + i)%nat) <$> PyStr.find c (PyStr.drop start s).

(** [_splitparams(url)] *)
Definition splitparams (url : string) : string * string :=
  let i :=
    if PyStr.contains "/" url
    then find_from ";" url (default 0%nat (PyStr.rfind "/" url))
    else PyStr.find ";" url in
  match i with
  | Some i => (PyStr.take i url, PyStr.drop (S i) url)
  | None => (url, "")
  end.

(** [urlunsplit((scheme, netloc, url, query, fragment))] *)
Definition urlunsplit (scheme netloc url query fragment : string) : string :=
  let url :=
    if PyStr.truthy netloc
       || (PyStr.truthy scheme && mem scheme uses_netloc
           && negb (PyStr.startswith url "//"))
    then "//" ++ netloc
         ++ (if PyStr.truthy url && negb (PyStr.startswith url "/")
             then "/" ++ url else url)
    else url in
  let url := if PyStr.truthy scheme then scheme ++ ":" ++ url else url in
  let url := if PyStr.truthy query then url ++ "?" ++ query else url in
  if PyStr.truthy fragment then url ++ "#" ++ fragment else url.

(** [urlunparse((scheme, netloc, url, params, query, fragment))] *)
Definition urlunparse (scheme netloc url params query fragment : string)
  : string :=
  let url := if PyStr.truthy params then url ++ ";" ++ params else url in
  urlunsplit scheme netloc url query fragment.

(** [segments[1:-1] = filter(None, segments[1:-1])] *)
Definition drop_empty_middle (segments : list string) : list string :=
  match segments with
  | first :: (_ :: _) as rest =>
      (first :: filter (fun s => PyStr.truthy s = true) (removelast rest)
             ++ [List.last rest ""])%list
  | _ => segments
  end.

(** The loop of [urljoin] over the segments: [..] pops the last resolved
    segment (nothing when there is none), [.] is skipped. *)
Fixpoint resolve (segments resolved_path : list string) : list string :=
  match segments with
  | [] => resolved_path
  | seg :: segments' =>
      if String.eqb seg ".." then resolve segments' (removelast resolved_path)
      else if String.eqb seg "." then resolve segments' resolved_path
      else resolve segments' (resolved_path ++ [seg])%list
  end.

Record ParseResult : Type := {
  scheme : string;
  netloc : string;
  path : string;
  params : string;
  query : string;
  fragment : string
}.

Section WithLib.

Variable L : pylib.

(** [_check_bracketed_netloc(netloc)] *)
Definition check_bracketed_netloc (netloc : string) : result unit :=
  let hostname_and_port := after_last "@" netloc in
  let '(before_bracket, have_open_br, bracketed) :=
    partition "[" hostname_and_port in
  hostname ←
    (if have_open_br then
       if PyStr.truthy before_bracket
       then Raise (ValueError "Invalid IPv6 URL")
       else
         let '(hostname, _, port) := partition "]" bracketed in
         if PyStr.truthy port && negb (PyStr.startswith port ":")
         then Raise (ValueError "Invalid IPv6 URL")
         else Ok hostname
     else Ok (partition ":" hostname_and_port).1.1);
  if check_bracketed_host L hostname then Ok tt
  else Raise (ValueError "invalid bracketed host").

(** [urlsplit(url, scheme)].  [_checknetloc] is omitted: it raises only
    when the NFKC normal form of the netloc contains one of [/?#@:]
    that the netloc itself does not, which no code point below 256
    produces. *)
Definition urlsplit (url scheme : string)
  : result (string * string * string * string * string) :=
  let url := PyStr.lstrip c0_control_or_space url in
  let scheme := PyStr.strip_chars c0_control_or_space scheme in
  let url := PyStr.remove_chars unsafe_url_byte url in
  let scheme := PyStr.remove_chars unsafe_url_byte scheme in
  let '(scheme, url) :=
    match PyStr.find ":" url, url with
    | Some (S _ as i), String c0 _ =>
        if PyStr.is_ascii_alpha c0
           && PyStr.all_chars scheme_char (PyStr.take i url)
        then (PyStr.lower (PyStr.take i url), PyStr.drop (S i) url)
        else (scheme, url)
    | _, _ => (scheme, url)
    end in
  '(netloc, url) ←
    (if PyStr.startswith url "//" then
       let '(netloc, rest) := splitnetloc url in
       let open_br := PyStr.contains "[" netloc in
       let close_br := PyStr.contains "]" netloc in
       if (open_br && negb close_br) || (close_br && negb open_br)
       then Raise (ValueError "Invalid IPv6 URL")
       else if open_br && close_br
            then check_bracketed_netloc netloc ≫= λ _, Ok (netloc, rest)
            else Ok (netloc, rest)
     else Ok ("", url));
  let '(url, fragment) :=
    if PyStr.contains "#" url then PyStr.split1 "#" url else (url, "") in
  let '(url, query) :=
    if PyStr.contains "?" url then PyStr.split1 "?" url else (url, "") in
  Ok (scheme, netloc, url, query, fragment).

(** [urlparse(url, scheme)] *)
Definition urlparse (url scheme : string) : result ParseResult :=
  '(scheme, netloc, url, query, fragment) ← urlsplit url scheme;
  let '(url, params) :=
    if mem scheme uses_params && PyStr.contains ";" url
    then splitparams url else (url, "") in
  Ok {| scheme := scheme; netloc := netloc; path := url;
        params := params; query := query; fragment := fragment |}.

(** [urljoin(base, url)] *)
Definition urljoin (base url : string) : result string :=
  if negb (PyStr.truthy base) then Ok url
  else if negb (PyStr.truthy url) then Ok base
  else
    b ← urlparse base "";
    u ← urlparse url (scheme b);
    if negb (String.eqb (scheme u) (scheme b))
       || negb (mem (scheme u) uses_relative)
    then Ok url
    else if mem (scheme u) uses_netloc && PyStr.truthy (netloc u)
    then Ok (urlunparse (scheme u) (netloc u) (path u) (params u)
                        (query u) (fragment u))
    else
      let netloc' :=
        if mem (scheme u) uses_netloc then netloc b else netloc u in
      if negb (PyStr.truthy (path u)) && negb (PyStr.truthy (params u))
      then
        Ok (urlunparse (scheme u) netloc' (path b) (params b)
                       (if PyStr.truthy (query u)
                        then query u else query b)
                       (fragment u))
      else
        let base_parts := PyStr.split "/" (path b) in
        let base_parts :=
          if String.eqb (List.last base_parts "") "" then base_parts
          else removelast base_parts in
        let segments :=
          if PyStr.startswith (path u) "/" then PyStr.split "/" (path u)
          else drop_empty_middle
                 (base_parts ++ PyStr.split "/" (path u))%list in
        let resolved_path := resolve segments [] in
        let resolved_path :=
          if mem (List.last segments "") ["."; ".."]
          then (resolved_path ++ [""])%list else resolved_path in
        let joined := PyStr.join "/" resolved_path in
        Ok (urlunparse (scheme u) netloc'
                       (if PyStr.truthy joined then joined else "/")
                       (params u) (query u) (fragment u)).

End WithLib.

End Urllib.

(** ** The world the program runs in *)

(** [requests.Response]: the fields the source reads.  [iter_content]
    gives the chunks that the streamed body yields for a chunk size;
    [stream_error] is the exception, if any, that the stream raises once
    these chunks have been consumed. *)
Record response : Type := {
  status_code : Z;
  content_type : option string;
  text : string;
  iter_content : Z -> list string;
  stream_error : option exn
}.

(** [Response.raise_for_status]: [HTTPError] for the client errors
    (400-499) and the server errors (500-599), nothing otherwise. *)
Definition raise_for_status (r : response) : result unit :=
  if (400 <=? status_code r) && (status_code r <? 500) then
    Raise (HTTPError (status_code r))
  else if (500 <=? status_code r) && (status_code r <? 600) then
    Raise (HTTPError (status_code r))
  else Ok tt.

(** [response.headers.get('content-type', '')] *)
Definition header_content_type (r : response) : string :=
  default "" (content_type r).

(** A parsed document: a forest of tags, each with its attribute
    dictionary, and of text nodes. *)
#[warnings="-register-all"]
Inductive node : Type :=
  | Text (s : string)
  | Tag (name : string) (attrs : gmap string string) (children : list node).

Record BeautifulSoup : Type := { contents : list node }.

(** The descendants of [n] ([n] included) named [name], in document
    order. *)
Fixpoint node_find_all (name : string) (n : node) : list node :=
  match n with
  | Text _ => []
  | Tag nm _ children =>
      ((if String.eqb nm name then [n] else [])
       ++ flat_map (node_find_all name) children)%list
  end.

(** [soup.find_all(name)] *)
Definition find_all (name : string) (soup : BeautifulSoup) : list node :=
  flat_map (node_find_all name) (contents soup).

(** [tag.get(key)] *)
Definition tag_get (n : node) (key : string) : option string :=
  match n with
  | Tag _ attrs _ => attrs !! key
  | Text _ => None
  end.

Inductive level : Type := DEBUG | INFO | WARNING | ERROR.

(** One constructor per [logging] call of the source, with the values it
    formats. *)
Inductive log_msg : Type :=
  | MsgRequesting (url : string)
  | MsgResponseReceived (status : Z)
  | MsgParsed
  | MsgTimedOut (timeout : Z) (url : string)
  | MsgHTTPStatus (status : Z) (url : string)
  | MsgConnectionFailed (url : string)
  | MsgRequestFailed (e : exn)
  | MsgUnexpected (e : exn)
  | MsgNoImages (url : string)
  | MsgFoundImages (n : Z) (url : string)
  | MsgNoSource (i : Z)
  | MsgProcessed (i : Z) (img_url : string)
  | MsgImageError (i : Z) (e : exn)
  | MsgInvalidProtocol (url : string)
  | MsgAttempt (n : Z) (url : string)
  | MsgNotImage (url : string)
  | MsgDownloaded (full_path : string)
  | MsgAttemptFailed (n : Z) (e : exn)
  | MsgAllFailed (url : string).

Inductive event : Type :=
  | Log (lvl : level) (msg : log_msg)
  | HttpGet (url : string) (headers : gmap string string) (timeout : Z)
            (stream : bool)
  | HttpHead (url : string) (headers : gmap string string) (timeout : Z)
  | MakeDirs (path : string)
  | Clock
  | Sleep (seconds : Z)
  | FileOpen (path : string)
  | FileWrite (path : string) (chunk : string).

(** The capabilities: what the transport answers to the n-th GET of the
    run and to a HEAD, whether the filesystem accepts a directory
    creation, an open for writing and a write, what the clock reads at
    its n-th reading of the run, and what the HTML parser returns. *)
Record env : Type := {
  http_get : nat -> string -> result response;
  http_head : string -> result response;
  os_makedirs : string -> result unit;
  file_open : string -> result unit;
  file_write : string -> string -> string -> result unit;
  time_time : nat -> Z;
  html_parse : string -> string -> result BeautifulSoup
}.

(** The events so far and the content of the files.  The file
    [scraper.log] of the logging handler (lines 51-58) is not among
    [files]: what the program appends to it is the [Log] events of the
    trace at level [INFO] and above. *)
Record world : Type := {
  trace : list event;
  files : gmap string string
}.

Definition is_get (ev : event) : bool :=
  match ev with HttpGet _ _ _ _ => true | _ => false end.

(** The number of GET requests in a trace, and the sleeps in order. *)
Definition gets (t : list event) : nat := length (List.filter is_get t).

Definition sleeps (t : list event) : list Z :=
  flat_map (fun ev => match ev with Sleep s => [s] | _ => [] end) t.

Definition is_clock (ev : event) : bool :=
  match ev with Clock => true | _ => false end.

(** The number of readings of the clock in a trace. *)
Definition clocks (t : list event) : nat := length (List.filter is_clock t).

(** ** The monad of effectful code *)

Definition M (A : Type) : Type := world -> result A * world.

Global Instance M_ret : MRet M := fun A a w => (Ok a, w).
Global Instance M_bind : MBind M := fun A B f m w =>
  match m w with
  | (Ok a, w') => f a w'
  | (Raise e, w') => (Raise e, w')
  end.

Definition throw {A : Type} (e : exn) : M A := fun w => (Raise e, w).

Definition lift {A : Type} (r : result A) : M A := fun w => (r, w).

Definition emit (ev : event) : M unit := fun w =>
  (Ok tt, {| trace := trace w ++ [ev]; files := files w |}).

(** [try: body except ...: handler]: [handler e] is [None] when no
    [except] clause matches [e]. *)
Definition try_except {A : Type} (body : M A) (handler : exn -> option (M A))
  : M A := fun w =>
  match body w with
  | (Ok a, w') => (Ok a, w')
  | (Raise e, w') =>
      match handler e with
      | Some h => h w'
      | None => (Raise e, w')
      end
  end.

(** [logging.info(...)] and the like: the record is an event of the
    trace.  The handlers of lines 51-58 print it and append it to the
    file [scraper.log] when its level is [INFO] or above. *)
Definition logging (lvl : level) (msg : log_msg) : M unit := emit (Log lvl msg).

(** ** [scraping/core.py] *)

(** [{'position': i, 'url': img_url, 'alt': alt_text, 'page_url': url}] *)
Record ImageReference : Type := {
  position : Z;
  url : option string;
  alt : string;
  page_url : string
}.

(** What one iteration of a loop body hands back: fall through to the
    next iteration, or [return] a value from the enclosing function. *)
Inductive flow (A : Type) : Type :=
  | Next
  | Return (a : A).
Arguments Next {A}.
Arguments Return {A} a.

(** [a or b] on optional strings: [a] when it is truthy, else [b]. *)
Definition py_or (a b : option string) : option string :=
  match a with
  | Some s => if PyStr.truthy s then a else b
  | None => b
  end.

(** [enumerate(l, start)] *)
Fixpoint enumerate {A : Type} (start : Z) (l : list A) : list (Z * A) :=
  match l with
  | [] => []
  | x :: l' => (start, x) :: enumerate (start + 1) l'
  end.

(** The character class of the [re.sub] that cleans the file name:
    backslash, slash, star, question mark, colon, double quote, angle
    brackets and bar. *)
Definition illegal_char (c : ascii) : bool :=
  Ascii.eqb c "\" || Ascii.eqb c "/" || Ascii.eqb c "*" || Ascii.eqb c "?"
  || Ascii.eqb c ":" || Ascii.eqb c "034" || Ascii.eqb c "<"
  || Ascii.eqb c ">" || Ascii.eqb c "|".

Definition clean_filename (filename : string) : string :=
  PyStr.map_chars (fun c => if illegal_char c then "_"%char else c) filename.

Definition allowed_extensions : list string :=
  [".jpg"; ".jpeg"; ".png"; ".gif"; ".webp"].

(** [f".{content_type.split('/')[1].split(';')[0]}"] *)
Definition ext_of_content_type (content_type : string) : string :=
  "." ++ List.hd "" (PyStr.split ";"
                       (List.nth 1 (PyStr.split "/" content_type) "")).

(** Lines 268-272: an empty or foreign extension becomes [.jpg]. *)
Definition force_valid_ext (file_ext : string) : string :=
  if negb (PyStr.truthy file_ext) then ".jpg"
  else if negb (Urllib.mem file_ext allowed_extensions) then ".jpg"
  else file_ext.

Section Scraper.

Variable L : pylib.
Variable E : env.

(** [requests.get(url, headers=..., timeout=..., stream=...)] *)
Definition requests_get (url : string) (headers : gmap string string)
    (timeout : Z) (stream : bool) : M response := fun w =>
  (http_get E (gets (trace w)) url,
   {| trace := trace w ++ [HttpGet url headers timeout stream];
      files := files w |}).

(** [requests.head(url, timeout=..., headers=...)] *)
Definition requests_head (url : string) (headers : gmap string string)
    (timeout : Z) : M response :=
  emit (HttpHead url headers timeout);; lift (http_head E url).

(** [os.makedirs(save_dir, exist_ok=True)] *)
Definition makedirs (save_dir : string) : M unit :=
  emit (MakeDirs save_dir);; lift (os_makedirs E save_dir).

(** [int(time.time())]: the clock is read once more. *)
Definition time_now : M Z := fun w =>
  (Ok (time_time E (clocks (trace w))),
   {| trace := trace w ++ [Clock]; files := files w |}).

(** [time.sleep(seconds)] *)
Definition sleep (seconds : Z) : M unit := emit (Sleep seconds).

(** [open(full_path, 'wb')]: the file is created or truncated. *)
Definition open_wb (full_path : string) : M unit := fun w =>
  match file_open E full_path with
  | Ok _ =>
      (Ok tt, {| trace := trace w ++ [FileOpen full_path];
                 files := <[full_path := ""]> (files w) |})
  | Raise e =>
      (Raise e, {| trace := trace w ++ [FileOpen full_path];
                   files := files w |})
  end.

(** [f.write(chunk)] *)
Definition write (full_path chunk : string) : M unit := fun w =>
  let written := default "" (files w !! full_path) in
  match file_write E full_path written chunk with
  | Ok _ =>
      (Ok tt, {| trace := trace w ++ [FileWrite full_path chunk];
                 files := <[full_path := written ++ chunk]> (files w) |})
  | Raise e =>
      (Raise e, {| trace := trace w ++ [FileWrite full_path chunk];
                   files := files w |})
  end.

(** *** [scrape_page] *)

Definition scrape_page (url : string) (headers : gmap string string)
    (timeout : Z) (parser : string) : M (option BeautifulSoup) :=
  try_except
    (logging INFO (MsgRequesting url);;
     response ← requests_get url headers timeout false;
     lift (raise_for_status response);;
     logging DEBUG (MsgResponseReceived (status_code response));;
     soup ← lift (html_parse E (text response) parser);
     logging INFO MsgParsed;;
     mret (Some soup))
    (fun e => Some (
       (if is_Timeout e then
          logging ERROR (MsgTimedOut timeout url)
        else if is_HTTPError e then
          logging ERROR
            (MsgHTTPStatus
               (match e with HTTPError c => c | _ => 0 end) url)
        else if is_ConnectionError e then
          logging ERROR (MsgConnectionFailed url)
        else if is_RequestException e then
          logging ERROR (MsgRequestFailed e)
        else
          logging ERROR (MsgUnexpected e));;
       mret None)).

(** *** [extract_images_urls] *)

(** [img.get('src') or img.get('data-src') or img.get('data-lazy-src')] *)
Definition image_source (img : node) : option string :=
  py_or (tag_get img "src")
        (py_or (tag_get img "data-src") (tag_get img "data-lazy-src")).

(** The body of the [try] for image [img] at position [i]: the list
    [image_data] with the reference appended. *)
Definition process_image (url : string) (i : Z) (img : node)
    (image_data : list ImageReference) : M (list ImageReference) :=
  let img_url := image_source img in
  let alt_text := PyStr.strip (default "" (tag_get img "alt")) in
  match img_url with
  | Some src =>
      if negb (PyStr.truthy src) then
        logging DEBUG (MsgNoSource i);;
        mret (image_data ++ [{| position := i; url := None;
                                alt := alt_text; page_url := url |}])%list
      else
        img_url ←
          (if negb (PyStr.startswith src "http"
                    || PyStr.startswith src "https")
           then lift (Urllib.urljoin L url src)
           else mret src);
        logging DEBUG (MsgProcessed i img_url);;
        mret (image_data ++ [{| position := i; url := Some img_url;
                                alt := alt_text; page_url := url |}])%list
  | None =>
      logging DEBUG (MsgNoSource i);;
      mret (image_data ++ [{| position := i; url := None;
                              alt := alt_text; page_url := url |}])%list
  end.

(** [for i, img in enumerate(images, 1): try: ... except Exception: ...] *)
Fixpoint extract_loop (url : string) (images : list (Z * node))
    (image_data : list ImageReference) : M (list ImageReference) :=
  match images with
  | [] => mret image_data
  | (i, img) :: images' =>
      image_data ←
        try_except (process_image url i img image_data)
          (fun e => Some (logging ERROR (MsgImageError i e);;
                          mret image_data));
      extract_loop url images' image_data
  end.

(** The two [isinstance] checks of the source hold by typing. *)
Definition extract_images_urls (url : string) (soup : BeautifulSoup)
  : M (list ImageReference) :=
  let images := find_all "img" soup in
  match images with
  | [] => logging INFO (MsgNoImages url);; mret []
  | _ =>
      logging INFO (MsgFoundImages (Z.of_nat (length images)) url);;
      extract_loop url (enumerate 1 images) []
  end.

(** *** [download_image] *)

(** Lines 239-251: the file name before cleaning.  [custom_filename]
    is used when it is neither [None] nor empty. *)
Definition derive_filename (url : string) (custom_filename : option string)
  : M string :=
  if PyStr.truthy (default "" custom_filename)
  then mret (default "" custom_filename)
  else
    parsed ← lift (Urllib.urlparse L (unquote L url) "");
    let filename := PosixPath.basename (Urllib.path parsed) in
    let filename := List.hd "" (PyStr.split "?" filename) in
    if negb (PyStr.truthy filename) || negb (PyStr.contains "." filename)
    then now ← time_now; mret ("image_" ++ PyStr.of_Z now)
    else mret filename.

(** Lines 257-266: the extension of the cleaned name or, when there is
    none, the one probed with a HEAD request; any exception of the probe
    gives [.jpg]. *)
Definition determine_ext (url : string) (headers : gmap string string)
    (filename : string) : M string :=
  let file_ext := PyStr.lower (PosixPath.splitext filename).2 in
  if negb (PyStr.truthy file_ext) then
    try_except
      (response ← requests_head url headers 5;
       let content_type := header_content_type response in
       if PyStr.startswith content_type "image/"
       then mret (ext_of_content_type content_type)
       else mret file_ext)
      (fun _ => Some (mret ".jpg"))
  else mret file_ext.

(** [for chunk in response.iter_content(...): if chunk: f.write(chunk)] *)
Fixpoint write_chunks (full_path : string) (chunks : list string) : M unit :=
  match chunks with
  | [] => mret tt
  | chunk :: chunks' =>
      (if PyStr.truthy chunk then write full_path chunk else mret tt);;
      write_chunks full_path chunks'
  end.

(** The body of the retry loop for one value of [attempt]. *)
Definition download_attempt (url : string) (headers : gmap string string)
    (timeout chunk_size retries : Z) (full_path : string) (attempt : Z)
  : M (flow (option string)) :=
  try_except
    (logging INFO (MsgAttempt (attempt + 1) url);;
     response ← requests_get url headers timeout true;
     lift (raise_for_status response);;
     let content_type := header_content_type response in
     if negb (PyStr.startswith content_type "image/") then
       logging ERROR (MsgNotImage url);;
       mret (Return None)
     else
       open_wb full_path;;
       write_chunks full_path (iter_content response chunk_size);;
       match stream_error response with
       | Some e => throw e
       | None =>
           logging INFO (MsgDownloaded full_path);;
           mret (Return (Some full_path))
       end)
    (fun e =>
       if is_RequestException e then Some (
         logging WARNING (MsgAttemptFailed (attempt + 1) e);;
         if attempt =? retries then
           logging ERROR (MsgAllFailed url);;
           mret (Return None)
         else
           sleep (2 ^ attempt);;
           mret Next)
       else None).

(** [for attempt in range(retries + 1): ...], then [return None]. *)
Fixpoint download_loop (url : string) (headers : gmap string string)
    (timeout chunk_size retries : Z) (full_path : string)
    (attempts : list Z) : M (option string) :=
  match attempts with
  | [] => mret None
  | attempt :: attempts' =>
      r ← download_attempt url headers timeout chunk_size retries
            full_path attempt;
      match r with
      | Return v => mret v
      | Next => download_loop url headers timeout chunk_size retries
                              full_path attempts'
      end
  end.

(** [range(n)] *)
Definition range (n : Z) : list Z :=
  List.map Z.of_nat (seq 0 (Z.to_nat n)).

(** Lines 235-276: the save directory is created and the destination
    path is derived. *)
Definition download_path (url : string) (headers : gmap string string)
    (save_dir : string) (custom_filename : option string) : M string :=
  makedirs save_dir;;
  filename ← derive_filename url custom_filename;
  let filename := clean_filename filename in
  file_ext ← determine_ext url headers filename;
  let file_ext := force_valid_ext file_ext in
  let base_name := (PosixPath.splitext filename).1 in
  let full_filename := base_name ++ file_ext in
  mret (PosixPath.join save_dir full_filename).

Definition download_image (url : string) (headers : gmap string string)
    (save_dir : string) (timeout chunk_size retries : Z)
    (custom_filename : option string) : M (option string) :=
  if negb (PyStr.startswith url "http://" || PyStr.startswith url "https://")
  then
    logging ERROR (MsgInvalidProtocol url);;
    throw (ValueError "URL must start with http:// or https://")
  else
    full_path ← download_path url headers save_dir custom_filename;
    download_loop url headers timeout chunk_size retries full_path
                  (range (retries + 1)).

End Scraper.

(** ** Reference behaviour: results and traces *)

(** The reference that [process_image] appends for the image [img] at
    position [i], or [None] when the resolution of its source raises. *)
Definition reference_of (L : pylib) (url : string) (item : Z * node)
  : option ImageReference :=
  let '(i, img) := item in
  let alt_text := PyStr.strip (default "" (tag_get img "alt")) in
  match image_source img with
  | Some src =>
      if negb (PyStr.truthy src) then
        Some {| position := i; url := None; alt := alt_text; page_url := url |}
      else if PyStr.startswith src "http" || PyStr.startswith src "https" then
        Some {| position := i; url := Some src; alt := alt_text;
                page_url := url |}
      else
        match Urllib.urljoin L url src with
        | Ok u => Some {| position := i; url := Some u; alt := alt_text;
                          page_url := url |}
        | Raise _ => None
        end
  | None =>
      Some {| position := i; url := None; alt := alt_text; page_url := url |}
  end.

(** The log records of one iteration. *)
Definition image_log (L : pylib) (url : string) (item : Z * node)
  : list event :=
  let '(i, img) := item in
  match image_source img with
  | Some src =>
      if negb (PyStr.truthy src) then [Log DEBUG (MsgNoSource i)]
      else if PyStr.startswith src "http" || PyStr.startswith src "https" then
        [Log DEBUG (MsgProcessed i src)]
      else
        match Urllib.urljoin L url src with
        | Ok u => [Log DEBUG (MsgProcessed i u)]
        | Raise e => [Log ERROR (MsgImageError i e)]
        end
  | None => [Log DEBUG (MsgNoSource i)]
  end.

(** The image elements whose source is relative and makes the join with
    the page URL raise. *)
Definition unresolvable (L : pylib) (url : string) (img : node) : bool :=
  match reference_of L url (0, img) with
  | Some _ => false
  | None => true
  end.

Definition is_log (ev : event) : bool :=
  match ev with Log _ _ => true | _ => false end.

Definition log_to (w : world) (t : list event) : world :=
  {| trace := (trace w ++ t)%list; files := files w |}.

(** The log records of [extract_images_urls]. *)
Definition extract_log (L : pylib) (url : string) (soup : BeautifulSoup)
  : list event :=
  match find_all "img" soup with
  | [] => [Log INFO (MsgNoImages url)]
  | images =>
      Log INFO (MsgFoundImages (Z.of_nat (length images)) url)
      :: flat_map (image_log L url) (enumerate 1 images)
  end.

(** The failure classes of [scrape_page]: the [except] clauses in the
    order of the source. *)
Inductive fetch_failure : Type :=
  | FetchTimeout
  | FetchHTTPStatus (status : Z)
  | FetchConnection
  | FetchRequest
  | FetchUnexpected.

(** The first [except] clause that matches [e]. *)
Definition failure_class (e : exn) : fetch_failure :=
  if is_Timeout e then FetchTimeout
  else match e with
       | HTTPError status => FetchHTTPStatus status
       | _ =>
           if is_ConnectionError e then FetchConnection
           else if is_RequestException e then FetchRequest
           else FetchUnexpected
       end.

(** The record that the clause of a failure class logs. *)
Definition failure_record (timeout : Z) (page : string) (e : exn) : log_msg :=
  match failure_class e with
  | FetchTimeout => MsgTimedOut timeout page
  | FetchHTTPStatus status => MsgHTTPStatus status page
  | FetchConnection => MsgConnectionFailed page
  | FetchRequest => MsgRequestFailed e
  | FetchUnexpected => MsgUnexpected e
  end.

(** The events of a failed attempt that is followed by a retry, and of a
    run of [k] such attempts starting with attempt [first], the i-th of
    which fails with [fail i]. *)
Definition failed_attempt (url : string) (headers : gmap string string)
    (timeout : Z) (fail : nat -> exn) (i : nat) : list event :=
  [Log INFO (MsgAttempt (Z.of_nat i + 1) url);
   HttpGet url headers timeout true;
   Log WARNING (MsgAttemptFailed (Z.of_nat i + 1) (fail i));
   Sleep (2 ^ Z.of_nat i)].

Definition failed_attempts (url : string) (headers : gmap string string)
    (timeout : Z) (fail : nat -> exn) (first k : nat) : list event :=
  flat_map (failed_attempt url headers timeout fail) (seq first k).

(** The events with which an attempt starts. *)
Definition attempt_start (url : string) (headers : gmap string string)
    (timeout : Z) (i : nat) : list event :=
  [Log INFO (MsgAttempt (Z.of_nat i + 1) url);
   HttpGet url headers timeout true].

(** The events of [download_path] after the directory creation: a clock
    reading or a HEAD request. *)
Definition is_probe (ev : event) : bool :=
  match ev with Clock | HttpHead _ _ _ => true | _ => false end.

(** The world after [t] has been appended to the trace and the file [p]
    holds [content]. *)
Definition saved (w : world) (t : list event) (p content : string) : world :=
  {| trace := (trace w ++ t)%list; files := <[p := content]> (files w) |}.

(** The bytes of the chunks of a body, in order. *)
Definition body_of (chunks : list string) : string :=
  fold_right String.append "" chunks.

(** The writes of the chunks of a body: one per non-empty chunk. *)
Definition writes_of (p : string) (chunks : list string) : list event :=
  List.map (FileWrite p) (List.filter PyStr.truthy chunks).

(** A response that is a valid image: a 2xx status, a content type that
    begins with [image/], and a body that streams without error. *)
Definition valid_image (r : response) : Prop :=
  200 <= status_code r < 300
  /\ PyStr.startswith (header_content_type r) "image/" = true
  /\ stream_error r = None.

(** ** A concrete library and concrete worlds *)

Definition hex_value (c : ascii) : option nat :=
  let n := nat_of_ascii c in
  if PyStr.is_digit c then Some (n - 48)%nat
  else if ((65 <=? n) && (n <=? 70))%nat then Some (n - 55)%nat
  else if ((97 <=? n) && (n <=? 102))%nat then Some (n - 87)%nat
  else None.

(** Percent-decoding of the escapes [%00]-[%7F]; an escape that is
    malformed stays as it is, as in [urllib.parse.unquote].  On a string
    whose well-formed escapes are all below [%80] this is
    [urllib.parse.unquote]; a higher escape, which the library decodes as
    UTF-8, is left undecoded here. *)
Fixpoint unquote_ascii (s : string) : string :=
  match s with
  | "" => ""
  | String c s' =>
      if Ascii.eqb c "%" then
        match s' with
        | String a (String b rest) =>
            match hex_value a, hex_value b with
            | Some h, Some l =>
                if (h <? 8)%nat
                then String (ascii_of_nat (16 * h + l)) (unquote_ascii rest)
                else String c (unquote_ascii s')
            | _, _ => String c (unquote_ascii s')
            end
        | _ => String c (unquote_ascii s')
        end
      else String c (unquote_ascii s')
  end.

(** The library of an interpreter that accepts every bracketed host. *)
Definition cpython : pylib :=
  {| unquote := unquote_ascii; check_bracketed_host := fun _ => true |}.

Definition DEFAULT_HEADERS : gmap string string :=
  {[ "User-Agent" := "Mozilla/5.0 (Windows NT 10.0; Win64; x64)";
     "Accept-Language" := "en-US,en;q=0.9" ]}.

Definition empty_world : world := {| trace := []; files := ∅ |}.

Definition img (attrs : gmap string string) : node := Tag "img" attrs [].

(** A page with two image elements; the source of the first one opens a
    bracketed host that it never closes. *)
Definition page_with_bad_source : BeautifulSoup :=
  {| contents := [img {[ "src" := "//[" ]}; img {[ "src" := "a.png" ]}] |}.

Definition page_with_relative_source : BeautifulSoup :=
  {| contents := [img {[ "src" := "../c.png" ]}] |}.

Definition not_modified : response :=
  {| status_code := 304; content_type := None; text := "";
     iter_content := fun _ => []; stream_error := None |}.

(** A world whose transport answers the n-th GET with [get n], whose HEAD
    requests fail, whose filesystem accepts everything and whose parser
    returns the document [doc]. *)
Definition env_of (get : nat -> result response) (doc : BeautifulSoup) : env :=
  {| http_get := fun n _ => get n;
     http_head := fun _ => Raise ConnectionError;
     os_makedirs := fun _ => Ok tt;
     file_open := fun _ => Ok tt;
     file_write := fun _ _ _ => Ok tt;
     time_time := fun n => Z.of_nat n + 1762272000;
     html_parse := fun _ _ => Ok doc |}.

Definition png_response : response :=
  {| status_code := 200; content_type := Some "image/png"; text := "";
     iter_content := fun _ => ["PNG"; ""; "data"]; stream_error := None |}.

Definition html_response : response :=
  {| status_code := 200; content_type := Some "text/html";
     text := "<html></html>"; iter_content := fun _ => ["<html></html>"];
     stream_error := None |}.

(** A transport whose first [k] GET requests fail to connect and whose
    later ones are answered with [r]. *)
Definition flaky (k : nat) (r : response) (n : nat) : result response :=
  if (n <? k)%nat then Raise ConnectionError else Ok r.

(** A world whose transport answers the n-th GET with [get n] and a HEAD
    with [head], and whose filesystem answers [opened] to an open and
    [written] to a write. *)
Definition env_with (get : nat -> result response) (head : result response)
    (opened written : result unit) : env :=
  {| http_get := fun n _ => get n;
     http_head := fun _ => head;
     os_makedirs := fun _ => Ok tt;
     file_open := fun _ => opened;
     file_write := fun _ _ _ => written;
     time_time := fun n => Z.of_nat n + 1762272000;
     html_parse := fun _ _ => Ok {| contents := [] |} |}.

Definition connection_errors (i : nat) : exn := ConnectionError.

(** ** Footprints and failures of a download *)

(** [w'] is [w] with the events [t] appended and, possibly, another
    content for the file [p]: no other file differs. *)
Definition touches_only (p : string) (w w' : world) (t : list event) : Prop :=
  trace w' = (trace w ++ t)%list
  /\ forall q, q <> p -> files w' !! q = files w !! q.

(** The answer [out] to a GET makes the attempt fail with [e] and be
    retried: the transport raised the request exception [e], or it
    returned a 4xx or 5xx status, for which [raise_for_status] raises
    [HTTPError]. *)
Definition get_fails (out : result response) (e : exn) : Prop :=
  (out = Raise e /\ is_RequestException e = true)
  \/ (exists r, out = Ok r /\ 400 <= status_code r < 600
                /\ e = HTTPError (status_code r)).

(** The backoff sleeps after the attempts [0], ..., [m - 1]. *)
Definition backoff (m : nat) : list Z :=
  List.map (fun i => 2 ^ Z.of_nat i) (seq 0 m).

(** Where the sleeps of a trace are: for each sleep, in order, the number
    of GET requests that precede it in the trace (counted from [n]) and
    its seconds. *)
Fixpoint sleeps_at (n : nat) (t : list event) : list (nat * Z) :=
  match t with
  | [] => []
  | Sleep s :: t' => (n, s) :: sleeps_at n t'
  | ev :: t' => sleeps_at (if is_get ev then S n else n) t'
  end.

(** The file of the logging handler (lines 51-58). *)
Definition scraper_log : string := "scraper.log".

(** The characters that the cleaning of the file name leaves. *)
Definition legal_char (c : ascii) : bool := negb (illegal_char c).

(** ** [scraping/main.py] *)


(** One constructor per [logging] call of [main.py]. *)
Inductive main_msg : Type :=
  | MsgScrapingError (url : string) (e : exn)
  | MsgStarting
  | MsgProcessingPage (i : Z) (url : string)
  | MsgPageError (i : Z) (e : exn)
  | MsgCompleted.

(** A log record of [main.py], with the number of events of the scraping
    functions that precede it. *)
Record main_record : Type := {
  after_events : nat;
  main_level : level;
  main_message : main_msg
}.

(** The state of a run of [main.py]: the world of the scraping functions
    and the log records of [main.py] itself. *)
Record session : Type := {
  core : world;
  journal : list main_record
}.

Definition D (A : Type) : Type := session -> result A * session.

Global Instance D_ret : MRet D := fun A a s => (Ok a, s).

(** A call of a function of [core.py]. *)
Definition run_core {A : Type} (m : M A) : D A := fun s =>
  let '(r, w') := m (core s) in (r, {| core := w'; journal := journal s |}).

(** [logging.info(...)] and [logging.error(...)] of [main.py] *)
Definition main_logging (lvl : level) (msg : main_msg) : D unit := fun s =>
  (Ok tt,
   {| core := core s;
      journal := journal s
                 ++ [{| after_events := length (trace (core s));
                        main_level := lvl; main_message := msg |}] |}).

(** [try: body except Exception as e: handler] *)
Definition try_except_Exception {A : Type} (body : D A) (handler : exn -> D A)
  : D A := fun s =>
  match body s with
  | (Ok a, s') => (Ok a, s')
  | (Raise e, s') => handler e s'
  end.

Section Main.

Variable L : pylib.
Variable E : env.

(** [for image in imgs_urls: if image['url']: download_image(image['url'])],
    with the default arguments of [download_image]. *)
Fixpoint download_all (imgs_urls : list ImageReference) : M unit :=
  match imgs_urls with
  | [] => mret tt
  | image :: imgs_urls' =>
      (if PyStr.truthy (default "" (url image)) then
         download_image L E (default "" (url image)) DEFAULT_HEADERS
           "downloads" 30 1024 2 None;;
         mret tt
       else mret tt);;
      download_all imgs_urls'
  end.

(** [scrape_images]; [if soup:] holds for every document, since a
    [BeautifulSoup] object is truthy. *)
Definition scrape_images (url : string) : D unit :=
  try_except_Exception
    (run_core
       (soup ← scrape_page E url DEFAULT_HEADERS 10 "html.parser";
        match soup with
        | Some soup =>
            imgs_urls ← extract_images_urls L url soup;
            download_all imgs_urls
        | None => mret tt
        end))
    (fun e => main_logging ERROR (MsgScrapingError url e)).





End Main.



(** A path directly inside the directory [downloads] whose file name
    holds no character that the cleaning replaces. *)
Definition in_downloads (q : string) : Prop :=
  exists name, q = "downloads/" ++ name
               /\ PyStr.all_chars legal_char name = true.

(** ** The destination of a download *)




(** ** More concrete worlds *)

Definition not_found : response :=
  {| status_code := 404; content_type := Some "text/html"; text := "";
     iter_content := fun _ => []; stream_error := None |}.

(** A transport whose first GET times out and whose later ones are
    answered with the status 404, and the exceptions that the attempts
    fail with. *)
Definition timeout_then_not_found (n : nat) : result response :=
  match n with
  | O => Raise ReadTimeout
  | _ => Ok not_found
  end.

Definition timeout_then_status (i : nat) : exn :=
  match i with
  | O => ReadTimeout
  | _ => HTTPError 404
  end.

(** A world in which no directory can be created. *)
Definition read_only_env : env :=
  {| http_get := fun _ _ => Ok png_response;
     http_head := fun _ => Ok png_response;
     os_makedirs := fun _ => Raise (OSError "Read-only file system");
     file_open := fun _ => Ok tt;
     file_write := fun _ _ _ => Ok tt;
     time_time := fun n => Z.of_nat n + 1762272000;
     html_parse := fun _ _ => Ok {| contents := [] |} |}.

(** An image response whose stream breaks after the first chunk. *)
Definition broken_png : response :=
  {| status_code := 200; content_type := Some "image/png"; text := "";
     iter_content := fun _ => ["PNG"];
     stream_error := Some ChunkedEncodingError |}.

(** A page with three image elements; the source of the second one is a
    relative file name that begins with [http]. *)
Definition page_with_foreign_source : BeautifulSoup :=
  {| contents := [img {[ "src" := "a.png" ]};
                  img {[ "src" := "http-logo.png" ]};
                  img {[ "src" := "b.png" ]}] |}.

(** A transport that answers the first GET with a page and the later
    ones with an image. *)
Definition page_then_images (n : nat) : result response :=
  match n with
  | O => Ok html_response
  | _ => Ok png_response
  end.

Definition empty_session : session :=
  {| core := empty_world; journal := [] |}.

Definition unavailable : response :=
  {| status_code := 503; content_type := Some "text/html"; text := "";
     iter_content := fun _ => []; stream_error := None |}.

(** A transport that answers the first GET with the status 503 and the
    later ones with [r]. *)
Definition unavailable_then (r : response) (n : nat) : result response :=
  match n with
  | O => Ok unavailable
  | _ => Ok r
  end.

(** A world whose disk holds [capacity] bytes for a file: a write that
    would make the file longer is refused. *)
Definition disk_full_env (capacity : nat) (get : nat -> result response)
  : env :=
  {| http_get := fun n _ => get n;
     http_head := fun _ => Raise ConnectionError;
     os_makedirs := fun _ => Ok tt;
     file_open := fun _ => Ok tt;
     file_write := fun _ content chunk =>
       if (String.length content + String.length chunk <=? capacity)%nat
       then Ok tt
       else Raise (OSError "No space left on device");
     time_time := fun n => Z.of_nat n + 1762272000;
     html_parse := fun _ _ => Ok {| contents := [] |} |}.

(** * Properties *)

(** ** Running effectful code *)

Lemma log_to_nil w : log_to w [] = w.
Proof. destruct w; unfold log_to; cbn. by rewrite app_nil_r. Qed.

Lemma log_to_app w t1 t2 :
  log_to (log_to w t1) t2 = log_to w (t1 ++ t2)%list.
Proof. unfold log_to; cbn. by rewrite app_assoc. Qed.

Lemma run_bind {A B : Type} (m : M A) (f : A -> M B) (w : world) :
  (m ≫= f) w =
  match m w with
  | (Ok a, w') => f a w'
  | (Raise e, w') => (Raise e, w')
  end.
Proof. reflexivity. Qed.

Lemma run_emit (ev : event) (w : world) : emit ev w = (Ok tt, log_to w [ev]).
Proof. reflexivity. Qed.

Lemma run_ret {A : Type} (a : A) (w : world) : (mret a : M A) w = (Ok a, w).
Proof. reflexivity. Qed.

(** Runs the leading binds and emits of the goal. *)
Ltac run_steps :=
  repeat first [rewrite run_bind | rewrite run_emit | rewrite run_ret
               | rewrite log_to_app].

Lemma gets_app t1 t2 : gets (t1 ++ t2) = (gets t1 + gets t2)%nat.
Proof. unfold gets. by rewrite List.filter_app, length_app. Qed.

Lemma gets_cons ev t :
  gets (ev :: t) = ((if is_get ev then 1 else 0) + gets t)%nat.
Proof. unfold gets. cbn. by destruct (is_get ev). Qed.

Lemma gets_log_to w t : gets (trace (log_to w t)) = (gets (trace w) + gets t)%nat.
Proof. apply gets_app. Qed.

Lemma sleeps_cons ev t :
  sleeps (ev :: t)
  = (match ev with Sleep s => [s] | _ => [] end ++ sleeps t)%list.
Proof. reflexivity. Qed.

Lemma sleeps_app t1 t2 : sleeps (t1 ++ t2) = (sleeps t1 ++ sleeps t2)%list.
Proof. unfold sleeps. apply flat_map_app. Qed.

Lemma run_requests_get E page headers timeout stream w :
  requests_get E page headers timeout stream w
  = (http_get E (gets (trace w)) page,
     log_to w [HttpGet page headers timeout stream]).
Proof. reflexivity. Qed.

#[local] Arguments reference_of : simpl never.
#[local] Arguments image_log : simpl never.

Lemma process_image_run L url i img image_data w :
  try_except (process_image L url i img image_data)
    (fun e => Some (logging ERROR (MsgImageError i e);; mret image_data)) w
  = (Ok (image_data ++ option_list (reference_of L url (i, img)))%list,
     log_to w (image_log L url (i, img))).
Proof.
  unfold try_except, process_image, reference_of, image_log, logging.
  destruct (image_source img) as [src|]; [|reflexivity].
  destruct (PyStr.truthy src); cbn [negb]; [|reflexivity].
  destruct (PyStr.startswith src "http" || PyStr.startswith src "https");
    cbn [negb]; [reflexivity|].
  rewrite run_bind. unfold lift.
  destruct (Urllib.urljoin L url src) as [u|e]; [reflexivity|].
  change (option_list None) with (@nil ImageReference).
  rewrite app_nil_r. reflexivity.
Qed.

Lemma extract_loop_run L url images image_data w :
  extract_loop L url images image_data w
  = (Ok (image_data ++ omap (reference_of L url) images)%list,
     log_to w (flat_map (image_log L url) images)).
Proof.
  revert image_data w.
  induction images as [|[i img] images IH]; intros image_data w; cbn.
  - by rewrite app_nil_r, log_to_nil.
  - rewrite run_bind, process_image_run, IH, log_to_app.
    f_equal. f_equal. rewrite <- app_assoc. f_equal.
    by destruct (reference_of L url (i, img)).
Qed.

Lemma extract_images_urls_run L url soup w :
  extract_images_urls L url soup w
  = (Ok (omap (reference_of L url) (enumerate 1 (find_all "img" soup))),
     log_to w (extract_log L url soup)).
Proof.
  unfold extract_images_urls, extract_log, logging.
  destruct (find_all "img" soup) as [|img images]; [reflexivity|].
  rewrite run_bind, run_emit, extract_loop_run, log_to_app.
  reflexivity.
Qed.

Lemma enumerate_lookup {A : Type} (l : list A) start i :
  enumerate start l !! i = (fun x => (start + Z.of_nat i, x)) <$> l !! i.
Proof.
  revert start i. induction l as [|x l IH]; intros start [|i]; cbn; try done.
  - by rewrite Z.add_0_r.
  - rewrite IH. destruct (l !! i); cbn; [|done]. do 2 f_equal. lia.
Qed.

Lemma reference_of_position L url i img r :
  reference_of L url (i, img) = Some r -> position r = i /\ page_url r = url.
Proof.
  unfold reference_of. intros H.
  repeat match type of H with
         | match ?x with _ => _ end = _ => destruct x
         | (if ?x then _ else _) = _ => destruct x
         end; by simplify_eq.
Qed.

Lemma reference_of_unresolvable L url i img :
  reference_of L url (i, img) = None <-> unresolvable L url img = true.
Proof.
  unfold unresolvable, reference_of.
  repeat match goal with
         | |- context [match ?x with _ => _ end] => destruct x
         end; split; congruence.
Qed.

Lemma omap_reference_length L url images start :
  (length (omap (reference_of L url) (enumerate start images))
   + length (List.filter (unresolvable L url) images))%nat
  = length images.
Proof.
  revert start. induction images as [|img images IH]; intros start; [done|].
  cbn [enumerate omap list_omap List.filter].
  destruct (reference_of L url (start, img)) as [r|] eqn:Hr.
  - assert (unresolvable L url img = false) as ->.
    { destruct (unresolvable L url img) eqn:Hu; [|done].
      apply reference_of_unresolvable with (i := start) in Hu. congruence. }
    cbn. by rewrite IH.
  - apply reference_of_unresolvable in Hr as ->. cbn.
    rewrite <- (IH (start + 1)). lia.
Qed.

Lemma omap_reference_sorted L url images start :
  StronglySorted Z.lt
    (List.map position (omap (reference_of L url) (enumerate start images)))
  /\ Forall (fun r => start <= position r)
       (omap (reference_of L url) (enumerate start images)).
Proof.
  revert start. induction images as [|img images IH]; intros start.
  - split; constructor.
  - cbn [enumerate omap list_omap].
    destruct (IH (start + 1)) as [Hs Hf].
    assert (Forall (fun r => start <= position r)
              (omap (reference_of L url) (enumerate (start + 1) images))).
    { eapply Forall_impl; [exact Hf|]. cbn. intros; lia. }
    destruct (reference_of L url (start, img)) as [r|] eqn:Hr; [|done].
    apply reference_of_position in Hr as [Hp _].
    split.
    + cbn. constructor; [done|]. rewrite Hp.
      apply Forall_map. eapply Forall_impl; [exact Hf|]. cbn. intros; lia.
    + constructor; [lia|done].
Qed.

Lemma omap_reference_elem L url images start r :
  r ∈ omap (reference_of L url) (enumerate start images) <->
  exists i img, images !! i = Some img
    /\ reference_of L url (start + Z.of_nat i, img) = Some r.
Proof.
  rewrite list_elem_of_omap. split.
  - intros [[p img] [Hin Hr]].
    apply list_elem_of_lookup in Hin as [i Hi].
    rewrite enumerate_lookup in Hi.
    destruct (images !! i) as [img'|] eqn:Himg; [|done].
    cbn in Hi. simplify_eq. eauto.
  - intros (i & img & Himg & Hr).
    exists (start + Z.of_nat i, img). split; [|done].
    apply list_elem_of_lookup. exists i.
    by rewrite enumerate_lookup, Himg.
Qed.

(** ** Properties of [extract_images_urls] *)

(** C1, as stated, fails: on a page with two image elements, the first of
    which has the source [//[], [urljoin] raises [ValueError] for the
    first element, the [except] clause skips it, and the output has one
    reference (with position 2) for two image elements. *)
Lemma extract_images_urls_skips_element :
  length (find_all "img" page_with_bad_source) = 2%nat
  /\ Urllib.urljoin cpython "https://x.com/" "//["
     = Raise (ValueError "Invalid IPv6 URL")
  /\ (extract_images_urls cpython "https://x.com/" page_with_bad_source
        empty_world).1
     = Ok [{| position := 2; url := Some "https://x.com/a.png"; alt := "";
              page_url := "https://x.com/" |}]
  /\ ~ (exists refs w',
          extract_images_urls cpython "https://x.com/" page_with_bad_source
            empty_world = (Ok refs, w')
          /\ length refs = length (find_all "img" page_with_bad_source)).
Proof.
  split; [reflexivity|]. split; [reflexivity|]. split; [reflexivity|].
  intros (refs & w' & Hrun & Hlen).
  assert ((extract_images_urls cpython "https://x.com/" page_with_bad_source
             empty_world).1 = Ok refs) as Hfst by (by rewrite Hrun).
  vm_compute in Hfst. injection Hfst as <-. discriminate Hlen.
Qed.

(** C1, amended: [extract_images_urls] never raises and returns, in
    document order, one reference for each image element whose source
    resolution does not raise; the position of a reference is the 1-based
    index of its element among the image elements, so positions increase
    strictly; an element with no source is always emitted, with a null
    url; the output length is the number of image elements minus the
    number of elements whose resolution raises. *)
Theorem extract_images_urls_references (L : pylib) (page : string)
    (soup : BeautifulSoup) (w : world) :
  let images := find_all "img" soup in
  exists refs w',
    extract_images_urls L page soup w = (Ok refs, w')
    /\ refs = omap (reference_of L page) (enumerate 1 images)
    /\ (length refs + length (List.filter (unresolvable L page) images))%nat
       = length images
    /\ StronglySorted Z.lt (List.map position refs)
    /\ (forall r, r ∈ refs ->
          exists i img, images !! i = Some img
            /\ position r = Z.of_nat i + 1 /\ page_url r = page
            /\ reference_of L page (position r, img) = Some r)
    /\ (forall i img, images !! i = Some img ->
          PyStr.truthy (default "" (image_source img)) = false ->
          {| position := Z.of_nat i + 1; url := None;
             alt := PyStr.strip (default "" (tag_get img "alt"));
             page_url := page |} ∈ refs).
Proof.
  intros images. rewrite extract_images_urls_run.
  eexists _, _. split; [reflexivity|]. split; [reflexivity|].
  split; [apply omap_reference_length|].
  split; [apply omap_reference_sorted|]. split.
  - intros r Hr. apply omap_reference_elem in Hr as (i & img & Himg & Hr).
    exists i, img. destruct (reference_of_position _ _ _ _ _ Hr) as [Hp Hu].
    rewrite Hp. repeat split; [done|lia|done|done].
  - intros i img Himg Hsrc. apply omap_reference_elem.
    exists i, img. split; [done|].
    unfold reference_of. rewrite (Z.add_comm 1).
    destruct (image_source img) as [src|]; [|done].
    cbn in Hsrc. by rewrite Hsrc.
Qed.

(** C2, as stated, fails: the source [//[] is relative by the test of
    the claim (it does not begin with [http]), but its join with the page
    URL raises [ValueError]; no reference is emitted for the image
    element that carries it, so no join is emitted as its url. *)
Lemma extract_images_urls_join_raises :
  find_all "img" page_with_bad_source !! 0%nat
  = Some (img {[ "src" := "//[" ]})
  /\ image_source (img {[ "src" := "//[" ]}) = Some "//["
  /\ PyStr.startswith "//[" "http" = false
  /\ Urllib.urljoin cpython "https://x.com/" "//["
     = Raise (ValueError "Invalid IPv6 URL")
  /\ forall refs w',
       extract_images_urls cpython "https://x.com/" page_with_bad_source
         empty_world = (Ok refs, w') ->
       forall r, r ∈ refs -> position r <> 1.
Proof.
  split; [reflexivity|]. split; [reflexivity|]. split; [reflexivity|].
  split; [reflexivity|]. intros refs w' Hrun r Hr.
  assert ((extract_images_urls cpython "https://x.com/" page_with_bad_source
             empty_world).1 = Ok refs) as Hfst by (by rewrite Hrun).
  vm_compute in Hfst. injection Hfst as <-.
  apply list_elem_of_singleton in Hr as ->. cbn. lia.
Qed.

(** C2, amended: for a source [R] found on an image element, where a
    source counts as absolute exactly when it begins with [http], a
    source that is absolute is emitted unchanged and a relative one is
    emitted as [urljoin(B, R)], the base-relative join of the page URL
    [B] and [R], whenever this join is defined; when the join raises, no
    reference is emitted for the element and the error is logged with
    the position of the element.  For [B = https://x.com/a/b] and
    [R = ../c.png] the join is [https://x.com/c.png]. *)
Theorem extract_images_urls_joins_relative (L : pylib) (B : string)
    (soup : BeautifulSoup) (w : world) (i : nat) (img : node) (R : string) :
  find_all "img" soup !! i = Some img ->
  image_source img = Some R ->
  PyStr.truthy R = true ->
  exists refs t,
    extract_images_urls L B soup w = (Ok refs, log_to w t)
    /\ match (if PyStr.startswith R "http" || PyStr.startswith R "https"
              then Ok R else Urllib.urljoin L B R) with
       | Ok u =>
           {| position := Z.of_nat i + 1; url := Some u;
              alt := PyStr.strip (default "" (tag_get img "alt"));
              page_url := B |} ∈ refs
       | Raise e =>
           (forall r, r ∈ refs -> position r <> Z.of_nat i + 1)
           /\ Log ERROR (MsgImageError (Z.of_nat i + 1) e) ∈ t
       end
    /\ (B = "https://x.com/a/b" -> R = "../c.png" ->
        Urllib.urljoin L B R = Ok "https://x.com/c.png").
Proof.
  intros Himg Hsrc Htruthy. rewrite extract_images_urls_run.
  eexists _, _. split; [reflexivity|]. split; [|by intros -> ->].
  destruct (if PyStr.startswith R "http" || PyStr.startswith R "https"
            then Ok R else Urllib.urljoin L B R) as [u|e] eqn:Hjoin.
  - apply omap_reference_elem. exists i, img. split; [done|].
    unfold reference_of. rewrite (Z.add_comm 1), Hsrc, Htruthy. cbn [negb].
    destruct (PyStr.startswith R "http" || PyStr.startswith R "https").
    + by simplify_eq.
    + by rewrite Hjoin.
  - destruct (PyStr.startswith R "http" || PyStr.startswith R "https")
      eqn:Habsolute; [done|].
    split.
    + intros r (i' & img' & Himg' & Href)%omap_reference_elem Hpos.
      destruct (reference_of_position _ _ _ _ _ Href) as [Hp _].
      assert (i' = i) as -> by lia. simplify_eq.
      revert Href. unfold reference_of.
      by rewrite Hsrc, Htruthy, Habsolute, Hjoin.
    + unfold extract_log.
      destruct (find_all "img" soup) as [|img0 images] eqn:Himages; [done|].
      right. apply list_elem_of_In, in_flat_map.
      exists (1 + Z.of_nat i, img). split.
      * apply list_elem_of_In, list_elem_of_lookup. exists i.
        by rewrite enumerate_lookup, Himg.
      * unfold image_log.
        rewrite Hsrc, Htruthy, Habsolute, Hjoin, (Z.add_comm 1).
        by left.
Qed.

Lemma extract_images_urls_joins_relative_witness :
  exists refs t,
    extract_images_urls cpython "https://x.com/a/b"
      page_with_relative_source empty_world = (Ok refs, log_to empty_world t)
    /\ match (if PyStr.startswith "../c.png" "http"
                 || PyStr.startswith "../c.png" "https"
              then Ok "../c.png"
              else Urllib.urljoin cpython "https://x.com/a/b" "../c.png") with
       | Ok u =>
           {| position := Z.of_nat 0 + 1; url := Some u;
              alt := PyStr.strip
                       (default ""
                          (tag_get (img {[ "src" := "../c.png" ]}) "alt"));
              page_url := "https://x.com/a/b" |} ∈ refs
       | Raise e =>
           (forall r, r ∈ refs -> position r <> Z.of_nat 0 + 1)
           /\ Log ERROR (MsgImageError (Z.of_nat 0 + 1) e) ∈ t
       end
    /\ ("https://x.com/a/b" = "https://x.com/a/b" ->
        "../c.png" = "../c.png" ->
        Urllib.urljoin cpython "https://x.com/a/b" "../c.png"
        = Ok "https://x.com/c.png").
Proof.
  exact (extract_images_urls_joins_relative cpython "https://x.com/a/b"
           page_with_relative_source empty_world 0
           (img {[ "src" := "../c.png" ]}) "../c.png"
           eq_refl eq_refl eq_refl).
Defined.

(** C8: the references returned by [extract_images_urls] depend on the
    page URL and the document only, not on the world the call starts in,
    so two calls with the same arguments (in particular, one after the
    other) return identical sequences; a call changes no file and adds
    only log records to the trace. *)
Theorem extract_images_urls_deterministic (L : pylib) (page : string)
    (soup : BeautifulSoup) (w : world) :
  exists refs t,
    extract_images_urls L page soup w = (Ok refs, log_to w t)
    /\ forallb is_log t = true
    /\ (forall w2, (extract_images_urls L page soup w2).1 = Ok refs)
    /\ (extract_images_urls L page soup
          (extract_images_urls L page soup w).2).1 = Ok refs.
Proof.
  exists (omap (reference_of L page) (enumerate 1 (find_all "img" soup))),
         (extract_log L page soup).
  split; [apply extract_images_urls_run|]. split.
  - unfold extract_log.
    assert (forall items, forallb is_log (flat_map (image_log L page) items)
                          = true) as Hlogs.
    { induction items as [|[i im] items IH]; [done|].
      cbn [flat_map]. rewrite forallb_app, IH, andb_true_r.
      unfold image_log.
      repeat match goal with
             | |- context [match ?x with _ => _ end] => destruct x
             end; reflexivity. }
    destruct (find_all "img" soup); [reflexivity|].
    cbn [forallb is_log]. apply Hlogs.
  - split; intros; by rewrite extract_images_urls_run.
Qed.

(** ** Properties of [scrape_page] *)

Lemma scrape_page_handler page timeout
    (body : M (option BeautifulSoup)) w e w' :
  body w = (Raise e, w') ->
  try_except body
    (fun e => Some (
       (if is_Timeout e then
          logging ERROR (MsgTimedOut timeout page)
        else if is_HTTPError e then
          logging ERROR
            (MsgHTTPStatus (match e with HTTPError c => c | _ => 0 end) page)
        else if is_ConnectionError e then
          logging ERROR (MsgConnectionFailed page)
        else if is_RequestException e then
          logging ERROR (MsgRequestFailed e)
        else
          logging ERROR (MsgUnexpected e));;
       mret None)) w
  = (Ok None, log_to w' [Log ERROR (failure_record timeout page e)]).
Proof.
  intros Hbody. unfold try_except. rewrite Hbody.
  unfold failure_record, failure_class. by destruct e.
Qed.

(** C7, as stated, fails: a response with the status 304, which is not a
    2xx status, is not treated as an HTTP error; its (empty) body is
    parsed and the document is returned. *)
Lemma scrape_page_parses_not_modified :
  ~ (200 <= status_code not_modified < 300)
  /\ (scrape_page (env_of (fun _ => Ok not_modified) {| contents := [] |})
        "https://x.com/" DEFAULT_HEADERS 10 "html.parser" empty_world).1
     = Ok (Some {| contents := [] |}).
Proof. split; [cbn; lia|reflexivity]. Qed.

(** C7, amended: a response with a 4xx or 5xx status (the statuses for
    which [raise_for_status] raises) is treated as an HTTP error and no
    document is returned; a response with any other status is parsed.
    For every failure class (Timeout, HTTP status, connection error, other
    request error, unexpected error) [scrape_page] returns [None] instead
    of raising, and the record it logs tells the classes apart. *)
Theorem scrape_page_failure_classes (E : env) (page : string)
    (headers : gmap string string) (timeout : Z) (parser : string)
    (w : world) :
  let sent := [Log INFO (MsgRequesting page);
               HttpGet page headers timeout false] in
  (forall e, http_get E (gets (trace w)) page = Raise e ->
     scrape_page E page headers timeout parser w
     = (Ok None,
        log_to w (sent ++ [Log ERROR (failure_record timeout page e)])))
  /\ (forall r, http_get E (gets (trace w)) page = Ok r ->
        400 <= status_code r < 600 ->
        scrape_page E page headers timeout parser w
        = (Ok None,
           log_to w (sent ++ [Log ERROR
                                (MsgHTTPStatus (status_code r) page)])))
  /\ (forall r, http_get E (gets (trace w)) page = Ok r ->
        ~ (400 <= status_code r < 600) ->
        (scrape_page E page headers timeout parser w).1
        = match html_parse E (text r) parser with
          | Ok soup => Ok (Some soup)
          | Raise _ => Ok None
          end)
  /\ (forall e1 e2, failure_class e1 <> failure_class e2 ->
        failure_record timeout page e1 <> failure_record timeout page e2)
  /\ (forall e,
        (is_Timeout e = true -> failure_class e = FetchTimeout)
        /\ (is_Timeout e = false -> is_HTTPError e = true ->
            exists status, failure_class e = FetchHTTPStatus status)
        /\ (is_Timeout e = false -> is_HTTPError e = false ->
            is_ConnectionError e = true -> failure_class e = FetchConnection)
        /\ (is_Timeout e = false -> is_HTTPError e = false ->
            is_ConnectionError e = false -> is_RequestException e = true ->
            failure_class e = FetchRequest)
        /\ (is_RequestException e = false ->
            failure_class e = FetchUnexpected)).
Proof.
  intros sent. repeat split.
  - intros e Hget. unfold scrape_page.
    erewrite scrape_page_handler; [by rewrite log_to_app|].
    unfold logging.
    rewrite run_bind, run_emit, run_bind, run_requests_get, gets_log_to.
    cbn [gets List.filter is_get length]. rewrite Nat.add_0_r, Hget.
    by rewrite log_to_app.
  - intros r Hget Hstatus. unfold scrape_page.
    erewrite scrape_page_handler with (e := HTTPError (status_code r));
      [by rewrite log_to_app|].
    unfold logging.
    rewrite run_bind, run_emit, run_bind, run_requests_get, gets_log_to.
    cbn [gets List.filter is_get length]. rewrite Nat.add_0_r, Hget, run_bind.
    rewrite log_to_app. unfold lift, raise_for_status.
    destruct (Z.leb_spec 400 (status_code r)); [|lia].
    destruct (Z.ltb_spec (status_code r) 500); cbn [andb]; [done|].
    destruct (Z.leb_spec 500 (status_code r)); [|lia].
    destruct (Z.ltb_spec (status_code r) 600); cbn [andb]; [done|lia].
  - intros r Hget Hstatus. unfold scrape_page, try_except, logging.
    rewrite run_bind, run_emit, run_bind, run_requests_get, gets_log_to.
    cbn [gets List.filter is_get length]. rewrite Nat.add_0_r, Hget, run_bind.
    unfold lift at 1. unfold raise_for_status.
    replace ((400 <=? status_code r) && (status_code r <? 500)) with false
      by (symmetry; apply andb_false_iff; lia).
    replace ((500 <=? status_code r) && (status_code r <? 600)) with false
      by (symmetry; apply andb_false_iff; lia).
    rewrite run_bind, run_emit, run_bind. unfold lift.
    destruct (html_parse E (text r) parser) as [soup|e]; [reflexivity|].
    by destruct e.
  - intros e1 e2 Hclass Hrecord. apply Hclass. unfold failure_record in Hrecord.
    destruct (failure_class e1), (failure_class e2); congruence.
  - by destruct e.
  - destruct e; try done. eauto.
  - by destruct e.
  - by destruct e.
  - by destruct e.
Qed.

Lemma scrape_page_failure_classes_witness :
  scrape_page (env_of (fun _ => Raise ReadTimeout) {| contents := [] |})
    "https://x.com/" DEFAULT_HEADERS 10 "html.parser" empty_world
  = (Ok None,
     log_to empty_world
       [Log INFO (MsgRequesting "https://x.com/");
        HttpGet "https://x.com/" DEFAULT_HEADERS 10 false;
        Log ERROR (MsgTimedOut 10 "https://x.com/")]).
Proof.
  exact (proj1 (scrape_page_failure_classes
                  (env_of (fun _ => Raise ReadTimeout) {| contents := [] |})
                  "https://x.com/" DEFAULT_HEADERS 10 "html.parser"
                  empty_world) ReadTimeout eq_refl).
Defined.

(** ** Running [download_image] *)

Lemma string_app_nil_r (s : string) : s ++ "" = s.
Proof.
  induction s as [|a s IH]; [done|].
  change (String a (s ++ "") = String a s). by rewrite IH.
Qed.

Lemma string_app_assoc (s1 s2 s3 : string) : s1 ++ s2 ++ s3 = (s1 ++ s2) ++ s3.
Proof.
  induction s1 as [|a s1 IH]; [done|].
  change (String a (s1 ++ s2 ++ s3) = String a ((s1 ++ s2) ++ s3)).
  by rewrite IH.
Qed.

Lemma force_valid_ext_allowed (file_ext : string) :
  force_valid_ext file_ext ∈ allowed_extensions
  /\ (file_ext ∉ allowed_extensions -> force_valid_ext file_ext = ".jpg")
  /\ (file_ext ∈ allowed_extensions -> force_valid_ext file_ext = file_ext).
Proof.
  unfold force_valid_ext.
  destruct (Urllib.mem file_ext allowed_extensions) eqn:Hmem.
  - assert (file_ext ∈ allowed_extensions) as Hin.
    { apply existsb_exists in Hmem as (x & Hx & Heq).
      apply String.eqb_eq in Heq as ->. by apply list_elem_of_In. }
    assert (PyStr.truthy file_ext = true) as ->.
    { destruct file_ext; [|done]. by vm_compute in Hmem. }
    cbn. done.
  - assert (file_ext ∉ allowed_extensions) as Hnotin.
    { intros Hin%list_elem_of_In.
      assert (Urllib.mem file_ext allowed_extensions = true); [|congruence].
      apply existsb_exists. exists file_ext. split; [done|].
      apply String.eqb_refl. }
    assert (".jpg" ∈ allowed_extensions) by (apply list_elem_of_In; cbn; auto).
    destruct (PyStr.truthy file_ext); cbn; done.
Qed.

Lemma posix_join_suffix (a b : string) : exists stem, PosixPath.join a b = stem ++ b.
Proof.
  unfold PosixPath.join.
  destruct (PyStr.startswith b "/"); [by exists ""|].
  destruct (negb (PyStr.truthy a) || PosixPath.endswith_sep a).
  - by exists a.
  - exists (a ++ "/"). by rewrite <- string_app_assoc.
Qed.

(** An allowed extension appended to a stem starts at the last dot of the
    result. *)
Lemma rfind_allowed_ext (stem ext : string) :
  ext ∈ allowed_extensions ->
  PyStr.rfind "." (stem ++ ext) = Some (String.length stem).
Proof.
  intros Hin. induction stem as [|a stem IH].
  - unfold allowed_extensions in Hin.
    repeat (apply elem_of_cons in Hin as [->|Hin]; [reflexivity|]).
    by apply not_elem_of_nil in Hin.
  - change (PyStr.rfind "." (String a (stem ++ ext))
            = Some (S (String.length stem))).
    cbn [PyStr.rfind]. by rewrite IH.
Qed.

Section DownloadRuns.

Variable L : pylib.
Variable E : env.
Variables (url : string) (headers : gmap string string).
Variables (timeout chunk_size retries : Z).

Lemma makedirs_run save_dir w :
  makedirs E save_dir w = (os_makedirs E save_dir, log_to w [MakeDirs save_dir]).
Proof.
  unfold makedirs. rewrite run_bind, run_emit. unfold lift.
  by destruct (os_makedirs E save_dir) as [[]|].
Qed.

Lemma derive_filename_run custom_filename w :
  exists r t,
    derive_filename L E url custom_filename w = (r, log_to w t)
    /\ forallb is_probe t = true /\ gets t = 0%nat /\ sleeps t = []
    /\ (PyStr.truthy (default "" custom_filename) = true
        \/ (exists parsed, Urllib.urlparse L (unquote L url) "" = Ok parsed)
        -> exists filename, r = Ok filename).
Proof.
  unfold derive_filename.
  destruct (PyStr.truthy (default "" custom_filename)).
  { exists (Ok (default "" custom_filename)), [].
    rewrite log_to_nil. eauto 10. }
  rewrite run_bind. unfold lift.
  destruct (Urllib.urlparse L (unquote L url) "") as [parsed|e].
  - match goal with |- context [if ?c then _ else _] => destruct c end.
    + eexists _, [Clock]. eauto 10.
    + eexists _, []. rewrite log_to_nil. eauto 10.
  - exists (Raise e), []. rewrite log_to_nil.
    repeat split; try done. intros [|[? ?]]; done.
Qed.

Lemma determine_ext_run filename w :
  exists file_ext t,
    determine_ext E url headers filename w = (Ok file_ext, log_to w t)
    /\ forallb is_probe t = true /\ gets t = 0%nat /\ sleeps t = [].
Proof.
  unfold determine_ext.
  destruct (negb (PyStr.truthy (PyStr.lower (PosixPath.splitext filename).2))).
  - unfold try_except, requests_head.
    rewrite !run_bind, run_emit. unfold lift.
    destruct (http_head E url) as [response|e].
    + destruct (PyStr.startswith (header_content_type response) "image/");
        eexists _, [HttpHead url headers 5]; eauto.
    + eexists _, [HttpHead url headers 5]; eauto.
  - eexists _, []. rewrite log_to_nil. eauto.
Qed.

(** [download_path] creates the directory first, then reads the clock or
    sends a HEAD request at most; it issues no GET and never sleeps.  It
    returns a path when the directory can be created and the file name
    can be derived; the path then ends with an allowed extension. *)
Lemma download_path_run save_dir custom_filename w :
  exists r t,
    download_path L E url headers save_dir custom_filename w
    = (r, log_to w (MakeDirs save_dir :: t))
    /\ forallb is_probe t = true /\ gets t = 0%nat /\ sleeps t = []
    /\ (os_makedirs E save_dir = Ok tt ->
        PyStr.truthy (default "" custom_filename) = true
        \/ (exists parsed, Urllib.urlparse L (unquote L url) "" = Ok parsed) ->
        exists full_path, r = Ok full_path)
    /\ (forall full_path, r = Ok full_path ->
        exists raw w0 detected,
          derive_filename L E url custom_filename
            (log_to w [MakeDirs save_dir]) = (Ok raw, w0)
          /\ (determine_ext E url headers (clean_filename raw) w0).1
             = Ok detected
          /\ full_path = PosixPath.join save_dir
                           ((PosixPath.splitext (clean_filename raw)).1
                            ++ force_valid_ext detected)).
Proof.
  unfold download_path. rewrite run_bind, makedirs_run.
  destruct (os_makedirs E save_dir) as [[]|e].
  2: { exists (Raise e), []. repeat split; try done. }
  rewrite run_bind.
  destruct (derive_filename_run custom_filename (log_to w [MakeDirs save_dir]))
    as (r1 & t1 & Hderive & Hp1 & Hg1 & Hs1 & Hok1).
  rewrite Hderive.
  rewrite log_to_app. destruct r1 as [filename|e].
  2: { exists (Raise e), t1. repeat split; done. }
  rewrite run_bind.
  destruct (determine_ext_run (clean_filename filename)
              (log_to w ([MakeDirs save_dir] ++ t1)))
    as (file_ext & t2 & Hext & Hp2 & Hg2 & Hs2).
  rewrite Hext, log_to_app.
  eexists _, (t1 ++ t2)%list. split.
  { rewrite <- app_assoc. reflexivity. }
  rewrite forallb_app, Hp1, Hp2, gets_app, Hg1, Hg2, sleeps_app, Hs1, Hs2.
  repeat split; eauto.
  intros full_path [= <-].
  exists filename, (log_to (log_to w [MakeDirs save_dir]) t1), file_ext.
  rewrite log_to_app, Hext. done.
Qed.

End DownloadRuns.

Section DownloadLoop.

Variable E : env.
Variables (url : string) (headers : gmap string string).
Variables (timeout chunk_size retries : Z) (full_path : string).

Lemma attempt_get_run (i : nat) w :
  (logging INFO (MsgAttempt (Z.of_nat i + 1) url);;
   requests_get E url headers timeout true) w
  = (http_get E (gets (trace w)) url,
     log_to w (attempt_start url headers timeout i)).
Proof.
  unfold logging.
  rewrite run_bind, run_emit, run_requests_get, gets_log_to, log_to_app.
  cbn [gets List.filter is_get length]. by rewrite Nat.add_0_r.
Qed.

Lemma attempt_unfold (i : nat) w :
  download_attempt E url headers timeout chunk_size retries full_path
    (Z.of_nat i) w
  = try_except
      (response ← (logging INFO (MsgAttempt (Z.of_nat i + 1) url);;
                   requests_get E url headers timeout true);
       lift (raise_for_status response);;
       let content_type := header_content_type response in
       if negb (PyStr.startswith content_type "image/") then
         logging ERROR (MsgNotImage url);;
         mret (Return None)
       else
         open_wb E full_path;;
         write_chunks E full_path (iter_content response chunk_size);;
         match stream_error response with
         | Some e => throw e
         | None =>
             logging INFO (MsgDownloaded full_path);;
             mret (Return (Some full_path))
         end)
      (fun e =>
         if is_RequestException e then Some (
           logging WARNING (MsgAttemptFailed (Z.of_nat i + 1) e);;
           if Z.of_nat i =? retries then
             logging ERROR (MsgAllFailed url);;
             mret (Return None)
           else
             sleep (2 ^ Z.of_nat i);;
             mret Next)
         else None) w.
Proof.
  unfold download_attempt, try_except. rewrite !run_bind.
  by destruct (emit (Log INFO (MsgAttempt (Z.of_nat i + 1) url)) w)
    as [[[]|] ?].
Qed.

(** A GET that raises a request exception before the last attempt is
    logged and followed by the backoff sleep and the next attempt. *)
Lemma attempt_get_raises (i : nat) w e :
  http_get E (gets (trace w)) url = Raise e ->
  is_RequestException e = true ->
  Z.of_nat i <> retries ->
  download_attempt E url headers timeout chunk_size retries full_path
    (Z.of_nat i) w
  = (Ok Next,
     log_to w (failed_attempt url headers timeout (fun _ => e) i)).
Proof.
  intros Hget Hreq Hlast. rewrite attempt_unfold. unfold try_except.
  rewrite run_bind, attempt_get_run, Hget, Hreq.
  destruct (Z.eqb_spec (Z.of_nat i) retries); [done|].
  unfold logging, sleep. run_steps. reflexivity.
Qed.

(** A response that passes [raise_for_status] and does not declare an
    image ends the loop with [None]. *)
Lemma attempt_not_image (i : nat) w r :
  http_get E (gets (trace w)) url = Ok r ->
  raise_for_status r = Ok tt ->
  PyStr.startswith (header_content_type r) "image/" = false ->
  download_attempt E url headers timeout chunk_size retries full_path
    (Z.of_nat i) w
  = (Ok (Return None),
     log_to w (attempt_start url headers timeout i
               ++ [Log ERROR (MsgNotImage url)])).
Proof.
  intros Hget Hstatus Htype. rewrite attempt_unfold. unfold try_except.
  rewrite run_bind, attempt_get_run, Hget, run_bind, Hstatus. unfold lift.
  cbn zeta. rewrite Htype. cbn [negb]. unfold logging.
  rewrite run_bind, run_emit, log_to_app. reflexivity.
Qed.

Lemma open_wb_run w :
  open_wb E full_path w
  = match file_open E full_path with
    | Ok _ => (Ok tt, saved w [FileOpen full_path] full_path "")
    | Raise e => (Raise e, log_to w [FileOpen full_path])
    end.
Proof. unfold open_wb. by destruct (file_open E full_path). Qed.

Lemma saved_saved w t1 t2 c1 c2 :
  saved (saved w t1 full_path c1) t2 full_path c2
  = saved w (t1 ++ t2) full_path c2.
Proof.
  unfold saved. cbn. by rewrite app_assoc, insert_insert_eq.
Qed.

Lemma saved_log_to w t1 t2 c :
  saved (log_to w t1) t2 full_path c = saved w (t1 ++ t2) full_path c.
Proof. unfold saved, log_to. cbn. by rewrite app_assoc. Qed.

Lemma log_to_saved w t1 t2 c :
  log_to (saved w t1 full_path c) t2 = saved w (t1 ++ t2) full_path c.
Proof. unfold saved, log_to. cbn. by rewrite app_assoc. Qed.

Lemma write_run w t written chunk :
  write E full_path chunk (saved w t full_path written)
  = match file_write E full_path written chunk with
    | Ok _ => (Ok tt, saved w (t ++ [FileWrite full_path chunk]) full_path
                        (written ++ chunk))
    | Raise e =>
        (Raise e, saved w (t ++ [FileWrite full_path chunk]) full_path
                    written)
    end.
Proof.
  unfold write, saved. cbn [files trace].
  rewrite lookup_insert_eq. change (default "" (Some written)) with written.
  destruct (file_write E full_path written chunk);
    by rewrite ?insert_insert_eq, <- app_assoc.
Qed.

(** When the filesystem accepts them, the non-empty chunks are written
    in order and the file holds the bytes of the body. *)
Lemma write_chunks_run chunks : forall w t written,
  (forall content chunk, file_write E full_path content chunk = Ok tt) ->
  write_chunks E full_path chunks (saved w t full_path written)
  = (Ok tt, saved w (t ++ writes_of full_path chunks) full_path
              (written ++ body_of chunks)).
Proof.
  induction chunks as [|chunk chunks IH]; intros w t written Hwrite.
  - cbn. unfold writes_of. cbn. by rewrite app_nil_r, string_app_nil_r.
  - cbn [write_chunks]. rewrite run_bind.
    destruct chunk as [|a chunk].
    + cbn [PyStr.truthy]. rewrite run_ret, IH by done.
      unfold writes_of, body_of. cbn. reflexivity.
    + cbn [PyStr.truthy]. rewrite write_run, Hwrite, IH by done.
      unfold writes_of, body_of.
      cbn [List.filter PyStr.truthy List.map fold_right].
      by rewrite <- app_assoc, string_app_assoc.
Qed.

End DownloadLoop.

Section DownloadAttempts.

Variable E : env.
Variables (url : string) (headers : gmap string string).
Variables (timeout chunk_size retries : Z) (full_path : string).

Lemma raise_for_status_2xx r :
  200 <= status_code r < 300 -> raise_for_status r = Ok tt.
Proof.
  intros Hstatus. unfold raise_for_status.
  replace ((400 <=? status_code r) && (status_code r <? 500)) with false
    by (symmetry; apply andb_false_iff; lia).
  by replace ((500 <=? status_code r) && (status_code r <? 600)) with false
    by (symmetry; apply andb_false_iff; lia).
Qed.

(** An attempt whose response is a valid image and whose file is written
    without error returns the path; the file holds the body. *)
Lemma attempt_downloads (i : nat) w r :
  http_get E (gets (trace w)) url = Ok r ->
  raise_for_status r = Ok tt ->
  PyStr.startswith (header_content_type r) "image/" = true ->
  stream_error r = None ->
  file_open E full_path = Ok tt ->
  (forall content chunk, file_write E full_path content chunk = Ok tt) ->
  download_attempt E url headers timeout chunk_size retries full_path
    (Z.of_nat i) w
  = (Ok (Return (Some full_path)),
     saved w (attempt_start url headers timeout i
              ++ [FileOpen full_path]
              ++ writes_of full_path (iter_content r chunk_size)
              ++ [Log INFO (MsgDownloaded full_path)])
       full_path (body_of (iter_content r chunk_size))).
Proof.
  intros Hget Hstatus Htype Hstream Hopen Hwrite.
  rewrite attempt_unfold. unfold try_except.
  rewrite run_bind, attempt_get_run, Hget, run_bind, Hstatus. unfold lift.
  cbn zeta. rewrite Htype. cbn [negb].
  rewrite run_bind, open_wb_run, Hopen, saved_log_to, run_bind.
  rewrite write_chunks_run by done. rewrite Hstream. unfold logging.
  rewrite run_bind, run_emit, log_to_saved, run_ret.
  by rewrite <- !app_assoc.
Qed.

(** An attempt whose destination file cannot be opened raises the
    exception of the filesystem. *)
Lemma attempt_open_fails (i : nat) w r msg :
  http_get E (gets (trace w)) url = Ok r ->
  raise_for_status r = Ok tt ->
  PyStr.startswith (header_content_type r) "image/" = true ->
  file_open E full_path = Raise (OSError msg) ->
  download_attempt E url headers timeout chunk_size retries full_path
    (Z.of_nat i) w
  = (Raise (OSError msg),
     log_to w (attempt_start url headers timeout i ++ [FileOpen full_path])).
Proof.
  intros Hget Hstatus Htype Hopen.
  rewrite attempt_unfold. unfold try_except.
  rewrite run_bind, attempt_get_run, Hget, run_bind, Hstatus. unfold lift.
  cbn zeta. rewrite Htype. cbn [negb].
  rewrite run_bind, open_wb_run, Hopen, log_to_app. reflexivity.
Qed.

(** [k] attempts whose GET raises a request exception, none of them the
    last one, are each followed by the backoff sleep and lead to the
    attempt after them. *)
Lemma download_loop_failures (fail : nat -> exn) (k : nat) :
  forall (first : nat) (rest : list Z) (w : world),
    (forall i, (i < k)%nat ->
       http_get E (gets (trace w) + i) url = Raise (fail (first + i)%nat)
       /\ is_RequestException (fail (first + i)%nat) = true) ->
    Z.of_nat (first + k) <= retries ->
    download_loop E url headers timeout chunk_size retries full_path
      (List.map Z.of_nat (seq first k) ++ rest) w
    = download_loop E url headers timeout chunk_size retries full_path rest
        (log_to w (failed_attempts url headers timeout fail first k)).
Proof.
  induction k as [|k IH]; intros first rest w Hfail Hlast.
  - cbn. by rewrite log_to_nil.
  - cbn [seq List.map app download_loop]. rewrite run_bind.
    destruct (Hfail 0%nat) as [Hget Hreq]; [lia|].
    rewrite !Nat.add_0_r in *.
    rewrite (attempt_get_raises E url headers timeout chunk_size retries
               full_path first w (fail first)) by (done || lia).
    rewrite IH.
    + rewrite log_to_app. reflexivity.
    + intros i Hi. rewrite gets_log_to.
      cbn [failed_attempt gets List.filter is_get length].
      replace (gets (trace w) + 1 + i)%nat with (gets (trace w) + S i)%nat
        by lia.
      replace (S first + i)%nat with (first + S i)%nat by lia.
      apply Hfail. lia.
    + lia.
Qed.

Lemma gets_failed_attempts fail first k :
  gets (failed_attempts url headers timeout fail first k) = k.
Proof.
  revert first. induction k as [|k IH]; intros first; [done|].
  unfold failed_attempts. cbn [seq flat_map]. rewrite gets_app.
  unfold failed_attempts in IH. rewrite IH. reflexivity.
Qed.

Lemma sleeps_failed_attempts fail first k :
  sleeps (failed_attempts url headers timeout fail first k)
  = List.map (fun i => 2 ^ Z.of_nat i) (seq first k).
Proof.
  revert first. induction k as [|k IH]; intros first; [done|].
  unfold failed_attempts. cbn [seq flat_map List.map]. rewrite sleeps_app.
  unfold failed_attempts in IH. rewrite IH. reflexivity.
Qed.

(** Whatever an attempt returns on its own is [None] or the path. *)
Lemma attempt_returns attempt w v w' :
  download_attempt E url headers timeout chunk_size retries full_path
    attempt w = (Ok (Return (Some v)), w') ->
  v = full_path.
Proof.
  unfold download_attempt, try_except.
  match goal with |- context [?body w] => destruct (body w) as [[r|e] w1] eqn:Hbody end.
  - intros [= -> ->]. revert Hbody. unfold logging, lift, throw.
    rewrite run_bind, run_emit, run_bind, run_requests_get.
    destruct (http_get E _ url) as [response|]; [|done].
    rewrite run_bind. destruct (raise_for_status response) as [[]|]; [|done].
    cbn zeta.
    destruct (negb (PyStr.startswith (header_content_type response) "image/")).
    { run_steps. by intros [=]. }
    rewrite run_bind.
    destruct (open_wb E full_path _) as [[[]|] w2]; [|done].
    rewrite run_bind.
    destruct (write_chunks E full_path _ w2) as [[[]|] w3]; [|done].
    destruct (stream_error response); [done|].
    run_steps. by intros [= ->].
  - destruct (is_RequestException e); [|done].
    unfold logging, sleep. run_steps.
    destruct (attempt =? retries); run_steps; by intros [=].
Qed.

Lemma download_loop_returns attempts : forall w v w',
  download_loop E url headers timeout chunk_size retries full_path
    attempts w = (Ok (Some v), w') ->
  v = full_path.
Proof.
  induction attempts as [|attempt attempts IH]; intros w v w' H; [done|].
  cbn [download_loop] in H. rewrite run_bind in H.
  destruct (download_attempt E url headers timeout chunk_size retries
              full_path attempt w) as [[[|[p|]]|e] w1] eqn:Hattempt.
  - eauto.
  - rewrite run_ret in H. simplify_eq. by eapply attempt_returns.
  - by rewrite run_ret in H.
  - done.
Qed.

End DownloadAttempts.

Lemma range_split (retries : Z) (k : nat) :
  Z.of_nat k <= retries ->
  range (retries + 1)
  = (List.map Z.of_nat (seq 0 k)
     ++ Z.of_nat k :: List.map Z.of_nat (seq (S k) (Z.to_nat retries - k)))%list.
Proof.
  intros Hk. unfold range.
  replace (Z.to_nat (retries + 1)) with (k + S (Z.to_nat retries - k))%nat
    by lia.
  by rewrite seq_app, List.map_app.
Qed.

Lemma sum_backoff (k : nat) :
  fold_right Z.add 0 (List.map (fun i => 2 ^ Z.of_nat i) (seq 0 k))
  = 2 ^ Z.of_nat k - 1.
Proof.
  induction k as [|k IH]; [done|].
  rewrite seq_S, List.map_app, fold_right_app. cbn [List.map fold_right].
  assert (forall l a, fold_right Z.add a l = fold_right Z.add 0 l + a) as Hacc.
  { induction l as [|x l IHl]; intros a; cbn; [lia|]. rewrite IHl. lia. }
  rewrite Hacc, IH. cbn [Nat.add].
  rewrite Nat2Z.inj_succ, Z.pow_succ_r by lia. lia.
Qed.

(** ** The footprint of a download *)

Lemma touches_only_log_to p w t : touches_only p w (log_to w t) t.
Proof. by split. Qed.

Lemma touches_only_saved p w t content : touches_only p w (saved w t p content) t.
Proof.
  split; [done|]. intros q Hq. cbn. by rewrite lookup_insert_ne.
Qed.

Lemma touches_only_trans p w1 w2 w3 t1 t2 :
  touches_only p w1 w2 t1 -> touches_only p w2 w3 t2 ->
  touches_only p w1 w3 (t1 ++ t2).
Proof.
  intros [Ht1 Hf1] [Ht2 Hf2]. split.
  - by rewrite Ht2, Ht1, app_assoc.
  - intros q Hq. by rewrite Hf2, Hf1.
Qed.

Lemma sleeps_at_app n t1 t2 :
  sleeps_at n (t1 ++ t2)
  = (sleeps_at n t1 ++ sleeps_at (n + gets t1) t2)%list.
Proof.
  revert n. induction t1 as [|ev t1 IH]; intros n.
  - cbn. by rewrite Nat.add_0_r.
  - rewrite gets_cons. destruct ev; cbn [app sleeps_at is_get];
      rewrite IH; try (by rewrite Nat.add_0_l).
    by replace (S n + gets t1)%nat with (n + (1 + gets t1))%nat by lia.
Qed.

(** In a trace without GET request, the sleeps are where the trace
    starts. *)
Lemma sleeps_at_no_get n t :
  gets t = 0%nat -> sleeps_at n t = List.map (pair n) (sleeps t).
Proof.
  induction t as [|ev t IH]; [done|]. rewrite gets_cons, sleeps_cons.
  destruct ev; cbn [is_get sleeps_at app List.map]; intros Hg;
    try (by apply IH); try lia.
  f_equal. by apply IH.
Qed.

Lemma sleeps_at_none t :
  sleeps t = [] -> forall n, sleeps_at n t = List.map (pair (S n)) (sleeps t).
Proof.
  intros Hs n. rewrite Hs. cbn. revert n.
  induction t as [|ev t IH]; intros n; [done|].
  rewrite sleeps_cons in Hs. destruct ev; cbn [sleeps_at]; try (by apply IH).
  done.
Qed.

(** In a trace with one GET request before which nothing sleeps, the
    sleeps come after the request. *)
Lemma sleeps_at_after_get t2 tail :
  gets t2 = 1%nat -> sleeps t2 = [] -> gets tail = 0%nat ->
  forall n, sleeps_at n (t2 ++ tail)
            = List.map (pair (S n)) (sleeps (t2 ++ tail)).
Proof.
  intros Hg Hs Htail n.
  rewrite sleeps_at_app, sleeps_app, Hg, Hs, (sleeps_at_none t2 Hs), Hs.
  cbn [List.map app]. rewrite sleeps_at_no_get by done.
  by replace (n + 1)%nat with (S n) by lia.
Qed.

(** Concludes with what the [except] clause does, as described by the
    lemma [H], once the state at the raise is shown to be reached. *)
Ltac handled_by H :=
  let t := fresh "t" in let r := fresh "r" in let w' := fresh "w'" in
  let Hrun := fresh "Hrun" in let Ht := fresh "Ht" in
  let Hg := fresh "Hg" in let Hat := fresh "Hat" in let Hr := fresh "Hr" in
  let Hpre := fresh "Hpre" in
  eassert (touches_only _ _ _ _) as Hpre;
  [|destruct (H Hpre) as (t & r & w' & Hrun & Ht & Hg & Hat & Hr);
    [done..|];
    exists t, r, w'; (split; [exact Hrun|]); (split; [exact Ht|]);
    (split; [exact Hg|]); (split; [exact Hat|]);
    by destruct r as [[|[?|]]|]].

Section Footprint.

Variable E : env.
Variables (url : string) (headers : gmap string string).
Variables (timeout chunk_size retries : Z) (full_path : string).

(** Whatever the filesystem answers, the chunk loop only writes to the
    destination, and when it ends normally the file holds what it held
    before followed by the whole body. *)
Lemma write_chunks_footprint chunks : forall w t written,
  exists r ws written',
    write_chunks E full_path chunks (saved w t full_path written)
    = (r, saved w (t ++ ws) full_path written')
    /\ gets ws = 0%nat /\ sleeps ws = []
    /\ (r = Ok tt -> written' = written ++ body_of chunks).
Proof.
  induction chunks as [|chunk chunks IH]; intros w t written.
  - exists (Ok tt), [], written. cbn. rewrite app_nil_r.
    repeat split; try done. intros _. by rewrite string_app_nil_r.
  - cbn [write_chunks]. rewrite run_bind. destruct chunk as [|a chunk].
    + cbn [PyStr.truthy]. rewrite run_ret.
      destruct (IH w t written) as (r & ws & written' & -> & Hg & Hs & Hok).
      exists r, ws, written'. repeat split; try done.
    + cbn [PyStr.truthy]. rewrite write_run.
      destruct (file_write E full_path written (String a chunk)) as [[]|e].
      * destruct (IH w (t ++ [FileWrite full_path (String a chunk)])%list
                    (written ++ String a chunk))
          as (r & ws & written' & -> & Hg & Hs & Hok).
        exists r, (FileWrite full_path (String a chunk) :: ws), written'.
        rewrite <- app_assoc. split; [reflexivity|].
        split; [by rewrite gets_cons, Hg|]. split; [by rewrite sleeps_cons|].
        intros Hr. rewrite (Hok Hr). unfold body_of. cbn [fold_right].
        by rewrite string_app_assoc.
      * exists (Raise e), [FileWrite full_path (String a chunk)], written.
        repeat split; done.
Qed.

(** What the [except] clause of an attempt does with an exception [e]
    raised after the GET. *)
Lemma attempt_handler_footprint (i : nat) (e : exn) (w w2 : world) t2 :
  touches_only full_path w w2 t2 -> gets t2 = 1%nat -> sleeps t2 = [] ->
  exists t r w',
    match (if is_RequestException e then Some (
             logging WARNING (MsgAttemptFailed (Z.of_nat i + 1) e);;
             if Z.of_nat i =? retries then
               logging ERROR (MsgAllFailed url);;
               mret (Return None)
             else
               sleep (2 ^ Z.of_nat i);;
               mret Next)
           else None) : option (M (flow (option string))) with
    | Some h => h w2
    | None => (Raise e, w2)
    end = (r, w')
    /\ touches_only full_path w w' t
    /\ gets t = 1%nat
    /\ (forall n, sleeps_at n t = List.map (pair (S n)) (sleeps t))
    /\ match r with
       | Ok Next => sleeps t = [2 ^ Z.of_nat i] /\ Z.of_nat i <> retries
       | Ok (Return None) => sleeps t = []
       | Ok (Return (Some v)) => False
       | Raise e' => sleeps t = [] /\ is_RequestException e' = false
       end.
Proof.
  intros Htouch Hgets Hsleeps.
  destruct (is_RequestException e) eqn:Hreq.
  - unfold logging, sleep. run_steps.
    destruct (Z.eqb_spec (Z.of_nat i) retries) as [Hlast|Hlast]; run_steps.
    + eexists _, _, _. split; [reflexivity|]. split.
      { eapply touches_only_trans; [exact Htouch|apply touches_only_log_to]. }
      split; [by rewrite gets_app, Hgets|].
      split; [by apply sleeps_at_after_get|].
      rewrite sleeps_app, Hsleeps. done.
    + eexists _, _, _. split; [reflexivity|]. split.
      { eapply touches_only_trans; [exact Htouch|apply touches_only_log_to]. }
      split; [by rewrite gets_app, Hgets|].
      split; [by apply sleeps_at_after_get|].
      rewrite sleeps_app, Hsleeps. done.
  - exists t2, (Raise e), w2. split; [done|]. split; [done|].
    split; [done|]. split; [by apply sleeps_at_none|]. done.
Qed.

(** One attempt, whatever the transport and the filesystem do: one GET,
    no file of the world touched but the destination (the log file is
    not among them); it goes on to the next attempt
    only after the sleep of [2^i] seconds and only when it is not the
    last one; it returns a path only when the response was accepted and
    its whole body is in the file; it raises no request exception. *)
Lemma attempt_footprint (i : nat) (w : world) :
  exists t r w',
    download_attempt E url headers timeout chunk_size retries full_path
      (Z.of_nat i) w = (r, w')
    /\ touches_only full_path w w' t
    /\ gets t = 1%nat
    /\ (forall n, sleeps_at n t = List.map (pair (S n)) (sleeps t))
    /\ match r with
       | Ok Next => sleeps t = [2 ^ Z.of_nat i] /\ Z.of_nat i <> retries
       | Ok (Return None) => sleeps t = []
       | Ok (Return (Some v)) =>
           sleeps t = [] /\ v = full_path
           /\ exists response,
                http_get E (gets (trace w)) url = Ok response
                /\ raise_for_status response = Ok tt
                /\ PyStr.startswith (header_content_type response) "image/"
                   = true
                /\ stream_error response = None
                /\ files w' !! full_path
                   = Some (body_of (iter_content response chunk_size))
       | Raise e => sleeps t = [] /\ is_RequestException e = false
       end.
Proof.
  rewrite attempt_unfold. unfold try_except.
  assert (gets (attempt_start url headers timeout i) = 1%nat) as Hstart
    by reflexivity.
  rewrite run_bind, attempt_get_run.
  destruct (http_get E (gets (trace w)) url) as [response|e] eqn:Hget.
  2: { handled_by (attempt_handler_footprint i e w
                     (log_to w (attempt_start url headers timeout i))
                     (attempt_start url headers timeout i)).
       apply touches_only_log_to. }
  rewrite run_bind. unfold lift.
  destruct (raise_for_status response) as [[]|e] eqn:Hstatus.
  2: { handled_by (attempt_handler_footprint i e w
                     (log_to w (attempt_start url headers timeout i))
                     (attempt_start url headers timeout i)).
       apply touches_only_log_to. }
  cbn zeta.
  destruct (PyStr.startswith (header_content_type response) "image/")
    eqn:Htype; cbn [negb].
  2: { unfold logging. run_steps. eexists _, _, _.
       split; [reflexivity|]. split; [apply touches_only_log_to|].
       split; [by rewrite gets_app|]. split; [by apply sleeps_at_none|].
       by rewrite sleeps_app. }
  rewrite run_bind, open_wb_run.
  destruct (file_open E full_path) as [[]|e].
  2: { rewrite log_to_app.
       handled_by (attempt_handler_footprint i e w
                     (log_to w (attempt_start url headers timeout i
                                ++ [FileOpen full_path]))
                     (attempt_start url headers timeout i
                      ++ [FileOpen full_path])%list).
       apply touches_only_log_to. }
  rewrite saved_log_to, run_bind.
  destruct (write_chunks_footprint (iter_content response chunk_size) w
              (attempt_start url headers timeout i ++ [FileOpen full_path])
              "")
    as (r & ws & written' & -> & Hwg & Hws & Hbody).
  assert (gets ((attempt_start url headers timeout i ++ [FileOpen full_path])
                ++ ws) = 1%nat) as Hg1 by (by rewrite !gets_app, Hwg).
  assert (sleeps ((attempt_start url headers timeout i
                   ++ [FileOpen full_path]) ++ ws) = []) as Hs1
    by (by rewrite !sleeps_app, Hws).
  destruct r as [[]|e].
  2: { handled_by (attempt_handler_footprint i e w
                     (saved w ((attempt_start url headers timeout i
                                ++ [FileOpen full_path]) ++ ws)
                        full_path written')
                     ((attempt_start url headers timeout i
                       ++ [FileOpen full_path]) ++ ws)%list).
       apply touches_only_saved. }
  destruct (stream_error response) as [e|] eqn:Hstream.
  { handled_by (attempt_handler_footprint i e w
                  (saved w ((attempt_start url headers timeout i
                             ++ [FileOpen full_path]) ++ ws)
                     full_path written')
                  ((attempt_start url headers timeout i
                    ++ [FileOpen full_path]) ++ ws)%list).
    apply touches_only_saved. }
  unfold logging. rewrite run_bind, run_emit, log_to_saved, run_ret.
  eexists _, _, _. split; [reflexivity|]. split; [apply touches_only_saved|].
  split; [by rewrite gets_app, Hg1|].
  split; [apply sleeps_at_none; by rewrite sleeps_app, Hs1|].
  rewrite sleeps_app, Hs1. repeat split; try done.
  exists response. repeat split; try done.
  cbn [files saved]. rewrite lookup_insert_eq, (Hbody eq_refl). done.
Qed.

(** The retry loop over the attempts [a], ..., [a + n - 1], the last of
    which is attempt [retries]: at most [n] GETs, a sleep of [2^i] after
    each attempt [i] that is followed by another one and none after the
    last GET, no file of the world touched but the destination. *)
Lemma download_loop_footprint (n : nat) : forall (a : nat) (w : world),
  n = 0%nat \/ Z.of_nat (a + n) = retries + 1 ->
  exists t r w',
    download_loop E url headers timeout chunk_size retries full_path
      (List.map Z.of_nat (seq a n)) w = (r, w')
    /\ touches_only full_path w w' t
    /\ (gets t <= n)%nat
    /\ (n <> 0%nat -> gets t <> 0%nat)
    /\ sleeps t = List.map (fun i => 2 ^ Z.of_nat i) (seq a (gets t - 1))
    /\ (forall m,
          sleeps_at m t
          = List.map (fun k => ((m + S k)%nat, 2 ^ Z.of_nat (a + k)))
              (seq 0 (gets t - 1)))
    /\ match r with
       | Ok (Some v) =>
           v = full_path
           /\ exists response,
                http_get E (gets (trace w) + (gets t - 1)) url = Ok response
                /\ raise_for_status response = Ok tt
                /\ PyStr.startswith (header_content_type response) "image/"
                   = true
                /\ stream_error response = None
                /\ files w' !! full_path
                   = Some (body_of (iter_content response chunk_size))
       | Ok None => True
       | Raise e => is_RequestException e = false
       end.
Proof.
  induction n as [|n IH]; intros a w Hlast.
  { exists [], (Ok None), w. cbn. repeat split; try done.
    by rewrite app_nil_r. }
  cbn [seq List.map download_loop]. rewrite run_bind.
  destruct (attempt_footprint a w)
    as (t1 & r1 & w1 & -> & Ht1 & Hg1 & Hat1 & Hr1).
  assert (forall m,
            sleeps t1 = [] ->
            sleeps_at m t1
            = List.map (fun k => ((m + S k)%nat, 2 ^ Z.of_nat (a + k)))
                (seq 0 (1 - 1))) as Hlast1.
  { intros m Hs1. by rewrite Hat1, Hs1. }
  destruct r1 as [[|v]|e].
  - destruct Hr1 as [Hs1 Hnot].
    destruct (IH (S a) w1)
      as (t2 & r & w' & -> & Ht2 & Hg2 & Hpos & Hs2 & Hat2 & Hr).
    { destruct n; [left; done|right; lia]. }
    assert (n <> 0%nat) as Hn by lia. specialize (Hpos Hn).
    exists (t1 ++ t2)%list, r, w'. split; [done|].
    split; [by eapply touches_only_trans|].
    rewrite gets_app, Hg1, sleeps_app, Hs1, Hs2.
    split; [lia|]. split; [lia|]. split.
    { replace (1 + gets t2 - 1)%nat with (S (gets t2 - 1)) by lia.
      reflexivity. }
    split.
    { intros m. rewrite sleeps_at_app, Hat1, Hs1, Hg1, Hat2.
      replace (1 + gets t2 - 1)%nat with (S (gets t2 - 1)) by lia.
      cbn [seq List.map app]. f_equal.
      - f_equal; [lia|]. f_equal. lia.
      - rewrite <- seq_shift, List.map_map. apply List.map_ext.
        intros k. f_equal; [lia|]. f_equal. lia. }
    destruct r as [[v|]|e]; try done.
    destruct Hr as (-> & response & Hget & Hrest). split; [done|].
    exists response. split; [|done].
    rewrite <- Hget. f_equal. destruct Ht1 as [-> _]. rewrite gets_app, Hg1.
    lia.
  - rewrite run_ret. exists t1, (Ok v), w1. split; [done|].
    split; [done|]. rewrite Hg1. split; [lia|]. split; [lia|].
    destruct v as [v|].
    + destruct Hr1 as (Hs1 & -> & response & Hget & Hrest).
      split; [done|]. split; [by intros m; apply Hlast1|].
      split; [done|]. exists response. by rewrite Nat.add_0_r.
    + split; [done|]. split; [by intros m; apply Hlast1|]. done.
  - destruct Hr1 as [Hs1 Hreq]. exists t1, (Raise e), w1.
    split; [done|]. split; [done|]. rewrite Hg1.
    split; [lia|]. split; [lia|]. split; [done|].
    split; [by intros m; apply Hlast1|]. done.
Qed.

(** A run of the retry loop that sends a GET request number [j] goes
    through attempt [j]: the attempts before it were each followed by
    the backoff sleep, and the run is the run of attempt [j] and of what
    follows it. *)
Lemma download_loop_reaches (n : nat) :
  forall (a : nat) (w : world) r w' t (j : nat),
    n = 0%nat \/ Z.of_nat (a + n) = retries + 1 ->
    download_loop E url headers timeout chunk_size retries full_path
      (List.map Z.of_nat (seq a n)) w = (r, w') ->
    trace w' = (trace w ++ t)%list ->
    (j < gets t)%nat ->
    exists before wj,
      touches_only full_path w wj before
      /\ gets before = j
      /\ sleeps before = List.map (fun i => 2 ^ Z.of_nat i) (seq a j)
      /\ (j < n)%nat
      /\ (x ← download_attempt E url headers timeout chunk_size retries
                full_path (Z.of_nat (a + j));
          match x with
          | Return v => mret v
          | Next =>
              download_loop E url headers timeout chunk_size retries
                full_path (List.map Z.of_nat (seq (S (a + j)) (n - S j)))
          end) wj = (r, w').
Proof.
  induction n as [|n IH]; intros a w r w' t j Hlast Hrun Htrace Hj.
  { cbn in Hrun. injection Hrun as <- <-.
    rewrite <- (app_nil_r (trace w)) in Htrace at 1.
    apply app_inv_head in Htrace as <-. cbn in Hj. lia. }
  destruct j as [|j].
  { exists [], w. split; [split; [by rewrite app_nil_r|done]|].
    split; [done|]. split; [done|]. split; [lia|].
    rewrite Nat.add_0_r. cbn [Nat.sub]. rewrite Nat.sub_0_r. exact Hrun. }
  cbn [seq List.map download_loop] in Hrun. rewrite run_bind in Hrun.
  destruct (attempt_footprint a w)
    as (t1 & r1 & w1 & Hattempt & Ht1 & Hg1 & _ & Hr1).
  rewrite Hattempt in Hrun.
  assert (forall v : result (option string),
            (v, w1) = (r, w') -> False) as Hstop.
  { intros v [= <- <-]. destruct Ht1 as [Htrace1 _].
    rewrite Htrace1 in Htrace. apply app_inv_head in Htrace as <-. lia. }
  destruct r1 as [[|v]|e];
    [|exfalso; eapply Hstop; exact Hrun|exfalso; eapply Hstop; exact Hrun].
  destruct Hr1 as [Hs1 Hnot].
  destruct (download_loop_footprint n (S a) w1)
    as (t2 & r0 & w0 & Hrun0 & [Htrace2 Hfiles2] & _).
  { destruct n; [left; done|right; lia]. }
  rewrite Hrun in Hrun0. injection Hrun0 as <- <-.
  assert (t = (t1 ++ t2)%list) as ->.
  { destruct Ht1 as [Htrace1 _].
    rewrite Htrace2, Htrace1, <- app_assoc in Htrace.
    by apply app_inv_head in Htrace. }
  rewrite gets_app, Hg1 in Hj.
  destruct (IH (S a) w1 r w' t2 j) as (before & wj & Hb & Hgb & Hsb & Hjn & Hgo);
    [destruct n; [left; done|right; lia]|done|done|lia|].
  exists (t1 ++ before)%list, wj.
  split; [by eapply touches_only_trans|].
  split; [rewrite gets_app; lia|].
  split; [by rewrite sleeps_app, Hs1, Hsb|]. split; [lia|].
  replace (a + S j)%nat with (S a + j)%nat by lia. exact Hgo.
Qed.

End Footprint.

Lemma check_bracketed_netloc_raises L netloc e :
  Urllib.check_bracketed_netloc L netloc = Raise e ->
  exists msg, e = ValueError msg.
Proof.
  unfold Urllib.check_bracketed_netloc.
  destruct (Urllib.partition "[" (Urllib.after_last "@" netloc))
    as [[before_bracket have_open_br] bracketed].
  assert (forall h : result string,
            (forall e', h = Raise e' -> exists msg, e' = ValueError msg) ->
            (h ≫= λ hostname,
               if check_bracketed_host L hostname then Ok tt
               else Raise (ValueError "invalid bracketed host")) = Raise e ->
            exists msg, e = ValueError msg) as Hbind.
  { intros [hostname|e'] Hh; cbn.
    - destruct (check_bracketed_host L hostname); [done|].
      intros [= <-]. eauto.
    - intros [= <-]. by apply Hh. }
  apply Hbind. intros e'.
  destruct have_open_br; [|done].
  destruct (PyStr.truthy before_bracket); [intros [= <-]; eauto|].
  destruct (Urllib.partition "]" bracketed) as [[hostname ?] port].
  destruct (PyStr.truthy port && negb (PyStr.startswith port ":"));
    [intros [= <-]; eauto|done].
Qed.

Lemma urlsplit_raises L url scheme e :
  Urllib.urlsplit L url scheme = Raise e -> exists msg, e = ValueError msg.
Proof.
  unfold Urllib.urlsplit.
  match goal with
  | |- context [let '(_, _) := ?x in _] => destruct x as [scheme' url']
  end.
  match goal with
  | |- (?m ≫= _) = _ -> _ =>
      assert (forall e', m = Raise e' -> exists msg, e' = ValueError msg)
        as Hnetloc; [|destruct m as [[netloc rest]|e']]
  end.
  - intros e'. destruct (PyStr.startswith url' "//"); [|done].
    destruct (Urllib.splitnetloc url') as [netloc rest].
    match goal with |- context [if ?c then _ else _] => destruct c end;
      [intros [= <-]; eauto|].
    match goal with |- context [if ?c then _ else _] => destruct c end;
      [|done].
    destruct (Urllib.check_bracketed_netloc L netloc) as [[]|e0] eqn:Hcheck;
      [done|].
    intros [= <-]. by eapply check_bracketed_netloc_raises.
  - cbn.
    repeat match goal with
           | |- context [let '(_, _) := ?x in _] => destruct x
           end. done.
  - cbn. intros [= <-]. by apply Hnetloc.
Qed.

(** [urlparse] raises [ValueError] only. *)
Lemma urlparse_raises L url scheme e :
  Urllib.urlparse L url scheme = Raise e -> exists msg, e = ValueError msg.
Proof.
  unfold Urllib.urlparse.
  destruct (Urllib.urlsplit L url scheme)
    as [[[[[scheme' netloc] url'] query] fragment]|e'] eqn:Hsplit; cbn.
  - by match goal with
       | |- context [let '(_, _) := ?x in _] => destruct x
       end.
  - intros [= <-]. by eapply urlsplit_raises.
Qed.

(** [download_path] raises only what the directory creation or the
    parsing of the URL raises. *)
Lemma download_path_raises L E url headers save_dir custom_filename w e w' :
  download_path L E url headers save_dir custom_filename w = (Raise e, w') ->
  os_makedirs E save_dir = Raise e
  \/ (os_makedirs E save_dir = Ok tt
      /\ PyStr.truthy (default "" custom_filename) = false
      /\ Urllib.urlparse L (unquote L url) "" = Raise e
      /\ w' = log_to w [MakeDirs save_dir]).
Proof.
  unfold download_path. rewrite run_bind, makedirs_run.
  destruct (os_makedirs E save_dir) as [[]|e0].
  2: { intros [= -> _]. by left. }
  rewrite run_bind. unfold derive_filename.
  destruct (PyStr.truthy (default "" custom_filename)).
  { rewrite run_ret, run_bind.
    destruct (determine_ext_run E url headers
                (clean_filename (default "" custom_filename))
                (log_to w [MakeDirs save_dir])) as (x & t & -> & _).
    by rewrite run_ret. }
  rewrite run_bind. unfold lift.
  destruct (Urllib.urlparse L (unquote L url) "") as [parsed|e0].
  2: { intros [= -> <-]. by right. }
  match goal with |- context [if ?c then _ else _] => destruct c end.
  - unfold time_now. run_steps.
    match goal with
    | |- context [determine_ext E url headers ?f ?w0] =>
        destruct (determine_ext_run E url headers f w0) as (x & t & -> & _)
    end.
    by rewrite run_ret.
  - run_steps.
    match goal with
    | |- context [determine_ext E url headers ?f ?w0] =>
        destruct (determine_ext_run E url headers f w0) as (x & t & -> & _)
    end.
    by rewrite run_ret.
Qed.

Lemma drop_app_length (stem ext : string) :
  PyStr.drop (String.length stem) (stem ++ ext) = ext.
Proof.
  induction stem as [|a stem IH]; [by destruct ext|].
  change (PyStr.drop (S (String.length stem)) (String a (stem ++ ext)) = ext).
  exact IH.
Qed.

(** A path that ends with an extension of the allow-list is not the
    file of the logging handler. *)
Lemma not_scraper_log (stem ext : string) :
  ext ∈ allowed_extensions -> stem ++ ext <> scraper_log.
Proof.
  intros Hin Heq. pose proof (rfind_allowed_ext stem ext Hin) as Hdot.
  pose proof (drop_app_length stem ext) as Hdrop.
  rewrite Heq in Hdot, Hdrop.
  change (PyStr.rfind "." scraper_log) with (Some 7%nat) in Hdot.
  injection Hdot as Hlen. rewrite <- Hlen in Hdrop.
  change (".log" = ext) in Hdrop. subst ext.
  unfold allowed_extensions in Hin.
  repeat (apply elem_of_cons in Hin as [Hin|Hin]; [discriminate Hin|]).
  by apply not_elem_of_nil in Hin.
Qed.

(** [download_image] as a whole, for every library, transport, clock and
    filesystem. *)
Lemma download_image_footprint L E url headers save_dir timeout chunk_size
    retries custom_filename w :
  exists t r w' p,
    download_image L E url headers save_dir timeout chunk_size retries
      custom_filename w = (r, w')
    /\ touches_only p w w' t
    /\ p <> scraper_log
    /\ (gets t <= Z.to_nat (retries + 1))%nat
    /\ sleeps t = backoff (gets t - 1)
    /\ sleeps_at 0 t
       = List.map (fun k => (S k, 2 ^ Z.of_nat k)) (seq 0 (gets t - 1))
    /\ match r with
       | Ok (Some v) =>
           v = p /\ gets t <> 0%nat
           /\ exists response,
                http_get E (gets (trace w) + (gets t - 1)) url = Ok response
                /\ raise_for_status response = Ok tt
                /\ PyStr.startswith (header_content_type response) "image/"
                   = true
                /\ stream_error response = None
                /\ files w' !! p
                   = Some (body_of (iter_content response chunk_size))
       | Ok None => True
       | Raise e =>
           is_RequestException e = true -> os_makedirs E save_dir = Raise e
       end.
Proof.
  unfold download_image.
  destruct (negb (PyStr.startswith url "http://"
                  || PyStr.startswith url "https://")).
  { unfold logging, throw. run_steps. eexists _, _, _, "".
    split; [reflexivity|]. split; [apply touches_only_log_to|].
    split; [done|].
    split; [cbn; lia|]. split; [reflexivity|]. split; [reflexivity|].
    by cbn. }
  rewrite run_bind.
  destruct (download_path L E url headers save_dir custom_filename w)
    as [r0 w0] eqn:Hrun.
  destruct (download_path_run L E url headers save_dir custom_filename w)
    as (r0' & t0 & Hrun' & _ & Hg0 & Hs0 & _ & Hshape).
  rewrite Hrun in Hrun'. injection Hrun' as <- ->.
  assert (gets (MakeDirs save_dir :: t0) = 0%nat) as Hg0'
    by (by rewrite gets_cons, Hg0).
  assert (sleeps (MakeDirs save_dir :: t0) = []) as Hs0'
    by (by rewrite sleeps_cons, Hs0).
  destruct r0 as [full_path|e].
  2: { exists (MakeDirs save_dir :: t0), (Raise e),
         (log_to w (MakeDirs save_dir :: t0)), "".
       split; [done|]. split; [apply touches_only_log_to|]. split; [done|].
       rewrite Hg0', Hs0'. split; [lia|]. split; [done|].
       split; [by rewrite (sleeps_at_no_get 0 _ Hg0'), Hs0'|]. intros Hreq.
       destruct (download_path_raises _ _ _ _ _ _ _ _ _ Hrun)
         as [Hdir|(_ & _ & Hparse & _)]; [done|].
       apply urlparse_raises in Hparse as [msg ->]. done. }
  destruct (download_loop_footprint E url headers timeout chunk_size retries
              full_path (Z.to_nat (retries + 1)) 0
              (log_to w (MakeDirs save_dir :: t0)))
    as (t & r & w' & Hloop & Ht & Hle & Hpos & Hs & Hat & Hr).
  { destruct (Z.to_nat (retries + 1)) eqn:Hn; [by left|right; lia]. }
  unfold range. rewrite Hloop.
  exists ((MakeDirs save_dir :: t0) ++ t)%list, r, w', full_path.
  split; [done|]. split.
  { eapply touches_only_trans; [apply touches_only_log_to|done]. }
  split.
  { destruct (Hshape full_path eq_refl)
      as (raw & w0 & detected & _ & _ & ->).
    destruct (force_valid_ext_allowed detected) as (Hin & _ & _).
    destruct (posix_join_suffix save_dir
                ((PosixPath.splitext (clean_filename raw)).1
                 ++ force_valid_ext detected)) as [stem ->].
    rewrite !string_app_assoc. by apply not_scraper_log. }
  rewrite sleeps_at_app, (sleeps_at_no_get 0 _ Hg0').
  rewrite gets_app, Hg0', sleeps_app, Hs0'. cbn [Nat.add app List.map].
  split; [done|]. split; [done|]. split; [by rewrite Hat|].
  destruct r as [[v|]|e]; [|done|].
  - destruct Hr as (-> & response & Hget & Hrest). split; [done|]. split.
    { apply Hpos. intros Hzero. by rewrite Hzero in Hloop. }
    exists response. split; [|done].
    by rewrite gets_log_to, Hg0', Nat.add_0_r in Hget.
  - intros Hreq. congruence.
Qed.

Lemma raise_for_status_ok r :
  raise_for_status r = Ok tt <-> ~ (400 <= status_code r < 600).
Proof.
  unfold raise_for_status.
  destruct (Z.leb_spec 400 (status_code r)), (Z.ltb_spec (status_code r) 500),
    (Z.leb_spec 500 (status_code r)), (Z.ltb_spec (status_code r) 600);
    cbn [andb]; split; (done || lia).
Qed.

(** A call of [download_image] that sends a GET request number [j]
    (counted from 0) has derived the destination, and goes through
    attempt [j]: before it, [j] GET requests and the backoff sleeps after
    them; then the run of attempt [j] and of what follows it. *)
Lemma download_image_reaches L E url headers save_dir timeout chunk_size
    retries custom_filename w r w' t (j : nat) :
  download_image L E url headers save_dir timeout chunk_size retries
    custom_filename w = (r, w') ->
  trace w' = (trace w ++ t)%list ->
  (j < gets t)%nat ->
  exists full_path t0 before wj t',
    download_path L E url headers save_dir custom_filename w
    = (Ok full_path, log_to w (MakeDirs save_dir :: t0))
    /\ forallb is_probe t0 = true /\ gets t0 = 0%nat /\ sleeps t0 = []
    /\ touches_only full_path (log_to w (MakeDirs save_dir :: t0)) wj before
    /\ gets before = j
    /\ sleeps before = backoff j
    /\ Z.of_nat j <= retries
    /\ gets (trace wj) = (gets (trace w) + j)%nat
    /\ t = (MakeDirs save_dir :: t0 ++ before ++ t')%list
    /\ trace w' = (trace wj ++ t')%list
    /\ (x ← download_attempt E url headers timeout chunk_size retries
              full_path (Z.of_nat j);
        match x with
        | Return v => mret v
        | Next =>
            download_loop E url headers timeout chunk_size retries full_path
              (List.map Z.of_nat
                 (seq (S j) (Z.to_nat (retries + 1) - S j)))
        end) wj = (r, w').
Proof.
  unfold download_image.
  destruct (negb (PyStr.startswith url "http://"
                  || PyStr.startswith url "https://")).
  { unfold logging, throw. run_steps. intros [= <- <-] Htrace Hj.
    cbn [trace log_to] in Htrace. apply app_inv_head in Htrace as <-.
    cbn in Hj. lia. }
  rewrite run_bind.
  destruct (download_path_run L E url headers save_dir custom_filename w)
    as (r0 & t0 & Hpath & Hprobe & Hg0 & Hs0 & _ & _).
  rewrite Hpath.
  assert (gets (MakeDirs save_dir :: t0) = 0%nat) as Hg0'
    by (by rewrite gets_cons, Hg0).
  assert (sleeps (MakeDirs save_dir :: t0) = []) as Hs0'
    by (by rewrite sleeps_cons, Hs0).
  destruct r0 as [full_path|e].
  2: { intros [= <- <-] Htrace Hj. cbn [trace log_to] in Htrace.
       apply app_inv_head in Htrace as <-. lia. }
  intros Hloop Htrace Hj.
  destruct (download_loop_footprint E url headers timeout chunk_size retries
              full_path (Z.to_nat (retries + 1)) 0
              (log_to w (MakeDirs save_dir :: t0)))
    as (t2 & r2 & w2 & Hloop2 & [Htrace2 _] & _).
  { destruct (Z.to_nat (retries + 1)) eqn:Hn; [by left|right; lia]. }
  unfold range in Hloop. rewrite Hloop in Hloop2. injection Hloop2 as <- <-.
  assert (t = ((MakeDirs save_dir :: t0) ++ t2)%list) as Ht.
  { rewrite Htrace2 in Htrace. cbn [trace log_to] in Htrace.
    rewrite <- app_assoc in Htrace. by apply app_inv_head in Htrace. }
  rewrite Ht, gets_app, Hg0' in Hj. cbn [Nat.add] in Hj.
  destruct (download_loop_reaches E url headers timeout chunk_size retries
              full_path (Z.to_nat (retries + 1)) 0
              (log_to w (MakeDirs save_dir :: t0)) r w' t2 j)
    as (before & wj & Hbefore & Hgb & Hsb & Hjn & Hgo); [|done..|].
  { destruct (Z.to_nat (retries + 1)) eqn:Hn; [by left|right; lia]. }
  cbn [Nat.add] in Hgo.
  assert (exists t', trace w' = (trace wj ++ t')%list) as [t' Ht'].
  { revert Hgo. rewrite run_bind.
    destruct (attempt_footprint E url headers timeout chunk_size retries
                full_path j wj) as (ta & ra & wa & -> & [Hta _] & _).
    destruct ra as [[|v]|e].
    - destruct (download_loop_footprint E url headers timeout chunk_size
                  retries full_path (Z.to_nat (retries + 1) - S j) (S j) wa)
        as (tb & rb & wb & -> & [Htb _] & _).
      { destruct (Z.to_nat (retries + 1) - S j)%nat eqn:Hn;
          [by left|right; lia]. }
      intros [= <- <-]. exists (ta ++ tb)%list.
      by rewrite Htb, Hta, app_assoc.
    - rewrite run_ret. intros [= <- <-]. by exists ta.
    - intros [= <- <-]. by exists ta. }
  exists full_path, t0, before, wj, t'.
  split; [done|]. split; [done|]. split; [done|]. split; [done|].
  split; [done|]. split; [done|]. split; [done|]. split; [lia|].
  destruct Hbefore as [Htb _].
  split; [by rewrite Htb, gets_app, gets_log_to, Hg0', Hgb, Nat.add_0_r|].
  split; [|done].
  rewrite Ht. cbn [app]. f_equal. f_equal.
  rewrite Ht', Htb in Htrace2. rewrite <- app_assoc in Htrace2.
  by apply app_inv_head in Htrace2.
Qed.

(** ** Properties of [download_image] *)

Section AfterFailures.

Variable L : pylib.
Variable E : env.
Variables (url : string) (headers : gmap string string) (save_dir : string).
Variables (timeout chunk_size retries : Z).
Variable custom_filename : option string.
Variable w : world.

(** The URL has an accepted scheme, the directory can be created and the
    file name can be derived. *)
Hypothesis Hscheme :
  PyStr.startswith url "http://" || PyStr.startswith url "https://" = true.
Hypothesis Hdir : os_makedirs E save_dir = Ok tt.
Hypothesis Hname :
  PyStr.truthy (default "" custom_filename) = true
  \/ (exists parsed, Urllib.urlparse L (unquote L url) "" = Ok parsed).

(** The first [k] GET requests raise a request exception, and at least
    one attempt is left after them. *)
Variable k : nat.
Variable fail : nat -> exn.
Hypothesis Hk : Z.of_nat k <= retries.
Hypothesis Hfail :
  forall i, (i < k)%nat ->
    http_get E (gets (trace w) + i) url = Raise (fail i)
    /\ is_RequestException (fail i) = true.

(** After the path has been derived and [k] attempts have failed,
    [download_image] runs attempt [k] with [k] GET requests and the
    sleeps 1, 2, ... behind it. *)
Lemma download_image_reaches_attempt :
  exists full_path t,
    let w' := log_to w (MakeDirs save_dir :: t
                        ++ failed_attempts url headers timeout fail 0 k) in
    forallb is_probe t = true /\ gets t = 0%nat /\ sleeps t = []
    /\ download_path L E url headers save_dir custom_filename w
       = (Ok full_path, log_to w (MakeDirs save_dir :: t))
    /\ gets (trace w') = (gets (trace w) + k)%nat
    /\ download_image L E url headers save_dir timeout chunk_size retries
         custom_filename w
       = (r ← download_attempt E url headers timeout chunk_size retries
                full_path (Z.of_nat k);
          match r with
          | Return v => mret v
          | Next =>
              download_loop E url headers timeout chunk_size retries
                full_path
                (List.map Z.of_nat (seq (S k) (Z.to_nat retries - k)))
          end) w'.
Proof.
  destruct (download_path_run L E url headers save_dir custom_filename w)
    as (r & t & Hpath & Hprobe & Hgets & Hsleeps & Hok & _).
  destruct (Hok Hdir Hname) as [full_path ->].
  exists full_path, t. cbn zeta. repeat split; try done.
  - rewrite gets_log_to, gets_cons, gets_app, Hgets, gets_failed_attempts.
    cbn. lia.
  - unfold download_image. rewrite Hscheme. cbn [negb].
    rewrite run_bind, Hpath, (range_split retries k) by done.
    rewrite (download_loop_failures E url headers timeout chunk_size retries
               full_path fail k 0).
    + rewrite log_to_app. reflexivity.
    + intros i Hi. rewrite gets_log_to, gets_cons, Hgets.
      cbn [is_get Nat.add]. rewrite Nat.add_0_r. by apply Hfail.
    + lia.
Qed.

End AfterFailures.

Lemma writes_quiet p chunks :
  gets (writes_of p chunks) = 0%nat /\ sleeps (writes_of p chunks) = [].
Proof.
  unfold writes_of.
  induction (List.filter PyStr.truthy chunks) as [|c l [IHg IHs]]; [done|].
  cbn [List.map]. rewrite gets_cons, IHg. split; [done|].
  exact IHs.
Qed.

(** C6: a URL that starts with neither [http://] nor [https://] makes
    [download_image] raise [ValueError] at once: the only event is the
    error record, so no directory is created, no file name is derived, no
    request is sent and nothing is retried. *)
Theorem download_image_invalid_url (L : pylib) (E : env) (url : string)
    (headers : gmap string string) (save_dir : string)
    (timeout chunk_size retries : Z) (custom_filename : option string)
    (w : world) :
  PyStr.startswith url "http://" = false ->
  PyStr.startswith url "https://" = false ->
  download_image L E url headers save_dir timeout chunk_size retries
    custom_filename w
  = (Raise (ValueError "URL must start with http:// or https://"),
     log_to w [Log ERROR (MsgInvalidProtocol url)]).
Proof.
  intros Hhttp Hhttps. unfold download_image. rewrite Hhttp, Hhttps.
  reflexivity.
Qed.

(** C9: with a negative [retries] and a URL with an accepted scheme,
    [download_image] creates the directory, derives the path (reading the
    clock or sending a HEAD request at most), sends no GET request, never
    sleeps, and returns [None]. *)
Theorem download_image_negative_retries (L : pylib) (E : env) (url : string)
    (headers : gmap string string) (save_dir : string)
    (timeout chunk_size retries : Z) (custom_filename : option string)
    (w : world) :
  retries < 0 ->
  PyStr.startswith url "http://" || PyStr.startswith url "https://" = true ->
  os_makedirs E save_dir = Ok tt ->
  PyStr.truthy (default "" custom_filename) = true
  \/ (exists parsed, Urllib.urlparse L (unquote L url) "" = Ok parsed) ->
  exists full_path t,
    download_path L E url headers save_dir custom_filename w
    = (Ok full_path, log_to w (MakeDirs save_dir :: t))
    /\ download_image L E url headers save_dir timeout chunk_size retries
         custom_filename w
       = (Ok None, log_to w (MakeDirs save_dir :: t))
    /\ forallb is_probe t = true
    /\ gets (MakeDirs save_dir :: t) = 0%nat
    /\ sleeps (MakeDirs save_dir :: t) = [].
Proof.
  intros Hretries Hscheme Hdir Hname.
  destruct (download_path_run L E url headers save_dir custom_filename w)
    as (r & t & Hpath & Hprobe & Hgets & Hsleeps & Hok & _).
  destruct (Hok Hdir Hname) as [full_path ->].
  exists full_path, t. split; [done|]. split.
  - unfold download_image. rewrite Hscheme. cbn [negb].
    rewrite run_bind, Hpath. unfold range.
    replace (Z.to_nat (retries + 1)) with 0%nat by lia. reflexivity.
  - by rewrite gets_cons, Hgets.
Qed.

(** C3: when the first [k <= retries] GET requests raise a request
    exception and the next one serves a valid image, [download_image]
    returns the saved path after [k + 1 <= retries + 1] GET requests; it
    sleeps after each failed attempt only, so not before the first GET,
    and the sleeps are 2^0, 2^1, ..., 2^(k-1) seconds, 2^k - 1 in all. *)
Theorem download_image_backoff (L : pylib) (E : env) (url : string)
    (headers : gmap string string) (save_dir : string)
    (timeout chunk_size retries : Z) (custom_filename : option string)
    (w : world) (k : nat) (fail : nat -> exn) (r : response) :
  0 <= retries ->
  Z.of_nat k <= retries ->
  PyStr.startswith url "http://" || PyStr.startswith url "https://" = true ->
  os_makedirs E save_dir = Ok tt ->
  PyStr.truthy (default "" custom_filename) = true
  \/ (exists parsed, Urllib.urlparse L (unquote L url) "" = Ok parsed) ->
  (forall i, (i < k)%nat ->
     http_get E (gets (trace w) + i) url = Raise (fail i)
     /\ is_RequestException (fail i) = true) ->
  http_get E (gets (trace w) + k) url = Ok r ->
  valid_image r ->
  (forall p, file_open E p = Ok tt) ->
  (forall p content chunk, file_write E p content chunk = Ok tt) ->
  exists full_path t,
    let T := (MakeDirs save_dir :: t
              ++ failed_attempts url headers timeout fail 0 k
              ++ attempt_start url headers timeout k
              ++ [FileOpen full_path]
              ++ writes_of full_path (iter_content r chunk_size)
              ++ [Log INFO (MsgDownloaded full_path)])%list in
    download_image L E url headers save_dir timeout chunk_size retries
      custom_filename w
    = (Ok (Some full_path),
       saved w T full_path (body_of (iter_content r chunk_size)))
    /\ forallb is_probe t = true
    /\ gets T = S k
    /\ Z.of_nat (gets T) <= retries + 1
    /\ sleeps T = List.map (fun i => 2 ^ Z.of_nat i) (seq 0 k)
    /\ fold_right Z.add 0 (sleeps T) = 2 ^ Z.of_nat k - 1
    /\ (exists before after,
          T = (before ++ HttpGet url headers timeout true :: after)%list
          /\ gets before = 0%nat /\ sleeps before = []).
Proof.
  intros Hretries Hk Hscheme Hdir Hname Hfail Hget (Hstatus & Htype & Hstream)
         Hopen Hwrite.
  destruct (download_image_reaches_attempt L E url headers save_dir timeout
              chunk_size retries custom_filename w Hscheme Hdir Hname k fail
              Hk Hfail)
    as (full_path & t & Hprobe & Hgets & Hsleeps & Hpath & Hcount & Hrun).
  exists full_path, t. cbn zeta in *.
  destruct (writes_quiet full_path (iter_content r chunk_size)) as [Hwg Hws].
  assert (sleeps (MakeDirs save_dir :: t
                  ++ failed_attempts url headers timeout fail 0 k
                  ++ attempt_start url headers timeout k
                  ++ [FileOpen full_path]
                  ++ writes_of full_path (iter_content r chunk_size)
                  ++ [Log INFO (MsgDownloaded full_path)])
          = List.map (fun i => 2 ^ Z.of_nat i) (seq 0 k)) as Hsl.
  { change (MakeDirs save_dir :: ?l) with ([MakeDirs save_dir] ++ l)%list.
    rewrite !sleeps_app, Hsleeps, sleeps_failed_attempts, Hws. cbn.
    by rewrite app_nil_r. }
  assert (gets (MakeDirs save_dir :: t
                ++ failed_attempts url headers timeout fail 0 k
                ++ attempt_start url headers timeout k
                ++ [FileOpen full_path]
                ++ writes_of full_path (iter_content r chunk_size)
                ++ [Log INFO (MsgDownloaded full_path)]) = S k) as Hg.
  { rewrite gets_cons, !gets_app, Hgets, gets_failed_attempts, Hwg. cbn. lia. }
  split; [|split; [done|split; [done|split; [lia|split; [done|split]]]]].
  - rewrite Hrun, run_bind.
    rewrite (attempt_downloads E url headers timeout chunk_size retries
               full_path k _ r); try done.
    + rewrite run_ret, saved_log_to. cbn [app]. by rewrite <- !app_assoc.
    + by rewrite Hcount.
    + by apply raise_for_status_2xx.
  - rewrite Hsl. apply sum_backoff.
  - exists (MakeDirs save_dir :: t ++ [Log INFO (MsgAttempt (0 + 1) url)])%list.
    destruct k as [|k].
    + eexists. split.
      * cbn [failed_attempts seq flat_map app attempt_start Z.of_nat].
        rewrite <- app_assoc. reflexivity.
      * by rewrite gets_cons, gets_app, Hgets, sleeps_cons, sleeps_app,
          Hsleeps.
    + eexists. split.
      * unfold failed_attempts.
        cbn [seq flat_map app failed_attempt Z.of_nat].
        rewrite <- (app_assoc t). cbn [app]. reflexivity.
      * by rewrite gets_cons, gets_app, Hgets, sleeps_cons, sleeps_app,
          Hsleeps.
Qed.

(** A write that the filesystem refuses, given what the file holds by
    then, stops the chunk loop with the exception of the filesystem; the
    chunks that were accepted before stay in the file. *)
Lemma write_chunks_refused E full_path chunk post e (pre : list string) :
  forall w t written,
    (forall pre1 c pre2, pre = (pre1 ++ c :: pre2)%list ->
       PyStr.truthy c = true ->
       file_write E full_path (written ++ body_of pre1) c = Ok tt) ->
    PyStr.truthy chunk = true ->
    file_write E full_path (written ++ body_of pre) chunk = Raise e ->
    write_chunks E full_path (pre ++ chunk :: post)
      (saved w t full_path written)
    = (Raise e,
       saved w (t ++ writes_of full_path pre ++ [FileWrite full_path chunk])
         full_path (written ++ body_of pre)).
Proof.
  induction pre as [|c pre IH]; intros w t written Hpre Htruthy Hfail.
  - cbn [app write_chunks]. rewrite run_bind, Htruthy, write_run.
    unfold body_of in *. cbn [fold_right] in *.
    rewrite string_app_nil_r in *. by rewrite Hfail.
  - cbn [app write_chunks]. rewrite run_bind. destruct c as [|a c].
    + cbn [PyStr.truthy]. rewrite run_ret, IH; [done| |done|done].
      intros pre1 c pre2 -> Hc. by apply (Hpre ("" :: pre1) c pre2).
    + cbn [PyStr.truthy]. rewrite write_run.
      pose proof (Hpre [] (String a c) pre eq_refl eq_refl) as Hfirst.
      unfold body_of in Hfirst. cbn [fold_right] in Hfirst.
      rewrite string_app_nil_r in Hfirst. rewrite Hfirst.
      rewrite (IH w _ (written ++ String a c)).
      * unfold writes_of, body_of.
        cbn [List.filter PyStr.truthy List.map fold_right].
        by rewrite <- !app_assoc, string_app_assoc.
      * intros pre1 c' pre2 -> Hc. rewrite <- string_app_assoc.
        by apply (Hpre (String a c :: pre1) c' pre2).
      * done.
      * rewrite <- string_app_assoc. exact Hfail.
Qed.

(** An attempt one of whose writes is refused, given what the file holds
    by then, raises the exception of the filesystem. *)
Lemma attempt_write_refused E url headers timeout chunk_size retries full_path
    (i : nat) w r pre chunk post msg :
  http_get E (gets (trace w)) url = Ok r ->
  raise_for_status r = Ok tt ->
  PyStr.startswith (header_content_type r) "image/" = true ->
  file_open E full_path = Ok tt ->
  iter_content r chunk_size = (pre ++ chunk :: post)%list ->
  (forall pre1 c pre2, pre = (pre1 ++ c :: pre2)%list ->
     PyStr.truthy c = true ->
     file_write E full_path (body_of pre1) c = Ok tt) ->
  PyStr.truthy chunk = true ->
  file_write E full_path (body_of pre) chunk = Raise (OSError msg) ->
  download_attempt E url headers timeout chunk_size retries full_path
    (Z.of_nat i) w
  = (Raise (OSError msg),
     saved w (attempt_start url headers timeout i
              ++ [FileOpen full_path]
              ++ writes_of full_path pre ++ [FileWrite full_path chunk])
       full_path (body_of pre)).
Proof.
  intros Hget Hstatus Htype Hopen Hchunks Hpre Htruthy Hfail.
  rewrite attempt_unfold. unfold try_except.
  rewrite run_bind, attempt_get_run, Hget, run_bind, Hstatus. unfold lift.
  cbn zeta. rewrite Htype. cbn [negb].
  rewrite run_bind, open_wb_run, Hopen, saved_log_to, run_bind, Hchunks.
  rewrite (write_chunks_refused E full_path chunk post (OSError msg) pre)
    by done.
  cbn [is_RequestException]. by rewrite <- !app_assoc.
Qed.

(** C5: in every call of [download_image], whatever happened to the
    attempts before it (a GET that raised, a 4xx or 5xx status, a broken
    stream), an attempt whose GET is answered with a 2xx response whose
    content type does not begin with [image/] is the last one: the call
    returns [None], this GET is the last request of the call, what
    follows it in the trace is the error record only, so there is no
    further attempt and no further sleep, and the attempts that are left
    are not made. *)
Theorem download_image_not_image (L : pylib) (E : env) (url : string)
    (headers : gmap string string) (save_dir : string)
    (timeout chunk_size retries : Z) (custom_filename : option string)
    (w w' : world) (r : result (option string)) (t : list event) (j : nat)
    (response : response) :
  download_image L E url headers save_dir timeout chunk_size retries
    custom_filename w = (r, w') ->
  trace w' = (trace w ++ t)%list ->
  (j < gets t)%nat ->
  http_get E (gets (trace w) + j) url = Ok response ->
  200 <= status_code response < 300 ->
  PyStr.startswith (header_content_type response) "image/" = false ->
  r = Ok None
  /\ gets t = S j
  /\ Z.of_nat (gets t) <= retries + 1
  /\ sleeps t = backoff j
  /\ exists before,
       t = (before ++ attempt_start url headers timeout j
            ++ [Log ERROR (MsgNotImage url)])%list
       /\ gets before = j
       /\ sleeps before = backoff j.
Proof.
  intros Hrun Htrace Hj Hget Hstatus Htype.
  destruct (download_image_reaches L E url headers save_dir timeout
              chunk_size retries custom_filename w r w' t j Hrun Htrace Hj)
    as (full_path & t0 & before & wj & t' & Hpath & Hprobe & Hg0 & Hs0
        & [Htb _] & Hgb & Hsb & Hjr & Hgj & Ht & Ht' & Hgo).
  rewrite run_bind in Hgo.
  rewrite (attempt_not_image E url headers timeout chunk_size retries
             full_path j wj response) in Hgo;
    [|by rewrite Hgj|by apply raise_for_status_2xx|done].
  rewrite run_ret in Hgo. injection Hgo as <- <-.
  cbn [trace log_to] in Ht'. apply app_inv_head in Ht' as <-.
  assert (gets (MakeDirs save_dir :: t0) = 0%nat) as Hg0'
    by (by rewrite gets_cons, Hg0).
  assert (sleeps (MakeDirs save_dir :: t0) = []) as Hs0'
    by (by rewrite sleeps_cons, Hs0).
  assert (gets t = S j) as Hgt.
  { rewrite Ht. change (MakeDirs save_dir :: t0 ++ ?x)%list
      with ((MakeDirs save_dir :: t0) ++ x)%list.
    rewrite !gets_app, Hg0', Hgb. cbn. lia. }
  split; [done|]. split; [done|]. split; [lia|]. split.
  { rewrite Ht. change (MakeDirs save_dir :: t0 ++ ?x)%list
      with ((MakeDirs save_dir :: t0) ++ x)%list.
    rewrite !sleeps_app, Hs0', Hsb. cbn. by rewrite app_nil_r. }
  exists ((MakeDirs save_dir :: t0) ++ before)%list.
  split; [by rewrite Ht, <- app_assoc|].
  by rewrite gets_app, sleeps_app, Hg0', Hs0', Hgb, Hsb.
Qed.

(** C10: in every call of [download_image], whatever happened to the
    attempts before it, an attempt that has received a valid image
    response and in which the filesystem refuses to open the destination
    file, or refuses one of the writes given what the file holds by then
    (a full disk, for instance), ends the call with the [OSError] of the
    filesystem: the refused operation is the last event of the call, the
    GET of this attempt is the last request, so the failure is not
    retried, and the result is an exception, not [None].  After a
    refused write, the file holds the chunks that were accepted. *)
Theorem download_image_filesystem_error (L : pylib) (E : env) (url : string)
    (headers : gmap string string) (save_dir : string)
    (timeout chunk_size retries : Z) (custom_filename : option string)
    (w w' : world) (r : result (option string)) (t : list event) (j : nat)
    (response : response) (full_path msg : string) :
  download_image L E url headers save_dir timeout chunk_size retries
    custom_filename w = (r, w') ->
  trace w' = (trace w ++ t)%list ->
  (j < gets t)%nat ->
  http_get E (gets (trace w) + j) url = Ok response ->
  200 <= status_code response < 300 ->
  PyStr.startswith (header_content_type response) "image/" = true ->
  (download_path L E url headers save_dir custom_filename w).1
  = Ok full_path ->
  file_open E full_path = Raise (OSError msg)
  \/ (file_open E full_path = Ok tt
      /\ exists pre chunk post,
           iter_content response chunk_size = (pre ++ chunk :: post)%list
           /\ (forall pre1 c pre2, pre = (pre1 ++ c :: pre2)%list ->
                 PyStr.truthy c = true ->
                 file_write E full_path (body_of pre1) c = Ok tt)
           /\ PyStr.truthy chunk = true
           /\ file_write E full_path (body_of pre) chunk
              = Raise (OSError msg)) ->
  r = Raise (OSError msg)
  /\ gets t = S j
  /\ sleeps t = backoff j
  /\ exists before ops,
       t = (before ++ attempt_start url headers timeout j
            ++ FileOpen full_path :: ops)%list
       /\ gets before = j
       /\ (file_open E full_path = Raise (OSError msg) /\ ops = []
           \/ exists pre chunk post,
                iter_content response chunk_size = (pre ++ chunk :: post)%list
                /\ file_write E full_path (body_of pre) chunk
                   = Raise (OSError msg)
                /\ ops = (writes_of full_path pre
                          ++ [FileWrite full_path chunk])%list
                /\ files w' !! full_path = Some (body_of pre)).
Proof.
  intros Hrun Htrace Hj Hget Hstatus Htype Hdest Hrefused.
  destruct (download_image_reaches L E url headers save_dir timeout
              chunk_size retries custom_filename w r w' t j Hrun Htrace Hj)
    as (full_path' & t0 & before & wj & t' & Hpath & Hprobe & Hg0 & Hs0
        & [Htb _] & Hgb & Hsb & Hjr & Hgj & Ht & Ht' & Hgo).
  rewrite Hpath in Hdest. cbn [fst] in Hdest. injection Hdest as ->.
  rewrite run_bind in Hgo.
  assert (gets (MakeDirs save_dir :: t0) = 0%nat) as Hg0'
    by (by rewrite gets_cons, Hg0).
  assert (sleeps (MakeDirs save_dir :: t0) = []) as Hs0'
    by (by rewrite sleeps_cons, Hs0).
  assert (forall ops,
            gets ops = 0%nat -> sleeps ops = [] ->
            t' = (attempt_start url headers timeout j
                  ++ FileOpen full_path :: ops)%list ->
            gets t = S j /\ sleeps t = backoff j
            /\ t = (((MakeDirs save_dir :: t0) ++ before)
                    ++ attempt_start url headers timeout j
                    ++ FileOpen full_path :: ops)%list
            /\ gets ((MakeDirs save_dir :: t0) ++ before) = j) as Hshape.
  { intros ops Hgo' Hso' ->. rewrite Ht.
    change (MakeDirs save_dir :: t0 ++ ?x)%list
      with ((MakeDirs save_dir :: t0) ++ x)%list.
    rewrite !gets_app, !sleeps_app, Hg0', Hs0', Hgb, Hsb.
    rewrite gets_cons, sleeps_cons, Hgo', Hso'. cbn.
    rewrite app_nil_r, <- app_assoc. repeat split; lia || done. }
  destruct Hrefused
    as [Hopen|(Hopen & pre & chunk & post & Hchunks & Hpre & Htruthy & Hfail)].
  - rewrite (attempt_open_fails E url headers timeout chunk_size retries
               full_path j wj response msg) in Hgo;
      [|by rewrite Hgj|by apply raise_for_status_2xx|done|done].
    injection Hgo as <- <-.
    cbn [trace log_to] in Ht'. apply app_inv_head in Ht'.
    destruct (Hshape [] eq_refl eq_refl (eq_sym Ht'))
      as (Hgt & Hst & Hdec & Hgbefore).
    split; [done|]. split; [done|]. split; [done|].
    exists ((MakeDirs save_dir :: t0) ++ before)%list, [].
    split; [done|]. split; [done|]. by left.
  - rewrite (attempt_write_refused E url headers timeout chunk_size retries
               full_path j wj response pre chunk post msg) in Hgo;
      [|by rewrite Hgj|by apply raise_for_status_2xx|done..].
    injection Hgo as <- <-.
    cbn [trace saved] in Ht'. apply app_inv_head in Ht'.
    destruct (writes_quiet full_path pre) as [Hwg Hws].
    destruct (Hshape (writes_of full_path pre ++ [FileWrite full_path chunk])%list)
      as (Hgt & Hst & Hdec & Hgbefore).
    { by rewrite gets_app, Hwg. }
    { by rewrite sleeps_app, Hws. }
    { by rewrite <- Ht'. }
    split; [done|]. split; [done|]. split; [done|].
    exists ((MakeDirs save_dir :: t0) ++ before)%list,
      (writes_of full_path pre ++ [FileWrite full_path chunk])%list.
    split; [done|]. split; [done|]. right. exists pre, chunk, post.
    split; [done|]. split; [done|]. split; [done|].
    cbn [files saved]. by rewrite lookup_insert_eq.
Qed.

(** C4: a path returned by [download_image] is the save directory joined
    with a base name followed by an extension of the allow-list, whatever
    the URL, the custom file name and the answer to the HEAD probe are;
    this extension starts at the last dot of the path; it is the detected
    extension when the allow-list has it and [.jpg] otherwise. *)
Theorem download_image_extension (L : pylib) (E : env) (url : string)
    (headers : gmap string string) (save_dir : string)
    (timeout chunk_size retries : Z) (custom_filename : option string)
    (w w' : world) (saved_path : string) :
  download_image L E url headers save_dir timeout chunk_size retries
    custom_filename w = (Ok (Some saved_path), w') ->
  exists raw w0 detected stem,
    derive_filename L E url custom_filename (log_to w [MakeDirs save_dir])
    = (Ok raw, w0)
    /\ (determine_ext E url headers (clean_filename raw) w0).1 = Ok detected
    /\ saved_path = PosixPath.join save_dir
                      ((PosixPath.splitext (clean_filename raw)).1
                       ++ force_valid_ext detected)
    /\ saved_path = stem ++ force_valid_ext detected
    /\ PyStr.rfind "." saved_path = Some (String.length stem)
    /\ force_valid_ext detected ∈ allowed_extensions
    /\ (detected ∈ allowed_extensions -> force_valid_ext detected = detected)
    /\ (detected ∉ allowed_extensions -> force_valid_ext detected = ".jpg").
Proof.
  unfold download_image.
  destruct (negb (PyStr.startswith url "http://"
                  || PyStr.startswith url "https://")).
  { unfold logging, throw. by run_steps. }
  rewrite run_bind.
  destruct (download_path_run L E url headers save_dir custom_filename w)
    as (r & t & -> & _ & _ & _ & _ & Hshape).
  destruct r as [full_path|e]; [|done].
  intros Hloop%download_loop_returns. subst saved_path.
  destruct (Hshape full_path eq_refl)
    as (raw & w0 & detected & Hraw & Hdetected & Hpath).
  destruct (force_valid_ext_allowed detected) as (Hin & Hother & Hsame).
  destruct (posix_join_suffix save_dir
              ((PosixPath.splitext (clean_filename raw)).1
               ++ force_valid_ext detected))
    as [stem Hstem].
  assert (full_path
          = (stem ++ (PosixPath.splitext (clean_filename raw)).1)
            ++ force_valid_ext detected) as Hsplit
    by (by rewrite Hpath, Hstem, string_app_assoc).
  exists raw, w0, detected,
    (stem ++ (PosixPath.splitext (clean_filename raw)).1).
  repeat split; try done.
  rewrite Hsplit at 1. by apply rfind_allowed_ext.
Qed.

(** ** The theorems at concrete inputs *)

Lemma download_image_invalid_url_witness :
  download_image cpython
    (env_with (flaky 0 png_response) (Ok png_response) (Ok tt) (Ok tt))
    "ftp://example.com/img.jpg" DEFAULT_HEADERS "downloads" 30 1024 2 None
    empty_world
  = (Raise (ValueError "URL must start with http:// or https://"),
     log_to empty_world
       [Log ERROR (MsgInvalidProtocol "ftp://example.com/img.jpg")]).
Proof.
  apply (download_image_invalid_url cpython
           (env_with (flaky 0 png_response) (Ok png_response) (Ok tt) (Ok tt))
           "ftp://example.com/img.jpg" DEFAULT_HEADERS "downloads" 30 1024 2
           None empty_world); reflexivity.
Defined.

Lemma download_image_negative_retries_witness :
  exists full_path t,
    download_path cpython
      (env_with (flaky 0 png_response) (Ok png_response) (Ok tt) (Ok tt))
      "https://example.com/photo" DEFAULT_HEADERS "downloads" None empty_world
    = (Ok full_path, log_to empty_world (MakeDirs "downloads" :: t))
    /\ download_image cpython
         (env_with (flaky 0 png_response) (Ok png_response) (Ok tt) (Ok tt))
         "https://example.com/photo" DEFAULT_HEADERS "downloads" 30 1024 (-1)
         None empty_world
       = (Ok None, log_to empty_world (MakeDirs "downloads" :: t))
    /\ forallb is_probe t = true
    /\ gets (MakeDirs "downloads" :: t) = 0%nat
    /\ sleeps (MakeDirs "downloads" :: t) = [].
Proof.
  apply (download_image_negative_retries cpython
           (env_with (flaky 0 png_response) (Ok png_response) (Ok tt) (Ok tt))
           "https://example.com/photo" DEFAULT_HEADERS "downloads" 30 1024
           (-1) None empty_world).
  - lia.
  - reflexivity.
  - reflexivity.
  - right. eexists. vm_compute. reflexivity.
Defined.

Lemma download_image_backoff_witness :
  exists full_path t,
    let T := (MakeDirs "downloads" :: t
              ++ failed_attempts "https://example.com/img.jpg?x=1"
                   DEFAULT_HEADERS 30 connection_errors 0 2
              ++ attempt_start "https://example.com/img.jpg?x=1"
                   DEFAULT_HEADERS 30 2
              ++ [FileOpen full_path]
              ++ writes_of full_path (iter_content png_response 1024)
              ++ [Log INFO (MsgDownloaded full_path)])%list in
    download_image cpython
      (env_with (flaky 2 png_response) (Ok png_response) (Ok tt) (Ok tt))
      "https://example.com/img.jpg?x=1" DEFAULT_HEADERS "downloads" 30 1024 2
      None empty_world
    = (Ok (Some full_path),
       saved empty_world T full_path (body_of (iter_content png_response 1024)))
    /\ forallb is_probe t = true
    /\ gets T = 3%nat
    /\ Z.of_nat (gets T) <= 2 + 1
    /\ sleeps T = List.map (fun i => 2 ^ Z.of_nat i) (seq 0 2)
    /\ fold_right Z.add 0 (sleeps T) = 2 ^ Z.of_nat 2 - 1
    /\ (exists before after,
          T = (before
               ++ HttpGet "https://example.com/img.jpg?x=1" DEFAULT_HEADERS
                    30 true :: after)%list
          /\ gets before = 0%nat /\ sleeps before = []).
Proof.
  apply (download_image_backoff cpython
           (env_with (flaky 2 png_response) (Ok png_response) (Ok tt) (Ok tt))
           "https://example.com/img.jpg?x=1" DEFAULT_HEADERS "downloads" 30
           1024 2 None empty_world 2 connection_errors png_response).
  - lia.
  - cbn; lia.
  - reflexivity.
  - reflexivity.
  - right. eexists. vm_compute. reflexivity.
  - intros [|[|i]] Hi; [split; reflexivity..|lia].
  - reflexivity.
  - repeat split; [cbn; lia..|].
    reflexivity.
  - reflexivity.
  - reflexivity.
Defined.

Lemma download_image_not_image_witness :
  let E := env_with (unavailable_then html_response) (Ok html_response)
             (Ok tt) (Ok tt) in
  let run :=
    download_image cpython E "https://example.com/page.jpg" DEFAULT_HEADERS
      "downloads" 30 1024 2 None empty_world in
  run.1 = Ok None
  /\ gets (trace run.2) = 2%nat
  /\ Z.of_nat (gets (trace run.2)) <= 2 + 1
  /\ sleeps (trace run.2) = backoff 1
  /\ exists before,
       trace run.2
       = (before
          ++ attempt_start "https://example.com/page.jpg" DEFAULT_HEADERS 30 1
          ++ [Log ERROR (MsgNotImage "https://example.com/page.jpg")])%list
       /\ gets before = 1%nat
       /\ sleeps before = backoff 1.
Proof.
  intros E run.
  apply (download_image_not_image cpython E "https://example.com/page.jpg"
           DEFAULT_HEADERS "downloads" 30 1024 2 None empty_world run.2
           run.1 (trace run.2) 1 html_response).
  - vm_compute. reflexivity.
  - reflexivity.
  - vm_compute. lia.
  - reflexivity.
  - cbn. lia.
  - reflexivity.
Defined.

Lemma download_image_filesystem_error_witness :
  let url := "https://example.com/img.jpg" in
  let E1 := env_with (unavailable_then png_response) (Ok png_response)
              (Raise (OSError "Permission denied")) (Ok tt) in
  let run1 :=
    download_image cpython E1 url DEFAULT_HEADERS "downloads" 30 1024 2 None
      empty_world in
  let E2 := disk_full_env 5 (unavailable_then png_response) in
  let run2 :=
    download_image cpython E2 url DEFAULT_HEADERS "downloads" 30 1024 2 None
      empty_world in
  (run1.1 = Raise (OSError "Permission denied")
   /\ gets (trace run1.2) = 2%nat
   /\ sleeps (trace run1.2) = backoff 1
   /\ exists before ops,
        trace run1.2
        = (before ++ attempt_start url DEFAULT_HEADERS 30 1
           ++ FileOpen "downloads/img.jpg" :: ops)%list
        /\ gets before = 1%nat
        /\ (file_open E1 "downloads/img.jpg"
            = Raise (OSError "Permission denied") /\ ops = []
            \/ exists pre chunk post,
                 iter_content png_response 1024 = (pre ++ chunk :: post)%list
                 /\ file_write E1 "downloads/img.jpg" (body_of pre) chunk
                    = Raise (OSError "Permission denied")
                 /\ ops = (writes_of "downloads/img.jpg" pre
                           ++ [FileWrite "downloads/img.jpg" chunk])%list
                 /\ files run1.2 !! "downloads/img.jpg"
                    = Some (body_of pre)))
  /\ (run2.1 = Raise (OSError "No space left on device")
      /\ gets (trace run2.2) = 2%nat
      /\ sleeps (trace run2.2) = backoff 1
      /\ exists before ops,
           trace run2.2
           = (before ++ attempt_start url DEFAULT_HEADERS 30 1
              ++ FileOpen "downloads/img.jpg" :: ops)%list
           /\ gets before = 1%nat
           /\ (file_open E2 "downloads/img.jpg"
               = Raise (OSError "No space left on device") /\ ops = []
               \/ exists pre chunk post,
                    iter_content png_response 1024
                    = (pre ++ chunk :: post)%list
                    /\ file_write E2 "downloads/img.jpg" (body_of pre) chunk
                       = Raise (OSError "No space left on device")
                    /\ ops = (writes_of "downloads/img.jpg" pre
                              ++ [FileWrite "downloads/img.jpg" chunk])%list
                    /\ files run2.2 !! "downloads/img.jpg"
                       = Some (body_of pre))).
Proof.
  intros url E1 run1 E2 run2. split.
  - apply (download_image_filesystem_error cpython E1 url DEFAULT_HEADERS
             "downloads" 30 1024 2 None empty_world run1.2
             run1.1 (trace run1.2) 1
             png_response "downloads/img.jpg" "Permission denied").
    + vm_compute. reflexivity.
    + reflexivity.
    + vm_compute. lia.
    + reflexivity.
    + cbn. lia.
    + reflexivity.
    + vm_compute. reflexivity.
    + left. reflexivity.
  - apply (download_image_filesystem_error cpython E2 url DEFAULT_HEADERS
             "downloads" 30 1024 2 None empty_world run2.2
             run2.1 (trace run2.2) 1
             png_response "downloads/img.jpg" "No space left on device").
    + vm_compute. reflexivity.
    + reflexivity.
    + vm_compute. lia.
    + reflexivity.
    + cbn. lia.
    + reflexivity.
    + vm_compute. reflexivity.
    + right. split; [reflexivity|].
      exists ["PNG"; ""], "data", []. split; [reflexivity|]. split.
      * intros [|c1 [|c2 [|c3 pre1]]] c pre2 Hpre Hc;
          cbn [app] in Hpre; simplify_eq; (reflexivity || discriminate Hc).
      * split; reflexivity.
Defined.

Lemma download_image_extension_witness :
  exists raw w0 detected stem,
    derive_filename cpython
      (env_with (flaky 0 png_response) (Ok png_response) (Ok tt) (Ok tt))
      "https://example.com/download" (Some "vacation")
      (log_to empty_world [MakeDirs "downloads"])
    = (Ok raw, w0)
    /\ (determine_ext
          (env_with (flaky 0 png_response) (Ok png_response) (Ok tt) (Ok tt))
          "https://example.com/download" DEFAULT_HEADERS (clean_filename raw)
          w0).1 = Ok detected
    /\ "downloads/vacation.png"
       = PosixPath.join "downloads"
           ((PosixPath.splitext (clean_filename raw)).1
            ++ force_valid_ext detected)
    /\ "downloads/vacation.png" = stem ++ force_valid_ext detected
    /\ PyStr.rfind "." "downloads/vacation.png" = Some (String.length stem)
    /\ force_valid_ext detected ∈ allowed_extensions
    /\ (detected ∈ allowed_extensions -> force_valid_ext detected = detected)
    /\ (detected ∉ allowed_extensions -> force_valid_ext detected = ".jpg").
Proof.
  apply (download_image_extension cpython
           (env_with (flaky 0 png_response) (Ok png_response) (Ok tt) (Ok tt))
           "https://example.com/download" DEFAULT_HEADERS "downloads" 30 1024
           2 (Some "vacation") empty_world
           (download_image cpython
              (env_with (flaky 0 png_response) (Ok png_response) (Ok tt)
                 (Ok tt))
              "https://example.com/download" DEFAULT_HEADERS "downloads" 30
              1024 2 (Some "vacation") empty_world).2
           "downloads/vacation.png").
  vm_compute. reflexivity.
Defined.


(** ** Scenarios of the specification, evaluated *)

(** [https://example.com/img.jpg?x=1] without a custom file name is saved
    as [downloads/img.jpg]. *)
Example download_image_url_name :
  (download_image cpython
     (env_with (flaky 0 png_response) (Ok png_response) (Ok tt) (Ok tt))
     "https://example.com/img.jpg?x=1" DEFAULT_HEADERS "downloads" 30 1024 2
     None empty_world).1
  = Ok (Some "downloads/img.jpg").
Proof. vm_compute. reflexivity. Qed.

(** The custom file name [vacation], a URL without extension and a HEAD
    response of type [image/png] give [downloads/vacation.png]. *)
Example download_image_custom_name :
  (download_image cpython
     (env_with (flaky 0 png_response) (Ok png_response) (Ok tt) (Ok tt))
     "https://example.com/download" DEFAULT_HEADERS "downloads" 30 1024 2
     (Some "vacation") empty_world).1
  = Ok (Some "downloads/vacation.png").
Proof. vm_compute. reflexivity. Qed.

(** Two connection errors and then the image: three GET requests, sleeps
    of 1 and 2 seconds, and the non-empty chunks on disk. *)
Example download_image_two_retries :
  let run :=
    download_image cpython
      (env_with (flaky 2 png_response) (Ok png_response) (Ok tt) (Ok tt))
      "https://example.com/img.jpg" DEFAULT_HEADERS "downloads" 30 1024 2
      None empty_world in
  run.1 = Ok (Some "downloads/img.jpg")
  /\ gets (trace run.2) = 3%nat
  /\ sleeps (trace run.2) = [1; 2]
  /\ files run.2 !! "downloads/img.jpg" = Some "PNGdata".
Proof. vm_compute. repeat split; reflexivity. Qed.

(** Three connection errors exhaust the budget of two retries: [None],
    three GET requests, and no sleep after the last attempt. *)
Example download_image_exhausted :
  let run :=
    download_image cpython
      (env_with (flaky 3 png_response) (Ok png_response) (Ok tt) (Ok tt))
      "https://example.com/img.jpg" DEFAULT_HEADERS "downloads" 30 1024 2
      None empty_world in
  run.1 = Ok None
  /\ gets (trace run.2) = 3%nat
  /\ sleeps (trace run.2) = [1; 2].
Proof. vm_compute. repeat split; reflexivity. Qed.

(** An image element without source is emitted with a null url; sources
    are tried in the order [src], [data-src], [data-lazy-src]. *)
Example extract_images_urls_sources :
  (extract_images_urls cpython "https://x.com/a/b"
     {| contents :=
          [Tag "div" ∅
             [img {[ "alt" := " logo " ]};
              Text "caption";
              img {[ "src" := ""; "data-src" := "/i/1.png" ]}];
           img {[ "data-lazy-src" := "https://cdn.x.com/2.png" ]}] |}
     empty_world).1
  = Ok [{| position := 1; url := None; alt := "logo";
           page_url := "https://x.com/a/b" |};
        {| position := 2; url := Some "https://x.com/i/1.png"; alt := "";
           page_url := "https://x.com/a/b" |};
        {| position := 3; url := Some "https://cdn.x.com/2.png"; alt := "";
           page_url := "https://x.com/a/b" |}].
Proof. vm_compute. reflexivity. Qed.

(** * Further properties *)

(** ** [download_image] in every world *)

(** X1: whatever the library, the transport, the clock and the filesystem
    do, and however the call ends, [download_image] sends at most
    [retries + 1] GET requests and sleeps exactly once between two
    consecutive GET requests, never before the first request nor after
    the last one: the sleep number [k] (from 0) of the trace has exactly
    [k + 1] GET requests before it and lasts [2^k] seconds, and there is
    one sleep less than GET requests. *)
Theorem download_image_request_budget (L : pylib) (E : env) (url : string)
    (headers : gmap string string) (save_dir : string)
    (timeout chunk_size retries : Z) (custom_filename : option string)
    (w : world) :
  exists r w' t,
    download_image L E url headers save_dir timeout chunk_size retries
      custom_filename w = (r, w')
    /\ trace w' = (trace w ++ t)%list
    /\ (gets t <= Z.to_nat (retries + 1))%nat
    /\ sleeps_at 0 t
       = List.map (fun k => (S k, 2 ^ Z.of_nat k)) (seq 0 (gets t - 1))
    /\ sleeps t = backoff (gets t - 1).
Proof.
  destruct (download_image_footprint L E url headers save_dir timeout
              chunk_size retries custom_filename w)
    as (t & r & w' & p & Hrun & [Htrace _] & _ & Hgets & Hsleeps & Hat & _).
  by exists r, w', t.
Qed.

(** X2: apart from the file [scraper.log], to which the logging handler
    appends the log records, [download_image] creates or modifies at
    most one file, the destination, which is never [scraper.log]; when
    the call returns a path, the destination is the returned path.
    Every file other than these two is as it was before the call,
    however the call ends. *)
Theorem download_image_writes_destination_only (L : pylib) (E : env)
    (url : string) (headers : gmap string string) (save_dir : string)
    (timeout chunk_size retries : Z) (custom_filename : option string)
    (w : world) :
  exists r w' p,
    download_image L E url headers save_dir timeout chunk_size retries
      custom_filename w = (r, w')
    /\ p <> scraper_log
    /\ (forall q, q <> p -> q <> scraper_log ->
          files w' !! q = files w !! q)
    /\ (forall v, r = Ok (Some v) -> v = p).
Proof.
  destruct (download_image_footprint L E url headers save_dir timeout
              chunk_size retries custom_filename w)
    as (t & r & w' & p & Hrun & [_ Hfiles] & Hp & _ & _ & _ & Hr).
  exists r, w', p. split; [done|]. split; [done|].
  split; [by intros q Hq _; apply Hfiles|].
  intros v ->. by destruct Hr as [-> _].
Qed.

(** X3: when [download_image] returns a path, the last GET request it
    sent was answered by a response whose status is not a 4xx or 5xx one,
    whose content type begins with [image/] and whose body streamed
    without error, and the file at the returned path holds exactly the
    body of that response: what earlier attempts or an earlier file left
    there is gone. *)
Theorem download_image_saves_accepted_body (L : pylib) (E : env)
    (url : string) (headers : gmap string string) (save_dir : string)
    (timeout chunk_size retries : Z) (custom_filename : option string)
    (w w' : world) (saved_path : string) :
  download_image L E url headers save_dir timeout chunk_size retries
    custom_filename w = (Ok (Some saved_path), w') ->
  exists t response,
    trace w' = (trace w ++ t)%list
    /\ gets t <> 0%nat
    /\ http_get E (gets (trace w) + (gets t - 1)) url = Ok response
    /\ ~ (400 <= status_code response < 600)
    /\ PyStr.startswith (header_content_type response) "image/" = true
    /\ stream_error response = None
    /\ files w' !! saved_path
       = Some (body_of (iter_content response chunk_size)).
Proof.
  intros Hrun.
  destruct (download_image_footprint L E url headers save_dir timeout
              chunk_size retries custom_filename w)
    as (t & r & w'' & p & Hrun' & [Htrace _] & _ & _ & _ & _ & Hr).
  rewrite Hrun in Hrun'. injection Hrun' as <- <-.
  destruct Hr as (-> & Hpos & response & Hget & Hstatus & Htype & Hstream
                  & Hfile).
  exists t, response. by rewrite <- raise_for_status_ok.
Qed.

(** X4: no request exception escapes [download_image]: when the
    directory creation raises none, whatever the call raises is not a
    [requests] exception (those are caught by the retry loop). *)
Theorem download_image_raises_no_request_exception (L : pylib) (E : env)
    (url : string) (headers : gmap string string) (save_dir : string)
    (timeout chunk_size retries : Z) (custom_filename : option string)
    (w w' : world) (e : exn) :
  (forall e', os_makedirs E save_dir = Raise e' ->
     is_RequestException e' = false) ->
  download_image L E url headers save_dir timeout chunk_size retries
    custom_filename w = (Raise e, w') ->
  is_RequestException e = false.
Proof.
  intros Hdir Hrun.
  destruct (download_image_footprint L E url headers save_dir timeout
              chunk_size retries custom_filename w)
    as (t & r & w'' & p & Hrun' & _ & _ & _ & _ & _ & Hr).
  rewrite Hrun in Hrun'. injection Hrun' as <- <-.
  destruct (is_RequestException e) eqn:Hreq; [|done].
  rewrite <- Hreq. apply Hdir. by apply Hr.
Qed.

(** ** Attempts that fail *)

Section FailingAttempts.

Variable E : env.
Variables (url : string) (headers : gmap string string).
Variables (timeout chunk_size retries : Z) (full_path : string).

(** An attempt whose GET raises a request exception or is answered with
    a 4xx or 5xx status opens no file; it is followed by the backoff
    sleep and another attempt, unless it is the last one. *)
Lemma attempt_fails (i : nat) w e :
  get_fails (http_get E (gets (trace w)) url) e ->
  download_attempt E url headers timeout chunk_size retries full_path
    (Z.of_nat i) w
  = if Z.of_nat i =? retries
    then (Ok (Return None),
          log_to w (attempt_start url headers timeout i
                    ++ [Log WARNING (MsgAttemptFailed (Z.of_nat i + 1) e);
                        Log ERROR (MsgAllFailed url)]))
    else (Ok Next, log_to w (failed_attempt url headers timeout (fun _ => e) i)).
Proof.
  intros Hfail. rewrite attempt_unfold. unfold try_except.
  rewrite run_bind, attempt_get_run.
  assert (is_RequestException e = true) as Hreq.
  { destruct Hfail as [[_ Hreq]|(r & _ & _ & ->)]; done. }
  assert (match http_get E (gets (trace w)) url with
          | Ok response =>
              raise_for_status response = Raise e
          | Raise e' => e' = e
          end) as Hraise.
  { destruct Hfail as [[-> _]|(r & -> & Hstatus & ->)]; [done|].
    unfold raise_for_status.
    destruct (Z.leb_spec 400 (status_code r)); [|lia].
    destruct (Z.ltb_spec (status_code r) 500); cbn [andb]; [done|].
    destruct (Z.leb_spec 500 (status_code r)); [|lia].
    destruct (Z.ltb_spec (status_code r) 600); cbn [andb]; [done|lia]. }
  destruct (http_get E (gets (trace w)) url) as [response|e'].
  - rewrite run_bind. unfold lift. rewrite Hraise, Hreq.
    unfold logging, sleep.
    destruct (Z.of_nat i =? retries); by run_steps.
  - subst e'. rewrite Hreq. unfold logging, sleep.
    destruct (Z.of_nat i =? retries); by run_steps.
Qed.

Lemma download_loop_get_fails (fail : nat -> exn) (k : nat) :
  forall (first : nat) (rest : list Z) (w : world),
    (forall i, (i < k)%nat ->
       get_fails (http_get E (gets (trace w) + i) url) (fail (first + i)%nat)) ->
    Z.of_nat (first + k) <= retries ->
    download_loop E url headers timeout chunk_size retries full_path
      (List.map Z.of_nat (seq first k) ++ rest) w
    = download_loop E url headers timeout chunk_size retries full_path rest
        (log_to w (failed_attempts url headers timeout fail first k)).
Proof.
  induction k as [|k IH]; intros first rest w Hfail Hlast.
  - cbn. by rewrite log_to_nil.
  - cbn [seq List.map app download_loop]. rewrite run_bind.
    specialize (Hfail 0%nat) as Hget. rewrite !Nat.add_0_r in Hget.
    rewrite (attempt_fails first w (fail first)) by (apply Hget; lia).
    destruct (Z.eqb_spec (Z.of_nat first) retries) as [Heq|_]; [lia|].
    rewrite IH.
    + rewrite log_to_app. reflexivity.
    + intros i Hi. rewrite gets_log_to.
      cbn [failed_attempt gets List.filter is_get length].
      replace (gets (trace w) + 1 + i)%nat with (gets (trace w) + S i)%nat
        by lia.
      replace (S first + i)%nat with (first + S i)%nat by lia.
      apply Hfail. lia.
    + lia.
Qed.

End FailingAttempts.

(** X5: a 4xx or 5xx status is retried like a transport failure.  When
    each of the [retries + 1] GET requests raises a request exception or
    is answered with a 4xx or 5xx status, [download_image] sends all
    [retries + 1] requests, sleeps 1, 2, ..., [2^(retries - 1)] seconds
    between them and not after the last one, logs that all attempts
    failed, returns [None] and opens no file. *)
Theorem download_image_gives_up (L : pylib) (E : env) (url : string)
    (headers : gmap string string) (save_dir : string)
    (timeout chunk_size retries : Z) (custom_filename : option string)
    (w : world) (fail : nat -> exn) :
  PyStr.startswith url "http://" || PyStr.startswith url "https://" = true ->
  os_makedirs E save_dir = Ok tt ->
  PyStr.truthy (default "" custom_filename) = true
  \/ (exists parsed, Urllib.urlparse L (unquote L url) "" = Ok parsed) ->
  0 <= retries ->
  (forall i, (i <= Z.to_nat retries)%nat ->
     get_fails (http_get E (gets (trace w) + i) url) (fail i)) ->
  exists t,
    let T := (MakeDirs save_dir :: t
              ++ failed_attempts url headers timeout fail 0 (Z.to_nat retries)
              ++ attempt_start url headers timeout (Z.to_nat retries)
              ++ [Log WARNING (MsgAttemptFailed (retries + 1)
                                 (fail (Z.to_nat retries)));
                  Log ERROR (MsgAllFailed url)])%list in
    download_image L E url headers save_dir timeout chunk_size retries
      custom_filename w = (Ok None, log_to w T)
    /\ forallb is_probe t = true
    /\ Z.of_nat (gets T) = retries + 1
    /\ sleeps T = backoff (Z.to_nat retries).
Proof.
  intros Hscheme Hdir Hname Hretries Hfail.
  destruct (download_path_run L E url headers save_dir custom_filename w)
    as (r & t & Hpath & Hprobe & Hgets & Hsleeps & Hok & _).
  destruct (Hok Hdir Hname) as [full_path ->].
  exists t. cbn zeta. split; [|split; [done|split]].
  - unfold download_image. rewrite Hscheme. cbn [negb].
    rewrite run_bind, Hpath, (range_split retries (Z.to_nat retries)) by lia.
    rewrite (download_loop_get_fails E url headers timeout chunk_size retries
               full_path fail (Z.to_nat retries) 0).
    + rewrite log_to_app. cbn [download_loop]. rewrite run_bind.
      rewrite (attempt_fails E url headers timeout chunk_size retries
                 full_path (Z.to_nat retries) _ (fail (Z.to_nat retries))).
      * rewrite Z2Nat.id, Z.eqb_refl, run_ret, log_to_app by done.
        by rewrite <- !app_assoc.
      * rewrite gets_log_to, gets_app, gets_cons, Hgets, gets_failed_attempts.
        cbn [is_get Nat.add]. by apply Hfail.
    + intros i Hi. rewrite gets_log_to, gets_cons, Hgets.
      cbn [is_get Nat.add]. rewrite Nat.add_0_r. apply Hfail. lia.
    + lia.
  - rewrite gets_cons, !gets_app, Hgets, gets_failed_attempts.
    cbn. lia.
  - rewrite sleeps_cons, !sleeps_app, Hsleeps, sleeps_failed_attempts.
    cbn. by rewrite app_nil_r.
Qed.

(** X6: a directory that cannot be created ends the call with the
    exception of [os.makedirs], before the file name is derived and
    before any request is sent; nothing is logged. *)
Theorem download_image_directory_error (L : pylib) (E : env) (url : string)
    (headers : gmap string string) (save_dir : string)
    (timeout chunk_size retries : Z) (custom_filename : option string)
    (w : world) (e : exn) :
  PyStr.startswith url "http://" || PyStr.startswith url "https://" = true ->
  os_makedirs E save_dir = Raise e ->
  download_image L E url headers save_dir timeout chunk_size retries
    custom_filename w = (Raise e, log_to w [MakeDirs save_dir]).
Proof.
  intros Hscheme Hdir. unfold download_image, download_path.
  rewrite Hscheme. cbn [negb]. by rewrite !run_bind, makedirs_run, Hdir.
Qed.

(** X7: a URL with an accepted scheme that [urlparse] rejects (an
    unbalanced bracket in the host) makes [download_image] raise
    [ValueError] when no custom file name is given: the directory has
    been created by then, no request has been sent. *)
Theorem download_image_unparsable_url (L : pylib) (E : env) (url : string)
    (headers : gmap string string) (save_dir : string)
    (timeout chunk_size retries : Z) (custom_filename : option string)
    (w : world) (e : exn) :
  PyStr.startswith url "http://" || PyStr.startswith url "https://" = true ->
  os_makedirs E save_dir = Ok tt ->
  PyStr.truthy (default "" custom_filename) = false ->
  Urllib.urlparse L (unquote L url) "" = Raise e ->
  download_image L E url headers save_dir timeout chunk_size retries
    custom_filename w = (Raise e, log_to w [MakeDirs save_dir])
  /\ exists msg, e = ValueError msg.
Proof.
  intros Hscheme Hdir Hcustom Hparse. split.
  - unfold download_image, download_path, derive_filename.
    rewrite Hscheme, Hcustom. cbn [negb].
    rewrite !run_bind, makedirs_run, Hdir. unfold lift. by rewrite Hparse.
  - by eapply urlparse_raises.
Qed.

(** ** Where the file is saved *)

Lemma all_chars_app p (a b : string) :
  PyStr.all_chars p (a ++ b) = PyStr.all_chars p a && PyStr.all_chars p b.
Proof.
  induction a as [|c a IH]; [done|].
  change (PyStr.all_chars p (String c (a ++ b))
          = PyStr.all_chars p (String c a) && PyStr.all_chars p b).
  cbn [PyStr.all_chars]. by rewrite IH, andb_assoc.
Qed.

Lemma all_chars_take p n : forall s,
  PyStr.all_chars p s = true -> PyStr.all_chars p (PyStr.take n s) = true.
Proof.
  induction n as [|n IH]; intros [|c s]; cbn; try done.
  intros [Hc Hs]%andb_true_iff. by rewrite Hc, IH.
Qed.

Lemma clean_filename_legal (filename : string) :
  PyStr.all_chars legal_char (clean_filename filename) = true.
Proof.
  unfold clean_filename.
  induction filename as [|c filename IH]; [done|].
  cbn [PyStr.map_chars PyStr.all_chars]. rewrite IH, andb_true_r.
  unfold legal_char. by destruct (illegal_char c) eqn:Hc; [|rewrite Hc].
Qed.

Lemma splitext_stem_legal p (s : string) :
  PyStr.all_chars p s = true ->
  PyStr.all_chars p (PosixPath.splitext s).1 = true.
Proof.
  intros Hs. unfold PosixPath.splitext.
  destruct (PyStr.rfind "." s) as [dotIndex|]; [|done].
  match goal with |- context [if ?c then _ else _] => destruct c end;
    [|done].
  by apply all_chars_take.
Qed.

Lemma allowed_extension_legal (ext : string) :
  ext ∈ allowed_extensions -> PyStr.all_chars legal_char ext = true.
Proof.
  unfold allowed_extensions. intros Hin.
  repeat (apply elem_of_cons in Hin as [->|Hin]; [reflexivity|]).
  by apply not_elem_of_nil in Hin.
Qed.

Lemma rfind_absent c (s : string) :
  PyStr.contains c s = false -> PyStr.rfind c s = None.
Proof.
  induction s as [|a s IH]; [done|]. cbn.
  destruct (Ascii.eqb a c); [done|]. intros Hs. by rewrite IH.
Qed.

Lemma legal_no_separator (s : string) :
  PyStr.all_chars legal_char s = true -> PyStr.contains "/" s = false.
Proof.
  induction s as [|a s IH]; [done|]. cbn [PyStr.all_chars PyStr.contains].
  intros [Ha Hs]%andb_true_iff. rewrite (IH Hs).
  destruct (Ascii.eqb_spec a "/") as [->|]; done.
Qed.

Lemma rfind_last_separator c (a b : string) :
  PyStr.contains c b = false ->
  PyStr.rfind c (a ++ String c b) = Some (String.length a)
  /\ PyStr.drop (S (String.length a)) (a ++ String c b) = b.
Proof.
  intros Hb. induction a as [|x a [IH1 IH2]].
  - change (PyStr.rfind c (String c b) = Some 0%nat
            /\ PyStr.drop 1 (String c b) = b).
    cbn [PyStr.rfind PyStr.drop]. rewrite (rfind_absent _ _ Hb).
    rewrite Ascii.eqb_refl. by destruct b.
  - change (PyStr.rfind c (String x (a ++ String c b))
            = Some (S (String.length a))
            /\ PyStr.drop (S (S (String.length a)))
                 (String x (a ++ String c b)) = b).
    cbn [PyStr.rfind]. rewrite IH1. split; [done|].
    exact IH2.
Qed.

Lemma rev_app_last (a : string) : forall acc,
  a <> "" ->
  exists a' c, a = a' ++ String c ""
               /\ String.rev_app a acc = String c (String.rev_app a' acc).
Proof.
  induction a as [|x a IH]; [done|]. intros acc _.
  destruct a as [|y a].
  - by exists "", x.
  - destruct (IH (String x acc)) as (a' & c & Ha & Hrev); [done|].
    exists (String x a'), c. split.
    + by rewrite Ha.
    + cbn [String.rev_app] in *. by rewrite Hrev.
Qed.

Lemma endswith_sep_split (a : string) :
  PosixPath.endswith_sep a = true -> exists a', a = a' ++ "/".
Proof.
  unfold PosixPath.endswith_sep, PyStr.startswith.
  destruct a as [|x a]; [done|].
  unfold String.rev.
  destruct (rev_app_last (String x a) "") as (a' & c & -> & ->); [done|].
  cbn [String.prefix].
  destruct (ascii_dec "/" c) as [<-|]; [|done]. by exists a'.
Qed.

Lemma startswith_contains (s : string) :
  PyStr.startswith s "/" = true -> PyStr.contains "/" s = true.
Proof.
  unfold PyStr.startswith. destruct s as [|c s]; [done|].
  cbn [String.prefix PyStr.contains].
  destruct (ascii_dec "/" c) as [<-|]; done.
Qed.

(** A name without separator, joined to a directory, is the last
    component of the result. *)
Lemma basename_join (a name : string) :
  PyStr.contains "/" name = false ->
  (PosixPath.join a name = a ++ name
   \/ PosixPath.join a name = a ++ "/" ++ name)
  /\ PosixPath.basename (PosixPath.join a name) = name.
Proof.
  intros Hname. unfold PosixPath.join.
  destruct (PyStr.startswith name "/") eqn:Hstart.
  { apply startswith_contains in Hstart. congruence. }
  assert (forall a', PosixPath.basename (a' ++ String "/" name) = name)
    as Hbase.
  { intros a'. unfold PosixPath.basename.
    destruct (rfind_last_separator "/" a' name Hname) as [-> Hdrop]. done. }
  destruct a as [|x a].
  { cbn. split; [by left|]. unfold PosixPath.basename.
    by rewrite rfind_absent. }
  cbn [PyStr.truthy negb orb].
  destruct (PosixPath.endswith_sep (String x a)) eqn:Hsep.
  - split; [by left|].
    destruct (endswith_sep_split _ Hsep) as [a' ->].
    rewrite <- string_app_assoc. apply Hbase.
  - split; [by right|]. apply Hbase.
Qed.

(** X8: a path returned by [download_image] lies directly in the save
    directory: it is the save directory, a separator unless the directory
    is empty or ends with one, and a file name; the file name is the last
    component of the path and holds none of the characters that the
    cleaning replaces (no separator, no backslash), whatever the URL and
    the custom file name are. *)
Theorem download_image_path_in_save_dir (L : pylib) (E : env) (url : string)
    (headers : gmap string string) (save_dir : string)
    (timeout chunk_size retries : Z) (custom_filename : option string)
    (w w' : world) (saved_path : string) :
  download_image L E url headers save_dir timeout chunk_size retries
    custom_filename w = (Ok (Some saved_path), w') ->
  exists name,
    (saved_path = save_dir ++ name \/ saved_path = save_dir ++ "/" ++ name)
    /\ PosixPath.basename saved_path = name
    /\ PyStr.truthy name = true
    /\ PyStr.all_chars legal_char name = true.
Proof.
  unfold download_image.
  destruct (negb (PyStr.startswith url "http://"
                  || PyStr.startswith url "https://")).
  { unfold logging, throw. by run_steps. }
  rewrite run_bind.
  destruct (download_path_run L E url headers save_dir custom_filename w)
    as (r & t & -> & _ & _ & _ & _ & Hshape).
  destruct r as [full_path|e]; [|done].
  intros Hloop%download_loop_returns. subst saved_path.
  destruct (Hshape full_path eq_refl)
    as (raw & w0 & detected & _ & _ & ->).
  destruct (force_valid_ext_allowed detected) as (Hin & _ & _).
  set (name := (PosixPath.splitext (clean_filename raw)).1
               ++ force_valid_ext detected).
  assert (PyStr.all_chars legal_char name = true) as Hlegal.
  { unfold name. rewrite all_chars_app, splitext_stem_legal,
      allowed_extension_legal; [done..|]. apply clean_filename_legal. }
  destruct (basename_join save_dir name (legal_no_separator _ Hlegal))
    as [Hjoin Hbase].
  exists name. split; [done|]. split; [done|]. split; [|done].
  unfold name. destruct ((PosixPath.splitext (clean_filename raw)).1).
  - unfold allowed_extensions in Hin.
    repeat (apply elem_of_cons in Hin as [->|Hin]; [reflexivity|]).
    by apply not_elem_of_nil in Hin.
  - done.
Qed.

(** ** A stream that breaks *)

(** An attempt whose response is accepted and whose body stream raises
    the request exception [e] after its chunks: the chunks stay in the
    file, and the attempt is handled like any failed one. *)
Lemma attempt_stream_fails E url headers timeout chunk_size retries full_path
    (i : nat) w r e :
  http_get E (gets (trace w)) url = Ok r ->
  raise_for_status r = Ok tt ->
  PyStr.startswith (header_content_type r) "image/" = true ->
  stream_error r = Some e ->
  is_RequestException e = true ->
  file_open E full_path = Ok tt ->
  (forall content chunk, file_write E full_path content chunk = Ok tt) ->
  download_attempt E url headers timeout chunk_size retries full_path
    (Z.of_nat i) w
  = (Ok (if Z.of_nat i =? retries then Return None else Next),
     saved w (attempt_start url headers timeout i
              ++ [FileOpen full_path]
              ++ writes_of full_path (iter_content r chunk_size)
              ++ Log WARNING (MsgAttemptFailed (Z.of_nat i + 1) e)
                 :: (if Z.of_nat i =? retries
                     then [Log ERROR (MsgAllFailed url)]
                     else [Sleep (2 ^ Z.of_nat i)]))
       full_path (body_of (iter_content r chunk_size))).
Proof.
  intros Hget Hstatus Htype Hstream Hreq Hopen Hwrite.
  rewrite attempt_unfold. unfold try_except.
  rewrite run_bind, attempt_get_run, Hget, run_bind, Hstatus. unfold lift.
  cbn zeta. rewrite Htype. cbn [negb].
  rewrite run_bind, open_wb_run, Hopen, saved_log_to, run_bind.
  rewrite write_chunks_run by done. rewrite Hstream. unfold throw.
  rewrite Hreq. unfold logging, sleep.
  destruct (Z.of_nat i =? retries); run_steps;
    rewrite ?log_to_saved, ?run_ret; by rewrite <- !app_assoc.
Qed.

(** X9: a body stream that breaks on the last attempt leaves its chunks
    on disk.  After [retries] failed attempts, when the last GET is
    answered by an accepted image response whose stream raises a request
    exception once its chunks are delivered, [download_image] returns
    [None], and the destination file exists and holds the chunks that
    were delivered: the partial file is not removed. *)
Theorem download_image_interrupted_stream (L : pylib) (E : env)
    (url : string) (headers : gmap string string) (save_dir : string)
    (timeout chunk_size retries : Z) (custom_filename : option string)
    (w : world) (fail : nat -> exn) (r : response) (e : exn) :
  PyStr.startswith url "http://" || PyStr.startswith url "https://" = true ->
  os_makedirs E save_dir = Ok tt ->
  PyStr.truthy (default "" custom_filename) = true
  \/ (exists parsed, Urllib.urlparse L (unquote L url) "" = Ok parsed) ->
  0 <= retries ->
  (forall i, (i < Z.to_nat retries)%nat ->
     get_fails (http_get E (gets (trace w) + i) url) (fail i)) ->
  http_get E (gets (trace w) + Z.to_nat retries) url = Ok r ->
  ~ (400 <= status_code r < 600) ->
  PyStr.startswith (header_content_type r) "image/" = true ->
  stream_error r = Some e ->
  is_RequestException e = true ->
  (forall p, file_open E p = Ok tt) ->
  (forall p content chunk, file_write E p content chunk = Ok tt) ->
  exists full_path t w',
    download_image L E url headers save_dir timeout chunk_size retries
      custom_filename w = (Ok None, w')
    /\ download_path L E url headers save_dir custom_filename w
       = (Ok full_path, log_to w (MakeDirs save_dir :: t))
    /\ trace w'
       = (trace w ++ MakeDirs save_dir :: t
          ++ failed_attempts url headers timeout fail 0 (Z.to_nat retries)
          ++ attempt_start url headers timeout (Z.to_nat retries)
          ++ [FileOpen full_path]
          ++ writes_of full_path (iter_content r chunk_size)
          ++ [Log WARNING (MsgAttemptFailed (retries + 1) e);
              Log ERROR (MsgAllFailed url)])%list
    /\ files w' !! full_path = Some (body_of (iter_content r chunk_size)).
Proof.
  intros Hscheme Hdir Hname Hretries Hfail Hget Hstatus Htype Hstream Hreq
    Hopen Hwrite.
  destruct (download_path_run L E url headers save_dir custom_filename w)
    as (r0 & t & Hpath & Hprobe & Hgets & Hsleeps & Hok & _).
  destruct (Hok Hdir Hname) as [full_path ->].
  exists full_path, t. eexists. split; [|split; [exact Hpath|]].
  - unfold download_image. rewrite Hscheme. cbn [negb].
    rewrite run_bind, Hpath, (range_split retries (Z.to_nat retries)) by lia.
    rewrite (download_loop_get_fails E url headers timeout chunk_size retries
               full_path fail (Z.to_nat retries) 0).
    + rewrite log_to_app. cbn [download_loop]. rewrite run_bind.
      rewrite (attempt_stream_fails E url headers timeout chunk_size retries
                 full_path (Z.to_nat retries) _ r e); try done.
      * rewrite Z2Nat.id, Z.eqb_refl, run_ret by done. reflexivity.
      * rewrite gets_log_to, gets_app, gets_cons, Hgets, gets_failed_attempts.
        cbn [is_get Nat.add]. done.
      * by apply raise_for_status_ok.
    + intros i Hi. rewrite gets_log_to, gets_cons, Hgets.
      cbn [is_get Nat.add]. rewrite Nat.add_0_r. apply Hfail. lia.
    + lia.
  - split.
    + cbn [trace saved log_to]. rewrite <- ?app_assoc. cbn [app].
      by rewrite <- ?app_assoc.
    + cbn [files saved]. by rewrite lookup_insert_eq.
Qed.

(** ** [scrape_page] in every world *)

Lemma scrape_page_run E page headers timeout parser w :
  exists r t,
    scrape_page E page headers timeout parser w
    = (Ok r,
       log_to w (Log INFO (MsgRequesting page)
                 :: HttpGet page headers timeout false :: t))
    /\ forallb is_log t = true
    /\ (forall soup,
          r = Some soup
          <-> exists response,
                http_get E (gets (trace w)) page = Ok response
                /\ ~ (400 <= status_code response < 600)
                /\ html_parse E (text response) parser = Ok soup).
Proof.
  assert (forall e w',
            (logging INFO (MsgRequesting page);;
             response ← requests_get E page headers timeout false;
             lift (raise_for_status response);;
             logging DEBUG (MsgResponseReceived (status_code response));;
             soup ← lift (html_parse E (text response) parser);
             logging INFO MsgParsed;;
             mret (Some soup)) w = (Raise e, w') ->
            scrape_page E page headers timeout parser w
            = (Ok None, log_to w' [Log ERROR (failure_record timeout page e)]))
    as Hhandler.
  { intros e w' Hbody. unfold scrape_page.
    by erewrite scrape_page_handler. }
  assert (forall (X : Type) (k : response -> M X),
            (logging INFO (MsgRequesting page);;
             response ← requests_get E page headers timeout false;
             k response) w
            = match http_get E (gets (trace w)) page with
              | Ok response =>
                  k response
                    (log_to w [Log INFO (MsgRequesting page);
                               HttpGet page headers timeout false])
              | Raise e =>
                  (Raise e,
                   log_to w [Log INFO (MsgRequesting page);
                             HttpGet page headers timeout false])
              end) as Hsent.
  { intros X k. unfold logging.
    rewrite run_bind, run_emit, run_bind, run_requests_get, gets_log_to.
    cbn [gets List.filter is_get length]. rewrite Nat.add_0_r, log_to_app.
    by destruct (http_get E (gets (trace w)) page). }
  destruct (http_get E (gets (trace w)) page) as [response|e] eqn:Hget.
  2: { eexists None, _. erewrite Hhandler; [|by rewrite Hsent].
       rewrite log_to_app. split; [reflexivity|]. split; [reflexivity|].
       intros soup. split; [done|]. by intros (response & ? & _). }
  destruct (raise_for_status response) as [[]|e] eqn:Hstatus.
  2: { eexists None, _. erewrite Hhandler.
       2: { rewrite Hsent, run_bind. unfold lift at 1.
            by rewrite Hstatus. }
       rewrite log_to_app. split; [reflexivity|]. split; [reflexivity|].
       intros soup. split; [done|].
       intros (response' & [= <-] & Hnot%raise_for_status_ok & _).
       congruence. }
  destruct (html_parse E (text response) parser) as [soup|e] eqn:Hsoup.
  - eexists (Some soup), _. split.
    { unfold scrape_page, try_except. rewrite Hsent, run_bind.
      unfold lift at 1. rewrite Hstatus. unfold logging, lift.
      rewrite run_bind, run_emit, run_bind, Hsoup. run_steps.
      reflexivity. }
    split; [reflexivity|]. intros soup'. split.
    + intros [= <-]. exists response. by rewrite <- raise_for_status_ok.
    + intros (response' & [= <-] & _ & Heq). congruence.
  - eexists None, _. erewrite Hhandler.
    2: { rewrite Hsent, run_bind. unfold lift at 1.
         rewrite Hstatus. unfold logging, lift.
         by rewrite run_bind, run_emit, run_bind, Hsoup. }
    rewrite !log_to_app. split; [reflexivity|]. split; [reflexivity|].
    intros soup'. split; [done|].
    intros (response' & [= <-] & _ & Heq). congruence.
Qed.

(** X10: [scrape_page] never raises and sends exactly one GET request,
    not streamed, whatever the transport and the parser do: it does not
    retry, does not sleep and touches no file, and everything else it
    does is logging.  It returns a document exactly when the request is
    answered with a status that is not a 4xx or 5xx one and the parser
    accepts the body. *)
Theorem scrape_page_single_request (E : env) (page : string)
    (headers : gmap string string) (timeout : Z) (parser : string)
    (w : world) :
  exists r t,
    scrape_page E page headers timeout parser w
    = (Ok r,
       log_to w (Log INFO (MsgRequesting page)
                 :: HttpGet page headers timeout false :: t))
    /\ forallb is_log t = true
    /\ (forall soup,
          r = Some soup
          <-> exists response,
                http_get E (gets (trace w)) page = Ok response
                /\ ~ (400 <= status_code response < 600)
                /\ html_parse E (text response) parser = Ok soup).
Proof. apply scrape_page_run. Qed.
(** ** [scrape_images] and the main block *)

Lemma join_downloads (name : string) :
  PyStr.all_chars legal_char name = true ->
  PosixPath.join "downloads" name = "downloads/" ++ name.
Proof.
  intros Hlegal. unfold PosixPath.join.
  destruct (PyStr.startswith name "/") eqn:Hstart; [|reflexivity].
  apply startswith_contains in Hstart.
  by rewrite (legal_no_separator _ Hlegal) in Hstart.
Qed.

(** What one call of [download_image] does, in every world: the only
    file it can touch is a file directly inside the save directory. *)
Lemma download_image_effects L E url headers save_dir timeout chunk_size
    retries custom_filename w :
  exists t r w' name,
    download_image L E url headers save_dir timeout chunk_size retries
      custom_filename w = (r, w')
    /\ touches_only (PosixPath.join save_dir name) w w' t
    /\ PyStr.all_chars legal_char name = true
    /\ (gets t <= Z.to_nat (retries + 1))%nat
    /\ sleeps t = backoff (gets t - 1).
Proof.
  unfold download_image.
  destruct (negb (PyStr.startswith url "http://"
                  || PyStr.startswith url "https://")).
  { unfold logging, throw. run_steps. eexists _, _, _, "".
    split; [reflexivity|]. split; [apply touches_only_log_to|].
    split; [done|]. split; [cbn; lia|reflexivity]. }
  rewrite run_bind.
  destruct (download_path_run L E url headers save_dir custom_filename w)
    as (r0 & t0 & -> & _ & Hg0 & Hs0 & _ & Hshape).
  assert (gets (MakeDirs save_dir :: t0) = 0%nat) as Hg0'
    by (by rewrite gets_cons, Hg0).
  assert (sleeps (MakeDirs save_dir :: t0) = []) as Hs0'
    by (by rewrite sleeps_cons, Hs0).
  destruct r0 as [full_path|e].
  2: { exists (MakeDirs save_dir :: t0), (Raise e),
         (log_to w (MakeDirs save_dir :: t0)), "".
       split; [done|]. split; [apply touches_only_log_to|].
       rewrite Hg0', Hs0'. split; [done|]. split; [lia|done]. }
  destruct (Hshape full_path eq_refl)
    as (raw & w0 & detected & _ & _ & ->).
  destruct (force_valid_ext_allowed detected) as (Hin & _ & _).
  set (name := (PosixPath.splitext (clean_filename raw)).1
               ++ force_valid_ext detected).
  assert (PyStr.all_chars legal_char name = true) as Hlegal.
  { unfold name. rewrite all_chars_app, splitext_stem_legal,
      allowed_extension_legal; [done..|]. apply clean_filename_legal. }
  destruct (download_loop_footprint E url headers timeout chunk_size retries
              (PosixPath.join save_dir name) (Z.to_nat (retries + 1)) 0
              (log_to w (MakeDirs save_dir :: t0)))
    as (t & r & w' & Hloop & Ht & Hle & Hpos & Hs & Hr).
  { destruct (Z.to_nat (retries + 1)) eqn:Hn; [by left|right; lia]. }
  unfold range. rewrite Hloop.
  exists ((MakeDirs save_dir :: t0) ++ t)%list, r, w', name.
  split; [done|]. split.
  { eapply touches_only_trans; [apply touches_only_log_to|done]. }
  rewrite gets_app, Hg0', sleeps_app, Hs0'. done.
Qed.

Lemma backoff_sum_bound (m : nat) :
  (m <= 2)%nat -> fold_right Z.add 0 (backoff m) <= 3.
Proof.
  intros Hm. unfold backoff. rewrite sum_backoff.
  destruct m as [|[|[|m]]]; cbn; lia.
Qed.

Lemma sum_app (l1 l2 : list Z) :
  fold_right Z.add 0 (l1 ++ l2)
  = fold_right Z.add 0 l1 + fold_right Z.add 0 l2.
Proof. induction l1 as [|x l1 IH]; cbn; [done|]. rewrite IH. lia. Qed.

Lemma logs_quiet (t : list event) :
  forallb is_log t = true -> gets t = 0%nat /\ sleeps t = [].
Proof.
  induction t as [|ev t IH]; [done|]. cbn [forallb].
  intros [Hev Ht]%andb_true_iff. destruct (IH Ht) as [Hg Hs].
  rewrite gets_cons, sleeps_cons, Hg, Hs. by destruct ev.
Qed.

Lemma extract_log_is_log L page soup :
  forallb is_log (extract_log L page soup) = true.
Proof.
  unfold extract_log.
  assert (forall items, forallb is_log (flat_map (image_log L page) items)
                        = true) as Hlogs.
  { induction items as [|[i im] items IH]; [done|].
    cbn [flat_map]. rewrite forallb_app, IH, andb_true_r.
    unfold image_log.
    repeat match goal with
           | |- context [match ?x with _ => _ end] => destruct x
           end; reflexivity. }
  destruct (find_all "img" soup); [reflexivity|].
  cbn [forallb is_log]. apply Hlogs.
Qed.

Section MainRuns.

Variable L : pylib.
Variable E : env.

(** The downloads of a page, in every world: at most three GET requests
    and three seconds of sleep for each reference, and no file of the
    world (the log file is not among them) touched outside the directory
    [downloads]. *)
Lemma download_all_effects (imgs_urls : list ImageReference) : forall w,
  exists t r w',
    download_all L E imgs_urls w = (r, w')
    /\ trace w' = (trace w ++ t)%list
    /\ (forall q, ~ in_downloads q -> files w' !! q = files w !! q)
    /\ (gets t <= 3 * length imgs_urls)%nat
    /\ fold_right Z.add 0 (sleeps t) <= 3 * Z.of_nat (length imgs_urls).
Proof.
  induction imgs_urls as [|image imgs_urls IH]; intros w.
  { exists [], (Ok tt), w. cbn. rewrite app_nil_r. repeat split; done. }
  cbn [download_all]. rewrite run_bind.
  assert (exists t1 r1 w1,
            (if PyStr.truthy (default "" (url image))
             then download_image L E (default "" (url image)) DEFAULT_HEADERS
                    "downloads" 30 1024 2 None;; mret tt
             else mret tt) w = (r1, w1)
            /\ trace w1 = (trace w ++ t1)%list
            /\ (forall q, ~ in_downloads q -> files w1 !! q = files w !! q)
            /\ (gets t1 <= 3)%nat
            /\ fold_right Z.add 0 (sleeps t1) <= 3) as Hone.
  { destruct (PyStr.truthy (default "" (url image))).
    2: { exists [], (Ok tt), w. rewrite run_ret, app_nil_r.
         repeat split; try done. cbn; lia. }
    destruct (download_image_effects L E (default "" (url image))
                DEFAULT_HEADERS "downloads" 30 1024 2 None w)
      as (t1 & r1 & w1 & name & Hrun & [Htrace Hfiles] & Hlegal & Hgets
          & Hsleeps).
    rewrite run_bind, Hrun.
    exists t1, (match r1 with Ok _ => Ok tt | Raise e => Raise e end), w1.
    split; [by destruct r1|]. split; [done|]. split.
    { intros q Hq. apply Hfiles. intros ->. apply Hq.
      exists name. by rewrite join_downloads. }
    change (Z.to_nat (2 + 1)) with 3%nat in Hgets. split; [done|].
    rewrite Hsleeps. apply backoff_sum_bound. lia. }
  destruct Hone as (t1 & r1 & w1 & -> & Htrace1 & Hfiles1 & Hgets1 & Hsleeps1).
  destruct r1 as [[]|e].
  2: { exists t1, (Raise e), w1. split; [done|]. split; [done|].
       split; [done|]. cbn [length]. split; lia. }
  destruct (IH w1) as (t2 & r & w' & -> & Htrace2 & Hfiles2 & Hgets2
                       & Hsleeps2).
  exists (t1 ++ t2)%list, r, w'. split; [done|].
  split; [by rewrite Htrace2, Htrace1, app_assoc|]. split.
  { intros q Hq. by rewrite Hfiles2, Hfiles1. }
  rewrite gets_app, sleeps_app, sum_app. cbn [length]. split; lia.
Qed.

(** A reference whose url has another scheme than [http://] and
    [https://] ends the downloads of the page with [ValueError]: the
    references after it cost no request. *)
Lemma download_all_stops (pre post : list ImageReference)
    (bad : ImageReference) (u : string) :
  url bad = Some u ->
  PyStr.truthy u = true ->
  PyStr.startswith u "http://" || PyStr.startswith u "https://" = false ->
  forall w, exists t e w',
    download_all L E (pre ++ bad :: post) w = (Raise e, w')
    /\ trace w' = (trace w ++ t)%list
    /\ (gets t <= 3 * length pre)%nat.
Proof.
  intros Hurl Htruthy Hscheme.
  induction pre as [|image pre IH]; intros w.
  - cbn [app download_all]. rewrite Hurl.
    change (default "" (Some u)) with u. rewrite Htruthy.
    unfold download_image. rewrite Hscheme. cbn [negb].
    unfold logging, throw. run_steps.
    eexists _, _, _. split; [reflexivity|]. split; [reflexivity|]. cbn. lia.
  - cbn [app download_all]. rewrite run_bind.
    destruct (download_all_effects [image] w)
      as (t1 & r1 & w1 & Hrun & Htrace1 & _ & Hgets1 & _).
    cbn [download_all] in Hrun. rewrite run_bind in Hrun.
    match type of Hrun with
    | match ?m with _ => _ end = _ => destruct m as [[[]|e] w0]
    end.
    + rewrite run_ret in Hrun. injection Hrun as <- <-.
      destruct (IH w0) as (t2 & e & w' & -> & Htrace2 & Hgets2).
      exists (t1 ++ t2)%list, e, w'. split; [done|].
      split; [by rewrite Htrace2, Htrace1, app_assoc|].
      rewrite gets_app. cbn [length] in *. lia.
    + injection Hrun as <- <-. exists t1, e, w0.
      split; [done|]. split; [done|]. cbn [length] in *. lia.
Qed.

(** [scrape_images] catches what its body raises and logs it. *)
Lemma scrape_images_run page s :
  scrape_images L E page s
  = match (soup ← scrape_page E page DEFAULT_HEADERS 10 "html.parser";
           match soup with
           | Some soup =>
               imgs_urls ← extract_images_urls L page soup;
               download_all L E imgs_urls
           | None => mret tt
           end) (core s) with
    | (Ok _, w') => (Ok tt, {| core := w'; journal := journal s |})
    | (Raise e, w') =>
        (Ok tt,
         {| core := w';
            journal := journal s
                       ++ [{| after_events := length (trace w');
                              main_level := ERROR;
                              main_message := MsgScrapingError page e |}] |})
    end.
Proof.
  unfold scrape_images, try_except_Exception, run_core.
  match goal with
  | |- context [(scrape_page E page DEFAULT_HEADERS 10 "html.parser" ≫= ?k)
                  (core s)] =>
      destruct ((scrape_page E page DEFAULT_HEADERS 10 "html.parser" ≫= k)
                  (core s)) as [[[]|e] w']
  end; reflexivity.
Qed.

(** One page, in every world.  [images] are the image elements of the
    document that [scrape_page] returns, none when it returns no
    document. *)
Lemma scrape_images_effects page s :
  let images :=
    match (scrape_page E page DEFAULT_HEADERS 10 "html.parser" (core s)).1 with
    | Ok (Some soup) => find_all "img" soup
    | _ => []
    end in
  exists s' t,
    scrape_images L E page s = (Ok tt, s')
    /\ trace (core s') = (trace (core s) ++ t)%list
    /\ (forall q, ~ in_downloads q ->
          files (core s') !! q = files (core s) !! q)
    /\ (1 <= gets t <= 1 + 3 * length images)%nat
    /\ fold_right Z.add 0 (sleeps t) <= 3 * Z.of_nat (length images)
    /\ (journal s' = journal s
        \/ exists e,
             journal s'
             = (journal s
                ++ [{| after_events := length (trace (core s'));
                       main_level := ERROR;
                       main_message := MsgScrapingError page e |}])%list)
    /\ ((scrape_page E page DEFAULT_HEADERS 10 "html.parser" (core s)).1
        = Ok None ->
        s' = {| core := (scrape_page E page DEFAULT_HEADERS 10 "html.parser"
                           (core s)).2;
                journal := journal s |}).
Proof.
  intros images. subst images. rewrite scrape_images_run, run_bind.
  destruct (scrape_page_run E page DEFAULT_HEADERS 10 "html.parser" (core s))
    as (r & t0 & -> & Hlog & _).
  set (sent := (Log INFO (MsgRequesting page)
                :: HttpGet page DEFAULT_HEADERS 10 false :: t0)).
  assert (gets sent = 1%nat /\ sleeps sent = []) as [Hg0 Hs0].
  { destruct (logs_quiet t0 Hlog) as [Hg Hs]. unfold sent.
    by rewrite !gets_cons, !sleeps_cons, Hg, Hs. }
  cbn [fst snd]. destruct r as [soup|].
  2: { rewrite run_ret. eexists _, sent. split; [reflexivity|].
       cbn [core journal]. split; [done|]. split; [done|].
       rewrite Hg0, Hs0. cbn. split; [lia|]. split; [lia|].
       split; [by left|done]. }
  rewrite run_bind, extract_images_urls_run.
  pose proof (omap_reference_length L page (find_all "img" soup) 1) as Hlen.
  set (refs := omap (reference_of L page)
                 (enumerate 1 (find_all "img" soup))) in *.
  destruct (download_all_effects refs
              (log_to (log_to (core s) sent) (extract_log L page soup)))
    as (t & r & w' & -> & Htrace & Hfiles & Hgets & Hsleeps).
  destruct (logs_quiet _ (extract_log_is_log L page soup)) as [Hg1 Hs1].
  assert (trace w' = (trace (core s)
                      ++ sent ++ extract_log L page soup ++ t)%list)
    as Htrace'.
  { rewrite Htrace. cbn [trace log_to]. by rewrite <- !app_assoc. }
  assert ((1 <= gets (sent ++ extract_log L page soup ++ t)
           <= 1 + 3 * length (find_all "img" soup))%nat) as Hcount.
  { rewrite !gets_app, Hg0, Hg1. lia. }
  assert (fold_right Z.add 0 (sleeps (sent ++ extract_log L page soup ++ t))
          <= 3 * Z.of_nat (length (find_all "img" soup))) as Hslept.
  { rewrite !sleeps_app, Hs0, Hs1. cbn [app]. lia. }
  destruct r as [[]|e].
  - eexists _, _. split; [reflexivity|]. cbn [core journal].
    split; [exact Htrace'|]. split; [exact Hfiles|].
    split; [exact Hcount|]. split; [exact Hslept|]. split; [by left|done].
  - eexists _, _. split; [reflexivity|]. cbn [core journal].
    split; [exact Htrace'|]. split; [exact Hfiles|].
    split; [exact Hcount|]. split; [exact Hslept|]. split; [|done].
    right. by exists e.
Qed.


End MainRuns.


(** X12: the requests of one page are bounded by its image elements:
    [scrape_images] sends the GET request for the page and at most three
    GET requests for each image element of the document, and sleeps at
    most three seconds for each, whatever the transport answers; a page
    that cannot be fetched costs exactly one request. *)
Theorem scrape_images_request_bound (L : pylib) (E : env) (page : string)
    (s : session) :
  let images :=
    match (scrape_page E page DEFAULT_HEADERS 10 "html.parser" (core s)).1 with
    | Ok (Some soup) => find_all "img" soup
    | _ => []
    end in
  exists s' t,
    scrape_images L E page s = (Ok tt, s')
    /\ trace (core s') = (trace (core s) ++ t)%list
    /\ (1 <= gets t <= 1 + 3 * length images)%nat
    /\ fold_right Z.add 0 (sleeps t) <= 3 * Z.of_nat (length images).
Proof.
  intros images.
  destruct (scrape_images_effects L E page s)
    as (s' & t & Hrun & Htrace & _ & Hgets & Hsleeps & _).
  by exists s', t.
Qed.

(** X13: apart from the file [scraper.log], to which the logging
    handler appends the log records, [scrape_images] creates or modifies
    files only directly inside the directory [downloads], under names
    without separator, backslash or any other character that the
    cleaning replaces: every other path holds after the call what it held
    before. *)
Theorem scrape_images_writes_in_downloads (L : pylib) (E : env)
    (page : string) (s : session) :
  exists s',
    scrape_images L E page s = (Ok tt, s')
    /\ forall q, ~ in_downloads q -> q <> scraper_log ->
         files (core s') !! q = files (core s) !! q.
Proof.
  destruct (scrape_images_effects L E page s)
    as (s' & t & Hrun & _ & Hfiles & _).
  exists s'. split; [done|]. intros q Hq _. by apply Hfiles.
Qed.

(** X14: an image whose url has another scheme than [http://] and
    [https://] (a [data:] URI, or a relative file name that begins with
    [http], which [extract_images_urls] takes for absolute) ends the
    downloads of its page: [download_image] raises [ValueError] for it,
    [scrape_images] logs the error, and the images after it are never
    requested. *)
Theorem scrape_images_stops_at_foreign_scheme (L : pylib) (E : env)
    (page : string) (s : session) (soup : BeautifulSoup)
    (pre post : list ImageReference) (bad : ImageReference) (u : string) :
  (scrape_page E page DEFAULT_HEADERS 10 "html.parser" (core s)).1
  = Ok (Some soup) ->
  omap (reference_of L page) (enumerate 1 (find_all "img" soup))
  = (pre ++ bad :: post)%list ->
  url bad = Some u ->
  PyStr.truthy u = true ->
  PyStr.startswith u "http://" || PyStr.startswith u "https://" = false ->
  exists s' t e,
    scrape_images L E page s = (Ok tt, s')
    /\ trace (core s') = (trace (core s) ++ t)%list
    /\ (gets t <= 1 + 3 * length pre)%nat
    /\ journal s'
       = (journal s
          ++ [{| after_events := length (trace (core s'));
                 main_level := ERROR;
                 main_message := MsgScrapingError page e |}])%list.
Proof.
  intros Hpage Hrefs Hurl Htruthy Hscheme.
  rewrite scrape_images_run, run_bind.
  destruct (scrape_page_run E page DEFAULT_HEADERS 10 "html.parser" (core s))
    as (r & t0 & Hrun & Hlog & _).
  rewrite Hrun in Hpage |- *. cbn [fst] in Hpage. injection Hpage as ->.
  rewrite run_bind, extract_images_urls_run, Hrefs.
  destruct (download_all_stops L E pre post bad u Hurl Htruthy Hscheme
              (log_to (log_to (core s)
                         (Log INFO (MsgRequesting page)
                          :: HttpGet page DEFAULT_HEADERS 10 false :: t0))
                 (extract_log L page soup)))
    as (t & e & w' & -> & Htrace & Hgets).
  destruct (logs_quiet _ Hlog) as [Hg0 _].
  destruct (logs_quiet _ (extract_log_is_log L page soup)) as [Hg1 _].
  eexists _, _, e. split; [reflexivity|]. cbn [core journal].
  split; [|split; [|reflexivity]].
  - rewrite Htrace. cbn [trace log_to]. rewrite <- !app_assoc. reflexivity.
  - rewrite gets_app, !gets_cons, !gets_app, Hg0, Hg1. cbn [is_get]. lia.
Qed.


(** ** From a page to a download *)

Lemma prefix_app (p s t : string) :
  String.prefix p s = true -> String.prefix p (s ++ t) = true.
Proof.
  revert p. induction s as [|b s IH]; intros [|a p]; try done.
  - by destruct t.
  - change (String.prefix (String a p) (String b s) = true
            -> String.prefix (String a p) (String b (s ++ t)) = true).
    cbn [String.prefix]. destruct (ascii_dec a b); [apply IH|done].
Qed.

Lemma prefix_refl_app (p t : string) : String.prefix p (p ++ t) = true.
Proof.
  induction p as [|a p IH]; [by destruct t|].
  change (String.prefix (String a p) (String a (p ++ t)) = true).
  cbn [String.prefix]. by destruct (ascii_dec a a).
Qed.

(** A URL put together from the scheme [http] or [https] begins with the
    scheme, a colon and two slashes. *)
Lemma urlunparse_http scheme netloc url params query fragment :
  scheme = "http" \/ scheme = "https" ->
  PyStr.startswith
    (Urllib.urlunparse scheme netloc url params query fragment)
    (scheme ++ "://") = true.
Proof.
  intros Hscheme. unfold Urllib.urlunparse, Urllib.urlunsplit, PyStr.startswith.
  set (url' := if PyStr.truthy params then url ++ ";" ++ params else url).
  assert (PyStr.truthy scheme && Urllib.mem scheme Urllib.uses_netloc = true)
    as Hnetloc by (by destruct Hscheme as [->| ->]).
  rewrite Hnetloc. cbn [andb].
  assert (PyStr.truthy scheme = true) as -> by (by destruct Hscheme as [->| ->]).
  assert (forall s, String.prefix "//" s = true ->
            String.prefix (scheme ++ "://") (scheme ++ ":" ++ s) = true)
    as Hprefix.
  { intros s Hs. destruct s as [|a s]; [done|].
    cbn [String.prefix] in Hs.
    destruct (ascii_dec "/" a) as [<-|]; [|done].
    destruct s as [|b s]; [done|]. cbn [String.prefix] in Hs.
    destruct (ascii_dec "/" b) as [<-|]; [|done].
    change (scheme ++ ":" ++ String "/" (String "/" s))
      with (scheme ++ "://" ++ s).
    rewrite string_app_assoc. apply prefix_refl_app. }
  assert (forall s, String.prefix (scheme ++ "://") s = true ->
            String.prefix (scheme ++ "://")
              (if PyStr.truthy fragment
               then (if PyStr.truthy query then s ++ "?" ++ query else s)
                    ++ "#" ++ fragment
               else if PyStr.truthy query then s ++ "?" ++ query else s)
            = true) as Htail.
  { intros s Hs.
    destruct (PyStr.truthy fragment), (PyStr.truthy query);
      repeat apply prefix_app; done. }
  apply Htail. apply Hprefix.
  destruct (PyStr.truthy netloc); cbn [orb].
  { apply (prefix_refl_app "//"). }
  unfold PyStr.startswith.
  destruct (String.prefix "//" url') eqn:Hurl; cbn [negb]; [done|].
  apply (prefix_refl_app "//").
Qed.

(** Joined to a page of scheme [http] or [https], a source that is
    parsed as a URL of the same scheme gives a URL that begins with
    [http://] or [https://]. *)
Lemma urljoin_http L base R b u :
  Urllib.urlparse L base "" = Ok b ->
  Urllib.scheme b = "http" \/ Urllib.scheme b = "https" ->
  PyStr.truthy R = true ->
  Urllib.urlparse L R (Urllib.scheme b) = Ok u ->
  Urllib.scheme u = Urllib.scheme b ->
  exists joined,
    Urllib.urljoin L base R = Ok joined
    /\ PyStr.startswith joined "http://" || PyStr.startswith joined "https://"
       = true.
Proof.
  intros Hbase Hscheme HR Hparse Hsame.
  assert (forall s, PyStr.startswith s (Urllib.scheme u ++ "://") = true ->
            PyStr.startswith s "http://" || PyStr.startswith s "https://"
            = true) as Hstart.
  { intros s. rewrite Hsame.
    destruct Hscheme as [-> | ->]; intros Hs.
    - change ("http" ++ "://") with "http://" in Hs. by rewrite Hs.
    - change ("https" ++ "://") with "https://" in Hs. rewrite Hs.
      apply orb_true_r. }
  assert (Urllib.scheme u = "http" \/ Urllib.scheme u = "https") as Hu
    by (by rewrite Hsame).
  unfold Urllib.urljoin.
  assert (PyStr.truthy base = true) as ->.
  { destruct base; [|done]. vm_compute in Hbase. injection Hbase as <-.
    by destruct Hscheme. }
  rewrite HR. cbn [negb]. rewrite Hbase. cbn [mbind result_bind].
  rewrite Hparse. cbn [mbind result_bind].
  rewrite Hsame, String.eqb_refl.
  assert (Urllib.mem (Urllib.scheme b) Urllib.uses_relative = true) as ->
    by (by destruct Hscheme as [-> | ->]).
  cbn [negb orb]. rewrite <- Hsame.
  repeat match goal with
         | |- context [if ?c then Ok _ else _] => destruct c
         end; eexists; (split; [reflexivity|]);
    apply Hstart, urlunparse_http; done.
Qed.

Lemma prefix_shorter (p q s : string) :
  String.prefix (p ++ q) s = true -> String.prefix p s = true.
Proof.
  revert p. induction s as [|b s IH]; intros [|a p]; try done.
  change (String.prefix (String a (p ++ q)) (String b s) = true
          -> String.prefix (String a p) (String b s) = true).
  cbn [String.prefix]. destruct (ascii_dec a b); [apply IH|done].
Qed.

(** X16: on a page of scheme [http] or [https], an image source that
    does not begin with [http] and is parsed as a URL of the scheme of
    the page (a relative path, an absolute path, or a source that begins
    with two slashes) is emitted as a URL that begins with [http://] or
    [https://]: [download_image] accepts its scheme. *)
Theorem extract_images_urls_relative_downloadable (L : pylib) (page : string)
    (soup : BeautifulSoup) (w : world) (i : nat) (img : node) (R : string)
    (b u : Urllib.ParseResult) :
  find_all "img" soup !! i = Some img ->
  image_source img = Some R ->
  PyStr.truthy R = true ->
  PyStr.startswith R "http" = false ->
  Urllib.urlparse L page "" = Ok b ->
  Urllib.scheme b = "http" \/ Urllib.scheme b = "https" ->
  Urllib.urlparse L R (Urllib.scheme b) = Ok u ->
  Urllib.scheme u = Urllib.scheme b ->
  exists refs w' joined,
    extract_images_urls L page soup w = (Ok refs, w')
    /\ {| position := Z.of_nat i + 1; url := Some joined;
          alt := PyStr.strip (default "" (tag_get img "alt"));
          page_url := page |} ∈ refs
    /\ PyStr.startswith joined "http://" || PyStr.startswith joined "https://"
       = true.
Proof.
  intros Himg Hsrc Htruthy Hrelative Hpage Hscheme Hparse Hsame.
  destruct (urljoin_http L page R b u Hpage Hscheme Htruthy Hparse Hsame)
    as (joined & Hjoin & Hstart).
  rewrite extract_images_urls_run.
  eexists _, _, joined. split; [reflexivity|]. split; [|done].
  apply omap_reference_elem. exists i, img. split; [done|].
  unfold reference_of. rewrite (Z.add_comm 1), Hsrc, Htruthy. cbn [negb].
  assert (PyStr.startswith R "https" = false) as Hhttps.
  { destruct (PyStr.startswith R "https") eqn:Hs; [|done].
    unfold PyStr.startswith in *.
    by rewrite (prefix_shorter "http" "s" R Hs) in Hrelative. }
  by rewrite Hrelative, Hhttps, Hjoin.
Qed.

(** ** Two images with one name *)






(** ** The further properties at concrete inputs *)

Lemma download_image_saves_accepted_body_witness :
  let E := env_with (flaky 1 png_response) (Ok png_response) (Ok tt) (Ok tt) in
  let run :=
    download_image cpython E "https://example.com/img.jpg" DEFAULT_HEADERS
      "downloads" 30 1024 2 None empty_world in
  exists t response,
    trace run.2 = (trace empty_world ++ t)%list
    /\ gets t <> 0%nat
    /\ http_get E (gets (trace empty_world) + (gets t - 1))
         "https://example.com/img.jpg" = Ok response
    /\ ~ (400 <= status_code response < 600)
    /\ PyStr.startswith (header_content_type response) "image/" = true
    /\ stream_error response = None
    /\ files run.2 !! "downloads/img.jpg"
       = Some (body_of (iter_content response 1024)).
Proof.
  intros E run.
  apply (download_image_saves_accepted_body cpython E
           "https://example.com/img.jpg" DEFAULT_HEADERS "downloads" 30 1024
           2 None empty_world run.2 "downloads/img.jpg").
  vm_compute. reflexivity.
Defined.

Lemma download_image_raises_no_request_exception_witness :
  let E := env_with (flaky 0 png_response) (Ok png_response)
             (Raise (OSError "Permission denied")) (Ok tt) in
  (download_image cpython E "https://example.com/img.jpg" DEFAULT_HEADERS
     "downloads" 30 1024 2 None empty_world).1
  = Raise (OSError "Permission denied")
  /\ is_RequestException (OSError "Permission denied") = false.
Proof.
  intros E. split; [vm_compute; reflexivity|].
  apply (download_image_raises_no_request_exception cpython E
           "https://example.com/img.jpg" DEFAULT_HEADERS "downloads" 30 1024
           2 None empty_world
           (download_image cpython E "https://example.com/img.jpg"
              DEFAULT_HEADERS "downloads" 30 1024 2 None empty_world).2).
  - intros e' H. vm_compute in H. discriminate H.
  - vm_compute. reflexivity.
Defined.

Lemma download_image_gives_up_witness :
  exists t,
    let T := (MakeDirs "downloads" :: t
              ++ failed_attempts "https://example.com/img.jpg" DEFAULT_HEADERS
                   30 timeout_then_status 0 (Z.to_nat 2)
              ++ attempt_start "https://example.com/img.jpg" DEFAULT_HEADERS
                   30 (Z.to_nat 2)
              ++ [Log WARNING (MsgAttemptFailed (2 + 1)
                                 (timeout_then_status (Z.to_nat 2)));
                  Log ERROR (MsgAllFailed "https://example.com/img.jpg")])%list
    in
    download_image cpython
      (env_with timeout_then_not_found (Ok png_response) (Ok tt) (Ok tt))
      "https://example.com/img.jpg" DEFAULT_HEADERS "downloads" 30 1024 2
      None empty_world
    = (Ok None, log_to empty_world T)
    /\ forallb is_probe t = true
    /\ Z.of_nat (gets T) = 2 + 1
    /\ sleeps T = backoff (Z.to_nat 2).
Proof.
  apply (download_image_gives_up cpython
           (env_with timeout_then_not_found (Ok png_response) (Ok tt) (Ok tt))
           "https://example.com/img.jpg" DEFAULT_HEADERS "downloads" 30 1024
           2 None empty_world timeout_then_status).
  - reflexivity.
  - reflexivity.
  - right. eexists. vm_compute. reflexivity.
  - lia.
  - intros [|[|[|i]]] Hi.
    + left. split; reflexivity.
    + right. exists not_found. repeat split; cbn; lia.
    + right. exists not_found. repeat split; cbn; lia.
    + cbn in Hi. lia.
Defined.

Lemma download_image_directory_error_witness :
  download_image cpython read_only_env "https://example.com/img.jpg"
    DEFAULT_HEADERS "downloads" 30 1024 2 None empty_world
  = (Raise (OSError "Read-only file system"),
     log_to empty_world [MakeDirs "downloads"]).
Proof.
  apply (download_image_directory_error cpython read_only_env
           "https://example.com/img.jpg" DEFAULT_HEADERS "downloads" 30 1024
           2 None empty_world (OSError "Read-only file system"));
    reflexivity.
Defined.

Lemma download_image_unparsable_url_witness :
  download_image cpython
    (env_with (flaky 0 png_response) (Ok png_response) (Ok tt) (Ok tt))
    "http://[" DEFAULT_HEADERS "downloads" 30 1024 2 None empty_world
  = (Raise (ValueError "Invalid IPv6 URL"),
     log_to empty_world [MakeDirs "downloads"])
  /\ exists msg, ValueError "Invalid IPv6 URL" = ValueError msg.
Proof.
  apply (download_image_unparsable_url cpython
           (env_with (flaky 0 png_response) (Ok png_response) (Ok tt) (Ok tt))
           "http://[" DEFAULT_HEADERS "downloads" 30 1024 2 None empty_world
           (ValueError "Invalid IPv6 URL")).
  - reflexivity.
  - reflexivity.
  - reflexivity.
  - vm_compute. reflexivity.
Defined.

Lemma download_image_path_in_save_dir_witness :
  exists name,
    ("downloads/.._evil.jpg" = "downloads" ++ name
     \/ "downloads/.._evil.jpg" = "downloads" ++ "/" ++ name)
    /\ PosixPath.basename "downloads/.._evil.jpg" = name
    /\ PyStr.truthy name = true
    /\ PyStr.all_chars legal_char name = true.
Proof.
  apply (download_image_path_in_save_dir cpython
           (env_with (flaky 0 png_response) (Raise ConnectionError) (Ok tt)
              (Ok tt))
           "https://example.com/img.jpg" DEFAULT_HEADERS "downloads" 30 1024
           2 (Some "../evil") empty_world
           (download_image cpython
              (env_with (flaky 0 png_response) (Raise ConnectionError)
                 (Ok tt) (Ok tt))
              "https://example.com/img.jpg" DEFAULT_HEADERS "downloads" 30
              1024 2 (Some "../evil") empty_world).2
           "downloads/.._evil.jpg").
  vm_compute. reflexivity.
Defined.

Lemma download_image_interrupted_stream_witness :
  let E := env_with (flaky 1 broken_png) (Ok png_response) (Ok tt) (Ok tt) in
  exists full_path t w',
    download_image cpython E "https://example.com/img.png" DEFAULT_HEADERS
      "downloads" 30 1024 1 None empty_world = (Ok None, w')
    /\ download_path cpython E "https://example.com/img.png" DEFAULT_HEADERS
         "downloads" None empty_world
       = (Ok full_path, log_to empty_world (MakeDirs "downloads" :: t))
    /\ trace w'
       = (trace empty_world ++ MakeDirs "downloads" :: t
          ++ failed_attempts "https://example.com/img.png" DEFAULT_HEADERS 30
               connection_errors 0 (Z.to_nat 1)
          ++ attempt_start "https://example.com/img.png" DEFAULT_HEADERS 30
               (Z.to_nat 1)
          ++ [FileOpen full_path]
          ++ writes_of full_path (iter_content broken_png 1024)
          ++ [Log WARNING (MsgAttemptFailed (1 + 1) ChunkedEncodingError);
              Log ERROR (MsgAllFailed "https://example.com/img.png")])%list
    /\ files w' !! full_path = Some (body_of (iter_content broken_png 1024)).
Proof.
  intros E.
  apply (download_image_interrupted_stream cpython E
           "https://example.com/img.png" DEFAULT_HEADERS "downloads" 30 1024
           1 None empty_world connection_errors broken_png
           ChunkedEncodingError).
  - reflexivity.
  - reflexivity.
  - right. eexists. vm_compute. reflexivity.
  - lia.
  - intros [|i] Hi; [|cbn in Hi; lia]. left. split; reflexivity.
  - reflexivity.
  - cbn. lia.
  - reflexivity.
  - reflexivity.
  - reflexivity.
  - reflexivity.
  - reflexivity.
Defined.

Lemma scrape_images_stops_at_foreign_scheme_witness :
  let E := env_of page_then_images page_with_foreign_source in
  exists s' t e,
    scrape_images cpython E "https://x.com/gallery" empty_session = (Ok tt, s')
    /\ trace (core s') = (trace (core empty_session) ++ t)%list
    /\ (gets t <= 1 + 3 * 1)%nat
    /\ journal s'
       = (journal empty_session
          ++ [{| after_events := length (trace (core s'));
                 main_level := ERROR;
                 main_message := MsgScrapingError "https://x.com/gallery" e |}])%list.
Proof.
  intros E.
  apply (scrape_images_stops_at_foreign_scheme cpython E
           "https://x.com/gallery" empty_session page_with_foreign_source
           [{| position := 1; url := Some "https://x.com/a.png"; alt := "";
               page_url := "https://x.com/gallery" |}]
           [{| position := 3; url := Some "https://x.com/b.png"; alt := "";
               page_url := "https://x.com/gallery" |}]
           {| position := 2; url := Some "http-logo.png"; alt := "";
              page_url := "https://x.com/gallery" |}
           "http-logo.png").
  - reflexivity.
  - vm_compute. reflexivity.
  - reflexivity.
  - reflexivity.
  - reflexivity.
Defined.

Lemma extract_images_urls_relative_downloadable_witness :
  exists refs w' joined,
    extract_images_urls cpython "https://x.com/a/b" page_with_relative_source
      empty_world = (Ok refs, w')
    /\ {| position := Z.of_nat 0 + 1; url := Some joined;
          alt := PyStr.strip
                   (default "" (tag_get (img {[ "src" := "../c.png" ]}) "alt"));
          page_url := "https://x.com/a/b" |} ∈ refs
    /\ PyStr.startswith joined "http://" || PyStr.startswith joined "https://"
       = true.
Proof.
  apply (extract_images_urls_relative_downloadable cpython "https://x.com/a/b"
           page_with_relative_source empty_world 0
           (img {[ "src" := "../c.png" ]}) "../c.png"
           {| Urllib.scheme := "https"; Urllib.netloc := "x.com";
              Urllib.path := "/a/b"; Urllib.params := "";
              Urllib.query := ""; Urllib.fragment := "" |}
           {| Urllib.scheme := "https"; Urllib.netloc := "";
              Urllib.path := "../c.png"; Urllib.params := "";
              Urllib.query := ""; Urllib.fragment := "" |}).
  - reflexivity.
  - reflexivity.
  - reflexivity.
  - reflexivity.
  - vm_compute. reflexivity.
  - right. reflexivity.
  - vm_compute. reflexivity.
  - reflexivity.
Defined.

